(** * Site crawler: template classification and bounded traversal

    A shallow embedding of [src/crawler.ts] (class [SiteCrawler]) together
    with the properties its specification states about it.

    Layout:
    - [JsString]: the string operations and the regular expressions the
      crawler uses, each regular expression written out as the scanner it
      denotes;
    - [JsNumber]: numbers and their comparisons;
    - [Host]: what the crawler takes from its platform (the [URL]
      constructor, [fetch], [cheerio.load], the clock);
    - the crawler itself, method by method;
    - [Whatwg] and [Demo]: a concrete platform for closed examples;
    - the theorems. *)

From Stdlib Require Import Ascii String NArith ZArith Lia QArith Lqa.
From stdpp Require Import base option list gmap strings.

Local Open Scope string_scope.
Local Open Scope list_scope.

(** ** JavaScript strings

    A JavaScript string is a sequence of code units; a [string] here is such
    a sequence with every code unit below 256, one [ascii] per unit. *)

Module JsString.

Definition code (c : ascii) : N := N_of_ascii c.

Definition between (lo hi : N) (c : ascii) : bool :=
  ((lo <=? code c) && (code c <=? hi))%N.

(** [\d] *)
Definition isDigit (c : ascii) : bool := between 48 57 c.

(** [[a-z]] and [[A-Z]] *)
Definition isLower (c : ascii) : bool := between 97 122 c.
Definition isUpper (c : ascii) : bool := between 65 90 c.

(** [[a-f0-9-]] *)
Definition isHexDash (c : ascii) : bool :=
  between 97 102 c || isDigit c || (code c =? 45)%N.

(** [[a-z0-9-]] *)
Definition isSlugChar (c : ascii) : bool :=
  isLower c || isDigit c || (code c =? 45)%N.

(** The line terminators, which [.] does not match: LF and CR (the other
    two, U+2028 and U+2029, lie above 255). *)
Definition isLineTerminator (c : ascii) : bool :=
  ((code c =? 10) || (code c =? 13))%N.

(** White space as [String.prototype.trim] sees it, below 256. *)
Definition isWhiteSpace (c : ascii) : bool :=
  between 9 13 c || (code c =? 32)%N || (code c =? 160)%N.

(** [String.prototype.toLowerCase] on one code unit below 256. *)
Definition lowerChar (c : ascii) : ascii :=
  if isUpper c || (between 192 222 c && negb (code c =? 215)%N)
  then ascii_of_N (code c + 32) else c.

(** Case folding of the [i] flag against a pattern of ASCII letters. *)
Definition foldChar (c : ascii) : ascii :=
  if isUpper c then ascii_of_N (code c + 32) else c.

Fixpoint map_chars (f : ascii -> ascii) (s : string) : string :=
  match s with
  | EmptyString => EmptyString
  | String c r => String (f c) (map_chars f r)
  end.

Definition toLowerCase : string -> string := map_chars lowerChar.
Definition foldCase : string -> string := map_chars foldChar.

Fixpoint startsWith (p s : string) : bool :=
  match p, s with
  | EmptyString, _ => true
  | String a p', String b s' => Ascii.eqb a b && startsWith p' s'
  | String _ _, EmptyString => false
  end.

(** [String.prototype.includes] *)
Fixpoint includes (needle s : string) : bool :=
  startsWith needle s ||
  match s with
  | EmptyString => false
  | String _ r => includes needle r
  end.

Fixpoint endsWith (p s : string) : bool :=
  String.eqb p s ||
  match s with
  | EmptyString => false
  | String _ r => endsWith p r
  end.

Fixpoint forallb_chars (f : ascii -> bool) (s : string) : bool :=
  match s with
  | EmptyString => true
  | String c r => f c && forallb_chars f r
  end.

Fixpoint dropWhile (f : ascii -> bool) (s : string) : string :=
  match s with
  | EmptyString => EmptyString
  | String c r => if f c then dropWhile f r else s
  end.

(** Drops the white space at the end: keeps a character when it is not
    white space or when something other than white space follows it. *)
Fixpoint trimEnd (s : string) : string :=
  match s with
  | EmptyString => EmptyString
  | String c r =>
      match trimEnd r with
      | EmptyString => if isWhiteSpace c then EmptyString else String c EmptyString
      | r' => String c r'
      end
  end.

(** [String.prototype.trim] *)
Definition trim (s : string) : string := trimEnd (dropWhile isWhiteSpace s).

(** Length of the longest prefix made of characters satisfying [f]. *)
Fixpoint runLength (f : ascii -> bool) (s : string) : nat :=
  match s with
  | EmptyString => 0
  | String c r => if f c then S (runLength f r) else 0
  end.

Definition headIs (f : ascii -> bool) (s : string) : bool :=
  match s with
  | EmptyString => false
  | String c _ => f c
  end.

Definition isSlash (c : ascii) : bool := (code c =? 47)%N.

(** [s.replace(/\/\d+/g, '/:id')].  A match starts at a slash that a digit
    follows and takes every digit after it; [eating] is set while the
    scanner is inside the digits of a match. *)
Fixpoint replaceIdsFrom (eating : bool) (s : string) : string :=
  match s with
  | EmptyString => EmptyString
  | String c r =>
      if eating && isDigit c then replaceIdsFrom true r
      else if isSlash c && headIs isDigit r then "/:id" +:+ replaceIdsFrom true r
      else String c (replaceIdsFrom false r)
  end.

Definition replaceNumericIds : string -> string := replaceIdsFrom false.

(** [s.replace(/\/[a-f0-9-]{20,}/g, '/:uuid')].  A match starts at a slash
    followed by a run of at least twenty characters of the class, and takes
    the whole run. *)
Fixpoint replaceUuidsFrom (eating : bool) (s : string) : string :=
  match s with
  | EmptyString => EmptyString
  | String c r =>
      if eating && isHexDash c then replaceUuidsFrom true r
      else if isSlash c && (20 <=? runLength isHexDash r)%nat
           then "/:uuid" +:+ replaceUuidsFrom true r
      else String c (replaceUuidsFrom false r)
  end.

Definition replaceUuids : string -> string := replaceUuidsFrom false.

(** [s.replace(/\?.*$/, '')].  Without the [m] flag [$] is the end of the
    input, so the match starts at the first question mark that no line
    terminator follows, and runs to the end. *)
Fixpoint stripQuery (s : string) : string :=
  match s with
  | EmptyString => EmptyString
  | String c r =>
      if (code c =? 63)%N && forallb_chars (fun d => negb (isLineTerminator d)) r
      then EmptyString
      else String c (stripQuery r)
  end.

(** [s.replace(/\/$/, '')]: one slash at the very end is removed. *)
Fixpoint stripTrailingSlash (s : string) : string :=
  match s with
  | EmptyString => EmptyString
  | String c r =>
      match r with
      | EmptyString => if isSlash c then EmptyString else s
      | _ => String c (stripTrailingSlash r)
      end
  end.

(** Truthiness of a string: the empty string is falsy. *)
Definition nonEmpty (s : string) : bool := negb (String.eqb s "").

End JsString.

Import JsString.

(** ** JavaScript numbers

    A JavaScript number is a double: a rational number, one of the two
    infinities, or NaN.  [Finite] takes any rational, so every double has a
    term here; the two zeros are one term. *)

Module JsNumber.

Inductive number := Finite (q : Q) | PosInfinity | NegInfinity | NaN.

Definition ofZ (n : Z) : number := Finite (inject_Z n).
Definition ofNat (n : nat) : number := ofZ (Z.of_nat n).

(** [a <= b]; false when either side is NaN. *)
Definition number_le (a b : number) : bool :=
  match a, b with
  | NaN, _ => false
  | _, NaN => false
  | NegInfinity, _ => true
  | _, PosInfinity => true
  | Finite p, Finite q => Qle_bool p q
  | PosInfinity, _ => false
  | Finite _, NegInfinity => false
  end.

(** [a < b]; false when either side is NaN. *)
Definition number_lt (a b : number) : bool :=
  match a, b with
  | NaN, _ => false
  | _, NaN => false
  | PosInfinity, _ => false
  | _, NegInfinity => false
  | Finite p, Finite q => negb (Qle_bool q p)
  | NegInfinity, _ => true
  | Finite _, PosInfinity => true
  end.

(** [a >= b] *)
Definition number_ge (a b : number) : bool := number_le b a.

(** [a === b] *)
Definition number_eq (a b : number) : bool :=
  match a, b with
  | Finite p, Finite q => Qeq_bool p q
  | PosInfinity, PosInfinity => true
  | NegInfinity, NegInfinity => true
  | _, _ => false
  end.

(** Truthiness of a number: zero and NaN are falsy. *)
Definition nonZero (a : number) : bool :=
  match a with
  | Finite q => negb (Qeq_bool q 0)
  | NaN => false
  | _ => true
  end.

(** The sum of [a] and the integer [k], without rounding. *)
Definition plusZ (a : number) (k : Z) : number :=
  match a with
  | Finite q => Finite (q + inject_Z k)
  | _ => a
  end.

End JsNumber.

Import JsNumber.

(** ** Data model ([src/types.ts]) *)

Inductive PageTemplateType :=
| PDP | PLP | CATEGORY | HOME | SEARCH | CART | CHECKOUT | ACCOUNT | CONTENT | UNKNOWN.

#[global] Instance PageTemplateType_eq_dec : EqDecision PageTemplateType.
Proof. solve_decision. Defined.

Definition PageTemplateType_tag (t : PageTemplateType) : nat :=
  match t with
  | PDP => 0 | PLP => 1 | CATEGORY => 2 | HOME => 3 | SEARCH => 4
  | CART => 5 | CHECKOUT => 6 | ACCOUNT => 7 | CONTENT => 8 | UNKNOWN => 9
  end.

Definition PageTemplateType_of_tag (n : nat) : PageTemplateType :=
  match n with
  | 0 => PDP | 1 => PLP | 2 => CATEGORY | 3 => HOME | 4 => SEARCH
  | 5 => CART | 6 => CHECKOUT | 7 => ACCOUNT | 8 => CONTENT | _ => UNKNOWN
  end.

#[global] Instance PageTemplateType_countable : Countable PageTemplateType.
Proof.
  apply (inj_countable' PageTemplateType_tag PageTemplateType_of_tag).
  by intros [].
Defined.

Record PageTemplate := mkPageTemplate {
  type : PageTemplateType;
  urlPattern : string;
  exampleUrls : list string;
  characteristics : list string;
  detectedElements : list string
}.

Inductive EntityType := EntCATEGORY | EntSUBCATEGORY | EntBRAND | EntCOLLECTION.

Record SiteEntity := mkSiteEntity {
  entityType : EntityType;
  entityName : string;
  entityUrl : string
}.

Record SiteStructure := mkSiteStructure {
  domain : string;
  analyzedAt : string;
  templates : gmap PageTemplateType PageTemplate;
  entities : list SiteEntity;
  siteMap : list string;
  robotsTxt : option string
}.

(** ** The platform *)

(** What the crawler reads of a [URL] object. *)
Record URLRecord := mkURL {
  href : string;       (* [toString()] *)
  hostname : string;
  pathname : string
}.

(** How a call of [fetch] ends: it throws, or it yields a response with its
    [ok] flag (status 200 to 299) and the outcome of reading [text()]
    ([None] when reading the body throws). *)
Inductive FetchOutcome :=
| NetworkError
| Response (ok : bool) (text : option string).

(** The selectors of the source, as terms: a selector is a comma-separated
    group of descendant chains of simple selectors. *)
Inductive Simple :=
| Tag (name : string)                   (* [nav] *)
| Class (name : string)                 (* [.menu] *)
| AttrIs (attr value : string)          (* [[role="navigation"]] *)
| AttrHas (attr part : string)          (* [[class*="price"]] *)
| TagAttrHas (name attr part : string). (* [a[href*="/p/"]] *)

#[global] Instance Simple_eq_dec : EqDecision Simple.
Proof. solve_decision. Defined.

Definition Selector := list (list Simple).

(** What the crawler reads of an element matched by a selector. *)
Record Element := mkElement {
  attr_href : option string;  (* [attr('href')], [None] for undefined *)
  el_text : string            (* [text()] *)
}.

(** A loaded document, seen through its one operation: a selector gives the
    elements that match it, in document order. *)
Definition Document := Selector -> list Element.

(** What the host environment supplies.  A call that can throw gives its
    failure as a value ([None], [NetworkError]); the crawler has each such
    call inside a [try], and the model renders the [catch] as the branch of
    a [match] on that value. *)
Class Host := {
  World : Type;
  (** [new URL(url)] and [new URL(url, base)]; [None] when it throws. *)
  new_URL : string -> option string -> option URLRecord;
  (** [fetch(url)] or [fetch(url, {headers})]: the flag says whether the
      crawler's user-agent header is sent. *)
  fetch : World -> string -> bool -> World * FetchOutcome;
  (** [cheerio.load(html)] *)
  cheerio_load : string -> Document;
  (** [new Date().toISOString()] *)
  toISOString_now : World -> string
}.

(** ** URL pattern extraction *)

Section Generalizer.
Context `{Host}.

Definition generalizePath (path : string) : string :=
  stripQuery (replaceUuids (replaceNumericIds path)).

(** [SiteCrawler.extractUrlPattern] *)
Definition extractUrlPattern (url : string) : string :=
  match new_URL url None with
  | Some urlObj => generalizePath (pathname urlObj)
  | None => url
  end.

End Generalizer.

(** ** Page classification *)

Definition classHas (part : string) : list Simple := [AttrHas "class" part].

Definition count (page : Document) (selector : Selector) : nat :=
  length (page selector).

Definition sel_addToCart : Selector :=
  [classHas "add-to-cart"; classHas "addToCart"; [Tag "button"]].
Definition sel_productTitle : Selector :=
  [classHas "product-title"; classHas "productTitle"; [TagAttrHas "h1" "class" "product"]].
Definition sel_productImage : Selector :=
  [classHas "product-image"; classHas "productImage"; [Class "product-gallery"]].
Definition sel_price : Selector := [classHas "price"].
Definition sel_sku : Selector := [classHas "sku"; classHas "product-id"].
Definition sel_productAnchors : Selector :=
  [[TagAttrHas "a" "href" "/product"]; [TagAttrHas "a" "href" "/p/"];
   [TagAttrHas "a" "class" "product"]].
Definition sel_filters : Selector :=
  [classHas "filter"; classHas "facet"; classHas "refine"].
Definition sel_pagination : Selector := [classHas "pagination"; classHas "pager"].
Definition sel_cart : Selector := [classHas "cart"; classHas "basket"].
Definition sel_searchResults : Selector := [classHas "search-results"].
Definition sel_navigation : Selector :=
  [[Tag "nav"]; [Tag "header"; Tag "nav"]; [Class "navigation"];
   [AttrIs "role" "navigation"]].
Definition sel_footer : Selector := [[Tag "footer"]].
Definition sel_productGrid : Selector := [classHas "product"; classHas "item"].

(** The callback of [.filter] in [isProductDetailPage]. *)
Definition saysAddToCart (el : Element) : bool :=
  includes "add" (toLowerCase (el_text el)) &&
  includes "cart" (toLowerCase (el_text el)).

Definition hasAddToCart (page : Document) : bool :=
  (0 <? length (List.filter saysAddToCart (page sel_addToCart)))%nat.
Definition hasProductTitle (page : Document) : bool :=
  (0 <? count page sel_productTitle)%nat.
Definition hasProductImage (page : Document) : bool :=
  (0 <? count page sel_productImage)%nat.
Definition hasFewPrices (page : Document) : bool :=
  (0 <? count page sel_price)%nat && (count page sel_price <? 10)%nat.
Definition hasSku (page : Document) : bool :=
  (0 <? count page sel_sku)%nat.

Definition pdpIndicators (page : Document) : list bool :=
  [hasAddToCart page; hasProductTitle page; hasProductImage page;
   hasFewPrices page; hasSku page].

(** [SiteCrawler.isProductDetailPage] *)
Definition isProductDetailPage (page : Document) : bool :=
  (2 <=? length (List.filter (fun b : bool => b) (pdpIndicators page)))%nat.

(** [SiteCrawler.isCategoryPage] *)
Definition isCategoryPage (page : Document) : bool :=
  let productLinks := count page sel_productAnchors in
  let hasFilters := (0 <? count page sel_filters)%nat in
  let hasPagination := (0 <? count page sel_pagination)%nat in
  (5 <? productLinks)%nat || ((2 <? productLinks)%nat && (hasFilters || hasPagination)).

(** [SiteCrawler.isCartPage] *)
Definition isCartPage (page : Document) (url : string) : bool :=
  includes "/cart" url || includes "/basket" url || (3 <? count page sel_cart)%nat.

(** [SiteCrawler.isSearchPage] *)
Definition isSearchPage (page : Document) (url : string) : bool :=
  includes "search" url || includes "?q=" url || includes "?query=" url ||
  (0 <? count page sel_searchResults)%nat.

(** The chain of rules in [analyzePageTemplate]: the type and the
    characteristics pushed with it. *)
Definition classify (base : string) (page : Document) (url : string)
  : PageTemplateType * list string :=
  if isProductDetailPage page then
    (PDP, ["Has product title"; "Has add to cart button"; "Has product images"])
  else if isCategoryPage page then
    (CATEGORY, ["Has product grid"; "Has filters/facets"; "Has multiple product links"])
  else if String.eqb url base || String.eqb url (base +:+ "/") then
    (HOME, ["Root URL"; "Has hero banner"; "Has navigation menu"])
  else if isCartPage page url then
    (CART, ["Has cart items"; "Has checkout button"])
  else if isSearchPage page url then
    (SEARCH, ["Has search results"; "Has search query"])
  else (UNKNOWN, []).

Definition detect (page : Document) : list string :=
  (if (0 <? count page sel_navigation)%nat then ["Navigation"] else []) ++
  (if (0 <? count page sel_footer)%nat then ["Footer"] else []) ++
  (if (5 <? count page sel_productGrid)%nat then ["Product Grid"] else []).

Section Classifier.
Context `{Host}.

(** [SiteCrawler.analyzePageTemplate]; [base] is [this.baseUrl]. *)
Definition analyzePageTemplate (base url html : string) : PageTemplate :=
  let page := cheerio_load html in
  let '(ty, chars) := classify base page url in
  {| type := ty;
     urlPattern := extractUrlPattern url;
     exampleUrls := [url];
     characteristics := chars;
     detectedElements := detect page |}.

End Classifier.

(** ** Link heuristics *)

Record Link := mkLink { linkText : string; linkUrl : string }.

(** [/\/(w1|w2|...)/i] *)
Definition testSlashWord (words : list string) (s : string) : bool :=
  existsb (fun w => includes ("/" +:+ w) (foldCase s)) words.

(** [/\/(w1|w2|...)\//i] *)
Definition testSlashWordSlash (words : list string) (s : string) : bool :=
  existsb (fun w => includes ("/" +:+ w +:+ "/") (foldCase s)) words.

(** [/\.(e1|e2|...)$/i] *)
Definition testExtension (exts : list string) (s : string) : bool :=
  existsb (fun e => endsWith ("." +:+ e) (foldCase s)) exts.

(** [/^(p1|p2|...)/] *)
Definition testPrefix (prefixes : list string) (s : string) : bool :=
  existsb (fun p => startsWith p s) prefixes.

(** [/^\/[a-z0-9-]+\/?$/] *)
Definition testSimplePath (s : string) : bool :=
  match s with
  | String c r =>
      isSlash c && headIs isSlugChar r &&
      (let rest := dropWhile isSlugChar r in
       String.eqb rest "" || String.eqb rest "/")
  | EmptyString => false
  end.

(** [SiteCrawler.looksLikeCategoryLink] *)
Definition looksLikeCategoryLink (href text : string) : bool :=
  let excludePatterns : list (string -> bool) :=
    [testSlashWord ["login"; "signup"; "account"; "profile"; "cart"; "checkout";
                    "about"; "contact"; "help"; "faq"; "privacy"; "terms"];
     testExtension ["jpg"; "jpeg"; "png"; "gif"; "svg"; "pdf"; "zip"];
     testPrefix ["mailto:"; "tel:"; "#"];
     testSlashWord ["search"; "blog"; "news"; "article"]] in
  let includePatterns : list (string -> bool) :=
    [testSlashWord ["category"; "categories"; "c"; "cat"; "collection";
                    "collections"; "dept"; "department"];
     testSimplePath] in
  let categoryWords :=
    ["shop"; "men"; "women"; "kids"; "sale"; "new"; "electronics"; "clothing"; "home"] in
  if existsb (fun pattern => pattern href || pattern text) excludePatterns then false
  else if existsb (fun pattern => pattern href) includePatterns then true
  else existsb (fun word => includes word (toLowerCase text)) categoryWords.

Definition navSelectors : list Selector :=
  [ [[Tag "nav"; Tag "a"]];
    [[Tag "header"; Tag "nav"; Tag "a"]];
    [[AttrIs "role" "navigation"; Tag "a"]];
    [[Class "navigation"; Tag "a"]];
    [[Class "menu"; Tag "a"]];
    [[Class "nav-menu"; Tag "a"]];
    [[AttrHas "class" "category"; Tag "a"]];
    [[AttrHas "class" "navigation"; Tag "a"]] ].

Definition productSelectors : list Selector :=
  [ [[TagAttrHas "a" "href" "/product"]];
    [[TagAttrHas "a" "href" "/p/"]];
    [[TagAttrHas "a" "href" "/item"]];
    [[TagAttrHas "a" "class" "product"]];
    [[AttrHas "class" "product"; Tag "a"]] ].

(** The state of the two extraction loops: the [seen] set and [links]. *)
Definition Seen : Type := gset string * list Link.

(** The callback of [.each] in [extractCategoryLinks]. *)
Definition eachCategoryAnchor (st : Seen) (elem : Element) : Seen :=
  let text := trim (el_text elem) in
  match attr_href elem with
  | Some href =>
      if nonEmpty href && nonEmpty text && negb (bool_decide (href ∈ st.1)) then
        if looksLikeCategoryLink href text
        then ({[href]} ∪ st.1, st.2 ++ [mkLink text href])
        else st
      else st
  | None => st
  end.

(** The callback of [.each] in [extractProductLinks]. *)
Definition eachProductAnchor (st : Seen) (elem : Element) : Seen :=
  let text := trim (el_text elem) in
  match attr_href elem with
  | Some href =>
      if nonEmpty href && negb (bool_decide (href ∈ st.1))
      then ({[href]} ∪ st.1, st.2 ++ [mkLink text href])
      else st
  | None => st
  end.

Definition scan (each : Seen -> Element -> Seen) (selectors : list Selector)
    (page : Document) : list Link :=
  (foldl (fun st selector => foldl each st (page selector)) (∅, []) selectors).2.

(** [SiteCrawler.extractCategoryLinks] *)
Definition extractCategoryLinks (page : Document) : list Link :=
  take 20 (scan eachCategoryAnchor navSelectors page).

(** [SiteCrawler.extractProductLinks] *)
Definition extractProductLinks (page : Document) : list Link :=
  take 10 (scan eachProductAnchor productSelectors page).

Section LinkFilter.
Context `{Host}.

(** [SiteCrawler.resolveUrl] *)
Definition resolveUrl (base url : string) : string :=
  match new_URL url (Some base) with
  | Some resolved => href resolved
  | None => url
  end.

(** [SiteCrawler.shouldVisit] *)
Definition shouldVisit (base url : string) : bool :=
  match new_URL url None, new_URL base None with
  | Some urlObj, Some baseUrlObj =>
      if negb (String.eqb (hostname urlObj) (hostname baseUrlObj)) then false
      else
        let excludePatterns : list (string -> bool) :=
          [testExtension ["jpg"; "jpeg"; "png"; "gif"; "svg"; "pdf"; "zip";
                          "css"; "js"; "json"; "xml"];
           testSlashWordSlash ["api"; "cdn"; "static"; "assets"; "media"]] in
        negb (existsb (fun pattern => pattern url) excludePatterns)
  | _, _ => false
  end.

End LinkFilter.

(** ** The crawler *)

(** Who asked for a page: the three call sites of [fetchPage]. *)
Inductive Role := RootPage | CandidatePage | ProductSample.

#[global] Instance Role_eq_dec : EqDecision Role.
Proof. solve_decision. Defined.

(** What a run does to the outside and to its template map, in order.
    The journal is not read by the crawler: it is there for the statements
    about runs. *)
Inductive Event :=
| RobotsRequest (url : string) (outcome : FetchOutcome)
| PageRequest (role : Role) (url : string) (outcome : FetchOutcome)
| TemplateSet (key : PageTemplateType) (value : PageTemplate).

(** The local variables [templates], [entities] and [siteMap] of
    [analyzeSite]. *)
Record Found := mkFound {
  f_templates : gmap PageTemplateType PageTemplate;
  f_entities : list SiteEntity;
  f_siteMap : list string
}.

(** What [if (html)] lets through: a string that is not empty. *)
Definition truthy (v : option string) : option string :=
  match v with
  | Some s => if nonEmpty s then Some s else None
  | None => None
  end.

(** The body a successful response carries. *)
Definition bodyOf (outcome : FetchOutcome) : option string :=
  match outcome with
  | Response true (Some body) => Some body
  | _ => None
  end.

Section Crawler.
Context `{Host}.

(** The fields of the class, then the world it runs in and the journal. *)
Record SiteCrawler := mkSiteCrawler {
  baseUrl : string;
  visitedUrls : gset string;
  maxPages : number;
  world : World;
  journal : list Event
}.

(** The constructor; [maxPages] defaults to 50. *)
Definition new_SiteCrawler (w : World) (url : string) (pages : option number) : SiteCrawler :=
  {| baseUrl := stripTrailingSlash url;
     visitedUrls := ∅;
     maxPages := default (ofZ 50) pages;
     world := w;
     journal := [] |}.

(** Methods run in a state monad over the crawler. *)
Definition Crawl (A : Type) : Type := SiteCrawler -> A * SiteCrawler.

Definition ret {A} (a : A) : Crawl A := fun self => (a, self).

Definition bind {A B} (m : Crawl A) (k : A -> Crawl B) : Crawl B :=
  fun self => let '(a, self') := m self in k a self'.

Notation "'do' x <- m ; k" := (bind m (fun x => k))
  (at level 10, x name, m at level 100, k at level 200).

Definition this {A} (field : SiteCrawler -> A) : Crawl A :=
  fun self => (field self, self).

(** One call of the platform's [fetch], as the journal records it. *)
Definition request (mk : FetchOutcome -> Event) (url : string) (agent : bool)
  : Crawl FetchOutcome :=
  fun self =>
    let '(w, outcome) := fetch (world self) url agent in
    (outcome,
     {| baseUrl := baseUrl self; visitedUrls := visitedUrls self;
        maxPages := maxPages self; world := w;
        journal := journal self ++ [mk outcome] |}).

(** [this.visitedUrls.add(url)] *)
Definition visit (url : string) : Crawl unit :=
  fun self =>
    (tt,
     {| baseUrl := baseUrl self; visitedUrls := {[url]} ∪ visitedUrls self;
        maxPages := maxPages self; world := world self;
        journal := journal self |}).

(** [templates.set(key, value)] *)
Definition templates_set (key : PageTemplateType) (value : PageTemplate)
    (templates : gmap PageTemplateType PageTemplate)
  : Crawl (gmap PageTemplateType PageTemplate) :=
  fun self =>
    (<[key := value]> templates,
     {| baseUrl := baseUrl self; visitedUrls := visitedUrls self;
        maxPages := maxPages self; world := world self;
        journal := journal self ++ [TemplateSet key value] |}).

(** [SiteCrawler.fetchRobotsTxt] *)
Definition fetchRobotsTxt : Crawl (option string) :=
  do base <- this baseUrl;
  let url := base +:+ "/robots.txt" in
  do outcome <- request (RobotsRequest url) url false;
  ret (bodyOf outcome).

(** [SiteCrawler.fetchPage]; [role] only labels the journal entry. *)
Definition fetchPage (role : Role) (url : string) : Crawl (option string) :=
  do visited <- this visitedUrls;
  if bool_decide (url ∈ visited) then ret None
  else
    do _ <- visit url;
    do outcome <- request (PageRequest role url) url true;
    ret (bodyOf outcome).

(** Lines 78 to 87: one product is sampled to find the PDP template. *)
Definition sampleProduct (html : string)
    (templates : gmap PageTemplateType PageTemplate)
  : Crawl (gmap PageTemplateType PageTemplate) :=
  do base <- this baseUrl;
  let productLinks := extractProductLinks (cheerio_load html) in
  match productLinks with
  | first :: _ =>
      if bool_decide (is_Some (templates !! PDP)) then ret templates
      else
        let productUrl := resolveUrl base (linkUrl first) in
        do productHtml <- fetchPage ProductSample productUrl;
        match truthy productHtml with
        | Some productHtml =>
            let pdpTemplate := analyzePageTemplate base productUrl productHtml in
            if bool_decide (type pdpTemplate = PDP)
            then templates_set PDP pdpTemplate templates
            else ret templates
        | None => ret templates
        end
  | [] => ret templates
  end.

(** Lines 54 to 88: what is done with a candidate page that was fetched.
    The source tests twice in a row whether the page is a listing; the two
    branches are one here. *)
Definition visitCandidate (link : Link) (fullUrl html : string) (found : Found)
  : Crawl Found :=
  do base <- this baseUrl;
  let siteMap' := f_siteMap found ++ [fullUrl] in
  let template := analyzePageTemplate base fullUrl html in
  let listing := bool_decide (type template = CATEGORY ∨ type template = PLP) in
  if listing then
    let entities' := f_entities found ++ [mkSiteEntity EntCATEGORY (linkText link) fullUrl] in
    do templates' <-
      (if bool_decide (is_Some (f_templates found !! type template))
       then ret (f_templates found)
       else templates_set (type template) template (f_templates found));
    do templates'' <- sampleProduct html templates';
    ret (mkFound templates'' entities' siteMap')
  else ret (mkFound (f_templates found) (f_entities found) siteMap').

(** Lines 46 to 90: the loop over [categoryLinks]. *)
Fixpoint crawlLinks (links : list Link) (found : Found) : Crawl Found :=
  match links with
  | [] => ret found
  | link :: rest => fun self =>
      if number_ge (ofNat (size (visitedUrls self))) (maxPages self)
      then (found, self)                                    (* break *)
      else
        let fullUrl := resolveUrl (baseUrl self) (linkUrl link) in
        if negb (shouldVisit (baseUrl self) fullUrl)
        then crawlLinks rest found self                     (* continue *)
        else
          let '(html, self1) := fetchPage CandidatePage fullUrl self in
          match truthy html with
          | Some html =>
              let '(found', self2) := visitCandidate link fullUrl html found self1 in
              crawlLinks rest found' self2
          | None => crawlLinks rest found self1
          end
  end.

(** [SiteCrawler.analyzeSite] *)
Definition analyzeSite : Crawl SiteStructure :=
  do robots <- fetchRobotsTxt;
  do base <- this baseUrl;
  do homepageHtml <- fetchPage RootPage base;
  do found <-
    match truthy homepageHtml with
    | Some homepageHtml =>
        let homeTemplate := analyzePageTemplate base base homepageHtml in
        do templates <- templates_set HOME homeTemplate ∅;
        let categoryLinks := extractCategoryLinks (cheerio_load homepageHtml) in
        crawlLinks categoryLinks (mkFound templates [] [])
    | None => ret (mkFound ∅ [] [])
    end;
  do now <- this (fun self => toISOString_now (world self));
  ret {| domain := base;
         analyzedAt := now;
         templates := f_templates found;
         entities := f_entities found;
         siteMap := f_siteMap found;
         robotsTxt := robots |}.

(** [analyze(rootUrl, maxPages)]: a crawler is made and run once.  The
    result comes with the crawler as the run left it. *)
Definition analyze (w : World) (rootUrl : string) (pages : option number)
  : SiteStructure * SiteCrawler :=
  analyzeSite (new_SiteCrawler w rootUrl pages).

(** *** Reading the journal *)

Definition pageRequests (log : list Event) : list (Role * string * FetchOutcome) :=
  omap (fun e => match e with
                 | PageRequest role url outcome => Some (role, url, outcome)
                 | _ => None
                 end) log.

(** The URLs [fetchPage] requested, in order. *)
Definition pagesFetched (log : list Event) : list string :=
  (fun r => r.1.2) <$> pageRequests log.

(** Every URL the run requested, the robots request included. *)
Definition urlsRequested (log : list Event) : list string :=
  omap (fun e => match e with
                 | RobotsRequest url _ => Some url
                 | PageRequest _ url _ => Some url
                 | TemplateSet _ _ => None
                 end) log.

(** The writes to the template map, in order. *)
Definition templateWrites (log : list Event) : list (PageTemplateType * PageTemplate) :=
  omap (fun e => match e with
                 | TemplateSet key value => Some (key, value)
                 | _ => None
                 end) log.

End Crawler.

(** ** A concrete platform

    Closed examples need a [URL] constructor that computes.  [Whatwg] reads
    URLs the way the URL standard does on the plain ones: an ASCII scheme;
    after [http], [https], [ws], [wss] and [ftp] a host without credentials
    and a path that is never empty; after any other scheme an optional
    authority and the rest as the path, which is opaque when it does not
    start with a slash; no dot segments, no backslashes, no character that
    would be percent-encoded, no white space around.  On those it gives
    what [new URL] gives; it is used for examples only, and every theorem
    about the crawler holds for any [Host]. *)

Module Whatwg.

Record Parsed := mkParsed {
  scheme : string;            (* without the colon *)
  authority : option string;  (* host, with the port when there is one *)
  path : string;
  query : option string;      (* without the question mark *)
  fragment : option string    (* without the hash *)
}.

Definition isSchemeChar (c : ascii) : bool :=
  isLower c || isUpper c || isDigit c ||
  ((code c =? 43) || (code c =? 45) || (code c =? 46))%N.

Fixpoint span (keep : ascii -> bool) (s : string) : string * string :=
  match s with
  | EmptyString => (EmptyString, EmptyString)
  | String c r =>
      if keep c then let '(a, b) := span keep r in (String c a, b)
      else (EmptyString, s)
  end.

Fixpoint skip (n : nat) (s : string) : string :=
  match n, s with
  | S m, String _ r => skip m r
  | _, _ => s
  end.

(** Splits at the first character with code [n], which is dropped. *)
Definition cut (n : N) (s : string) : string * option string :=
  match span (fun c => negb (code c =? n)%N) s with
  | (a, String _ b) => (a, Some b)
  | (a, EmptyString) => (a, None)
  end.

(** The scheme, lower-cased, and what follows the colon. *)
Definition splitScheme (s : string) : option (string * string) :=
  if headIs (fun c => isLower c || isUpper c) s then
    match span isSchemeChar s with
    | (sch, String c rest) => if (code c =? 58)%N then Some (foldCase sch, rest) else None
    | (_, EmptyString) => None
    end
  else None.

Definition special : list string := ["http"; "https"; "ws"; "wss"; "ftp"].

Definition isSpecial (sch : string) : bool :=
  existsb (String.eqb sch) special.

(** What follows the scheme: authority and path, then query, then fragment. *)
Definition parseAfterScheme (sch rest : string) : option Parsed :=
  let '(beforeHash, frag) := cut 35 rest in
  let '(body, qry) := cut 63 beforeHash in
  if isSpecial sch then
    let '(auth, pth) := span (fun c => negb (isSlash c)) (dropWhile isSlash body) in
    if nonEmpty auth
    then Some (mkParsed sch (Some (foldCase auth))
                 (if nonEmpty pth then pth else "/") qry frag)
    else None
  else if startsWith "//" body then
    let '(auth, pth) := span (fun c => negb (isSlash c)) (skip 2 body) in
    Some (mkParsed sch (Some auth) pth qry frag)
  else Some (mkParsed sch None body qry frag).

Definition parseAbsolute (s : string) : option Parsed :=
  match splitScheme s with
  | Some (sch, rest) => parseAfterScheme sch rest
  | None => None
  end.

(** The directory of a path: up to its last slash. *)
Fixpoint directory (p : string) : string :=
  match p with
  | EmptyString => EmptyString
  | String c r => if includes "/" r then String c (directory r)
                  else if isSlash c then "/" else EmptyString
  end.

(** A reference without a scheme, against a base with an authority. *)
Definition resolve (b : Parsed) (s : string) : option Parsed :=
  let '(beforeHash, frag) := cut 35 s in
  let '(body, qry) := cut 63 beforeHash in
  if startsWith "//" s then parseAfterScheme (scheme b) s
  else if startsWith "/" s then
    Some (mkParsed (scheme b) (authority b) body qry frag)
  else if nonEmpty body then
    Some (mkParsed (scheme b) (authority b) (directory (path b) +:+ body) qry frag)
  else
    Some (mkParsed (scheme b) (authority b) (path b)
            (match qry with Some q => Some q | None => query b end) frag).

Definition parse (s : string) (base : option string) : option Parsed :=
  match parseAbsolute s, base with
  | Some u, _ => Some u
  | None, Some b =>
      match parseAbsolute b with
      | Some pb =>
          match authority pb with
          | Some _ => resolve pb s
          | None => None
          end
      | None => None
      end
  | None, None => None
  end.

Definition serialize (u : Parsed) : string :=
  scheme u +:+ ":" +:+
  (match authority u with Some a => "//" +:+ a | None => "" end) +:+
  path u +:+
  (match query u with Some q => "?" +:+ q | None => "" end) +:+
  (match fragment u with Some f => "#" +:+ f | None => "" end).

Definition hostOf (u : Parsed) : string :=
  match authority u with
  | Some a => (cut 58 a).1
  | None => ""
  end.

Definition new_URL (s : string) (base : option string) : option URLRecord :=
  match parse s base with
  | Some u => Some (mkURL (serialize u) (hostOf u) (path u))
  | None => None
  end.

End Whatwg.

(** A site that answers every request the same way each time, and an HTML
    parser given as a table. *)
Definition staticHost (site : string -> FetchOutcome) (parser : string -> Document)
  : Host :=
  {| World := unit;
     new_URL := Whatwg.new_URL;
     fetch := fun w url _ => (w, site url);
     cheerio_load := parser;
     toISOString_now := fun _ => "2024-01-01T00:00:00.000Z" |}.

(** A host whose network is down and whose pages are empty: enough for
    the examples that only read URLs. *)
Definition offline : Host := staticHost (fun _ => NetworkError) (fun _ _ => []).

(** ** Notions used in the statements *)

(** The URL standard: without a base, a string that starts with a slash has
    no scheme and is not a URL. *)
Definition rejectsBarePaths (H : Host) : Prop :=
  ∀ s, startsWith "/" s = true → new_URL s None = None.

(** The path [new URL(url)] reads, when there is one. *)
Definition pathOf `{Host} (url : string) : option string :=
  pathname <$> new_URL url None.

(** At least two entries of a list of flags are set. *)
Definition atLeastTwo (flags : list bool) : Prop :=
  ∃ i j : nat, i ≠ j ∧ flags !! i = Some true ∧ flags !! j = Some true.

(** ** Example sites *)

Module Demo.

(** A page given by the selectors it answers; the others match nothing. *)
Definition pageOf (table : list (Selector * list Element)) : Document :=
  fun selector =>
    match List.find (fun row => bool_decide (row.1 = selector)) table with
    | Some row => row.2
    | None => []
    end.

Definition anchor (url text : string) : Element := mkElement (Some url) text.
Definition block (text : string) : Element := mkElement None text.

Definition root : string := "https://example.com".

(** A product page: a button, a title and one price. *)
Definition productPage : Document :=
  pageOf [ (sel_addToCart, [block "Add to Cart"]);
           (sel_productTitle, [block "Blue Kettle"]);
           (sel_price, [block "19.99"]) ].

(** A page with an add-to-cart button and nothing else. *)
Definition buttonPage : Document :=
  pageOf [ (sel_addToCart, [block "Add to cart"]) ].

Definition sixProducts : list Element :=
  [ anchor "/product/1234" "Kettle"; anchor "/product/1235" "Toaster";
    anchor "/product/1236" "Mixer"; anchor "/product/1237" "Blender";
    anchor "/product/1238" "Grinder"; anchor "/product/1239" "Juicer" ].

(** A listing: six product links. *)
Definition listingPage : Document :=
  pageOf [ (sel_productAnchors, sixProducts);
           ([[TagAttrHas "a" "href" "/product"]], sixProducts) ].

(** A home page: a navigation bar of five links. *)
Definition homePage : Document :=
  pageOf [ ([[Tag "nav"; Tag "a"]],
            [ anchor "/electronics" "Electronics";
              anchor "/login" "Sign In";
              anchor "/about" "About Us";
              anchor "/sale" "Sale";
              anchor "/outlet" " Outlet " ]);
           (sel_navigation, [block "menu"]) ].

(** A home page that shows six products and links to one category. *)
Definition storefrontPage : Document :=
  pageOf [ ([[Tag "nav"; Tag "a"]], [anchor "/electronics" "Electronics"]);
           (sel_productAnchors, sixProducts) ].

(** A home page whose navigation links to the robots file. *)
Definition crawlerFriendlyPage : Document :=
  pageOf [ ([[Tag "nav"; Tag "a"]], [anchor "/robots.txt" "Shop rules"]) ].

Definition parser (html : string) : Document :=
  if String.eqb html "<home>" then homePage
  else if String.eqb html "<storefront>" then storefrontPage
  else if String.eqb html "<friendly>" then crawlerFriendlyPage
  else if String.eqb html "<listing>" then listingPage
  else if String.eqb html "<product>" then productPage
  else if String.eqb html "<button>" then buttonPage
  else pageOf [].

Definition ok (body : string) : FetchOutcome := Response true (Some body).
Definition notFound : FetchOutcome := Response false (Some "Not Found").

(** The shop: a home page, one category with products, one category that
    is gone, and one that answers 200 with an empty body. *)
Definition shopSite (url : string) : FetchOutcome :=
  if String.eqb url "https://example.com" then ok "<home>"
  else if String.eqb url "https://example.com/robots.txt" then ok "User-agent: *"
  else if String.eqb url "https://example.com/electronics" then ok "<listing>"
  else if String.eqb url "https://example.com/product/1234" then ok "<product>"
  else if String.eqb url "https://example.com/sale" then notFound
  else if String.eqb url "https://example.com/outlet" then ok ""
  else NetworkError.

(** The same shop with product tiles on its home page. *)
Definition storefrontSite (url : string) : FetchOutcome :=
  if String.eqb url "https://example.com" then ok "<storefront>"
  else shopSite url.

(** A site whose navigation links to its robots file. *)
Definition friendlySite (url : string) : FetchOutcome :=
  if String.eqb url "https://example.com" then ok "<friendly>"
  else if String.eqb url "https://example.com/robots.txt" then ok "User-agent: *"
  else NetworkError.

(** A site that answers 503 to everything. *)
Definition downSite (url : string) : FetchOutcome :=
  Response false (Some "Service Unavailable").

Definition shop : Host := staticHost shopSite parser.
Definition storefront : Host := staticHost storefrontSite parser.
Definition friendly : Host := staticHost friendlySite parser.
Definition down : Host := staticHost downSite parser.

(** The runs of the examples: the shop with the default budget, with a
    budget of two pages, of minus one and of one and a half, and the other
    sites with the default budget. *)
Definition shopRun := @analyze shop tt root None.
Definition shortRun := @analyze shop tt root (Some (ofZ 2)).
Definition negativeRun := @analyze shop tt root (Some (ofZ (-1))).
Definition fractionalRun := @analyze shop tt root (Some (Finite (3 # 2))).
Definition storefrontRun := @analyze storefront tt root None.
Definition friendlyRun := @analyze friendly tt root None.
Definition downRun := @analyze down tt root None.

End Demo.

(** ** Notions about runs *)

(** A response that [if (html)] lets through: [ok], with a body that was
    read and is not empty. *)
Definition delivered (outcome : FetchOutcome) : bool :=
  bool_decide (is_Some (truthy (bodyOf outcome))).

(** A fetch that succeeded: the response came and its status was 2xx. *)
Definition succeeded (outcome : FetchOutcome) : bool :=
  match outcome with
  | Response true _ => true
  | _ => false
  end.

(** A fetch that failed: a network error or a status that is not 2xx. *)
Definition failed (outcome : FetchOutcome) : bool := negb (succeeded outcome).

(** The candidate pages that were requested and delivered, in order. *)
Definition candidateHits (log : list Event) : list string :=
  omap (fun e => match e with
                 | PageRequest CandidatePage url outcome =>
                     if delivered outcome then Some url else None
                 | _ => None
                 end) log.

Section RunNotions.
Context `{Host}.

(** The number of calls [fetchPage] made to [fetch]. *)
Definition fetches (self : SiteCrawler) : nat :=
  length (pagesFetched (journal self)).

(** The visited set is the set of pages requested, each requested once. *)
Definition Sound (self : SiteCrawler) : Prop :=
  NoDup (pagesFetched (journal self)) ∧
  ∀ u, u ∈ visitedUrls self ↔ u ∈ pagesFetched (journal self).

(** The template map holds what was written to it, each key written once. *)
Definition Written (self : SiteCrawler)
    (tpls : gmap PageTemplateType PageTemplate) : Prop :=
  NoDup (templateWrites (journal self)).*1 ∧
  tpls = list_to_map (templateWrites (journal self)).

(** What holds of the crawler and the three accumulators between any two
    steps of [analyzeSite]. *)
Record Coherent (self : SiteCrawler) (found : Found) : Prop := mkCoherent {
  co_sound : Sound self;
  co_written : Written self (f_templates found);
  co_siteMap : f_siteMap found = candidateHits (journal self);
  co_entities : (entityUrl <$> f_entities found) `sublist_of` f_siteMap found
}.

(** [self'] is [self] some steps later. *)
Definition Later (self self' : SiteCrawler) : Prop :=
  baseUrl self' = baseUrl self ∧ maxPages self' = maxPages self ∧
  journal self `prefix_of` journal self'.

(** The budget as the loop keeps it. *)
Definition withinBudget (self : SiteCrawler) : Prop :=
  number_lt (ofZ (Z.of_nat (fetches self) - 2)) (maxPages self) = true ∧
  number_le (ofNat (length (candidateHits (journal self)))) (maxPages self) = true ∧
  ∃ url outcome, PageRequest RootPage url outcome ∈ journal self.

End RunNotions.

Section StepNotion.
Context `{Host}.

(** A stretch of a run that requests no candidate page and makes at most
    [n] calls of [fetch]: what it keeps and what it may change. *)
Record Step (n : nat) (self : SiteCrawler) (tpls : gmap PageTemplateType PageTemplate)
    (self' : SiteCrawler) (tpls' : gmap PageTemplateType PageTemplate) : Prop := mkStep {
  st_sound : Sound self → Sound self';
  st_written : Written self tpls → Written self' tpls';
  st_later : Later self self';
  st_keeps : tpls ⊆ tpls';
  st_hits : candidateHits (journal self') = candidateHits (journal self);
  st_cost : (fetches self' ≤ fetches self + n)%nat
}.

End StepNotion.

(** ** Paths as lists of segments *)








(** ** Notions about what a run adds *)

Section AddedNotion.
Context `{Host}.

(** What the loop may append to the journal: requests for candidates that
    passed [shouldVisit], requests for product samples, and writes of a
    Category or PDP template under the key of its own type. *)
Definition addedBy (base : string) (e : Event) : Prop :=
  match e with
  | RobotsRequest _ _ => False
  | PageRequest RootPage _ _ => False
  | PageRequest CandidatePage url _ => shouldVisit base url = true
  | PageRequest ProductSample _ _ => True
  | TemplateSet key value => type value = key ∧ (key = CATEGORY ∨ key = PDP)
  end.

End AddedNotion.

(** The requests for the robots file, in order. *)
Definition robotsRequests (log : list Event) : list (string * FetchOutcome) :=
  omap (fun e => match e with
                 | RobotsRequest url outcome => Some (url, outcome)
                 | _ => None
                 end) log.

(** More runs of the example shop: a budget of one page, and a budget far
    above what the site offers. *)
Module Tour.

Definition singleRun := @analyze Demo.shop tt Demo.root (Some (ofZ 1)).
Definition lavishRun := @analyze Demo.shop tt Demo.root (Some (ofZ 1000)).
Definition slashRun := @analyze Demo.shop tt "https://example.com/" None.

End Tour.

(** ** Notions about link extraction *)

(** The link the callback of [extractCategoryLinks] pushes for an anchor
    whose href it has not seen, if it pushes one. *)
Definition categoryCandidate (elem : Element) : option Link :=
  let text := trim (el_text elem) in
  match attr_href elem with
  | Some href =>
      if nonEmpty href && nonEmpty text && looksLikeCategoryLink href text
      then Some (mkLink text href) else None
  | None => None
  end.

(** The same for [extractProductLinks]. *)
Definition productCandidate (elem : Element) : option Link :=
  match attr_href elem with
  | Some href => if nonEmpty href then Some (mkLink (trim (el_text elem)) href) else None
  | None => None
  end.

(** Both callbacks in one shape: the candidate link is pushed unless its
    href is in the [seen] set. *)
Definition collect (candidate : Element -> option Link) (st : Seen) (elem : Element)
  : Seen :=
  match candidate elem with
  | Some link =>
      if bool_decide (linkUrl link ∈ st.1) then st
      else ({[linkUrl link]} ∪ st.1, st.2 ++ [link])
  | None => st
  end.

(** The anchors the selectors match, selector after selector. *)
Definition anchorsOf (selectors : list Selector) (page : Document) : list Element :=
  mjoin (page <$> selectors).

(** ** Notions about the link filter *)

(** One of the four exclusion patterns of [looksLikeCategoryLink] matches. *)
Definition linkExcluded (s : string) : bool :=
  testSlashWord ["login"; "signup"; "account"; "profile"; "cart"; "checkout";
                 "about"; "contact"; "help"; "faq"; "privacy"; "terms"] s ||
  testExtension ["jpg"; "jpeg"; "png"; "gif"; "svg"; "pdf"; "zip"] s ||
  testPrefix ["mailto:"; "tel:"; "#"] s ||
  testSlashWord ["search"; "blog"; "news"; "article"] s.

(** The text contains one of the category words. *)
Definition hasCategoryWord (text : string) : bool :=
  existsb (fun word => includes word (toLowerCase text))
    ["shop"; "men"; "women"; "kids"; "sale"; "new"; "electronics"; "clothing"; "home"].

(** ** Scenario names ([src/scenario-generator.ts]) *)

(** [s.replace(/[^a-z0-9]+/g, '_')]: every longest run of characters other
    than lower-case letters and digits becomes one underscore; [inRun] is
    set while the scanner is inside such a run. *)
Fixpoint squashFrom (inRun : bool) (s : string) : string :=
  match s with
  | EmptyString => EmptyString
  | String c r =>
      if isLower c || isDigit c then String c (squashFrom false r)
      else if inRun then squashFrom true r
      else String "_" (squashFrom true r)
  end.

(** [ScenarioGenerator.toPythonFunctionName] *)
Definition toPythonFunctionName (name : string) : string :=
  squashFrom false (toLowerCase name).

(** Lower-case letters, digits and single underscores; [afterUnderscore]
    says that the character before was an underscore. *)
Fixpoint isSnake (afterUnderscore : bool) (s : string) : bool :=
  match s with
  | EmptyString => true
  | String c r =>
      if isLower c || isDigit c then isSnake false r
      else (code c =? 95)%N && negb afterUnderscore && isSnake true r
  end.

(** ** Scenarios ([src/types.ts], [src/scenario-generator.ts]) *)

#[global] Instance EntityType_eq_dec : EqDecision EntityType.
Proof. solve_decision. Defined.

(** The string values of the enumeration [PageTemplateType]. *)
Definition PageTemplateType_value (t : PageTemplateType) : string :=
  match t with
  | PDP => "Product Detail Page"
  | PLP => "Product Listing Page"
  | CATEGORY => "Category Page"
  | HOME => "Home Page"
  | SEARCH => "Search Results Page"
  | CART => "Cart Page"
  | CHECKOUT => "Checkout Page"
  | ACCOUNT => "Account Page"
  | CONTENT => "Content/CMS Page"
  | UNKNOWN => "Unknown"
  end.

Inductive CrawlAction :=
| NAVIGATE | CLICK | TYPE | WAIT | SCROLL | EXTRACT | VERIFY_TEMPLATE.

#[global] Instance CrawlAction_eq_dec : EqDecision CrawlAction.
Proof. solve_decision. Defined.

Record CrawlStep := mkCrawlStep {
  action : CrawlAction;
  target : option string;
  selector : option string;
  value : option string;
  waitFor : option string;
  stepDescription : string
}.

Record CrawlScenario := mkCrawlScenario {
  name : string;
  description : string;
  steps : list CrawlStep;
  expectedTemplates : list PageTemplateType
}.

(** A [SiteStructure] as its readers see it: a [Map] is read by key, and
    its keys and entries come in the order the keys were first set. *)
Record Analysis := mkAnalysis {
  structure : SiteStructure;
  keyOrder : list PageTemplateType
}.

(** [Array.from(templates.entries())] *)
Definition templateEntries (a : Analysis) : list (PageTemplateType * PageTemplate) :=
  omap (fun key => (fun tpl => (key, tpl)) <$> templates (structure a) !! key)
       (keyOrder a).

(** The quotation mark, and the attribute selectors written with it. *)
Definition quote : string := String (ascii_of_N 34) EmptyString.

Definition attrSelector (attr op val : string) : string :=
  "[" +:+ attr +:+ op +:+ quote +:+ val +:+ quote +:+ "]".

Definition classPart (val : string) : string := attrSelector "class" "*=" val.
Definition hrefPart (val : string) : string := attrSelector "href" "*=" val.
Definition typeIs (val : string) : string := attrSelector "type" "=" val.

Definition navigateTo (url text : string) : CrawlStep :=
  mkCrawlStep NAVIGATE (Some url) None None None text.
Definition waitForSelector (sel text : string) : CrawlStep :=
  mkCrawlStep WAIT None None None (Some sel) text.
Definition verifyTemplate (t : PageTemplateType) (text : string) : CrawlStep :=
  mkCrawlStep VERIFY_TEMPLATE None None (Some (PageTemplateType_value t)) None text.
Definition extractFrom (sel text : string) : CrawlStep :=
  mkCrawlStep EXTRACT None (Some sel) None None text.

(** [entities.filter(e => e.type === EntityType.CATEGORY)] *)
Definition categoriesOf (s : SiteStructure) : list SiteEntity :=
  List.filter (fun e => bool_decide (entityType e = EntCATEGORY)) (entities s).

(** [ScenarioGenerator.createHomepageScenario] *)
Definition createHomepageScenario (a : Analysis) : CrawlScenario :=
  mkCrawlScenario "Homepage Verification"
    "Verify homepage loads correctly and extract navigation"
    [ navigateTo (domain (structure a)) "Navigate to homepage";
      waitForSelector "nav, header" "Wait for page to load";
      verifyTemplate HOME "Verify homepage template";
      extractFrom "nav a, header nav a" "Extract navigation links" ]
    [HOME].

(** The four steps pushed for one category. *)
Definition categorySteps (category : SiteEntity) : list CrawlStep :=
  [ navigateTo (entityUrl category)
      ("Navigate to " +:+ entityName category +:+ " category");
    waitForSelector (classPart "product" +:+ ", " +:+ classPart "item")
      "Wait for products to load";
    verifyTemplate CATEGORY "Verify category page template";
    extractFrom ("a" +:+ hrefPart "/product" +:+ ", a" +:+ hrefPart "/p/")
      "Extract product links" ].

(** [ScenarioGenerator.createCategoryBrowsingScenario] *)
Definition createCategoryBrowsingScenario (a : Analysis) : CrawlScenario :=
  mkCrawlScenario "Category Browsing"
    "Browse through site categories and verify category pages"
    (navigateTo (domain (structure a)) "Navigate to homepage" ::
     mbind categorySteps (take 5 (categoriesOf (structure a))))
    [CATEGORY; PLP].

(** [ScenarioGenerator.createProductDetailScenario] *)
Definition createProductDetailScenario (a : Analysis) : CrawlScenario :=
  let exampleUrl :=
    match templates (structure a) !! PDP with
    | Some pdpTemplate =>
        match exampleUrls pdpTemplate with
        | first :: _ => if nonEmpty first then first else ""
        | [] => ""
        end
    | None => ""
    end in
  mkCrawlScenario "Product Detail Verification"
    "Verify product detail page structure and elements"
    [ navigateTo exampleUrl "Navigate to product detail page";
      waitForSelector (classPart "product-title" +:+ ", h1")
        "Wait for product details to load";
      verifyTemplate PDP "Verify product detail page template";
      extractFrom (classPart "price") "Extract product price";
      extractFrom (classPart "product-title" +:+ ", h1") "Extract product title";
      extractFrom (classPart "add-to-cart" +:+ ", " +:+ classPart "addToCart"
                   +:+ ", button")
        "Verify add to cart button exists" ]
    [PDP].

(** [ScenarioGenerator.createSearchScenario] *)
Definition createSearchScenario (a : Analysis) : CrawlScenario :=
  mkCrawlScenario "Search Functionality"
    "Test search functionality and results page"
    [ navigateTo (domain (structure a)) "Navigate to homepage";
      waitForSelector ("input" +:+ typeIs "search" +:+ ", " +:+ classPart "search")
        "Wait for search box";
      mkCrawlStep TYPE None
        (Some ("input" +:+ typeIs "search" +:+ ", " +:+ classPart "search" +:+ " input"))
        (Some "test") None "Enter search query";
      mkCrawlStep CLICK None
        (Some ("button" +:+ typeIs "submit" +:+ ", " +:+ classPart "search" +:+ " button"))
        None None "Submit search";
      waitForSelector (classPart "result" +:+ ", " +:+ classPart "product")
        "Wait for search results";
      verifyTemplate SEARCH "Verify search results page template" ]
    [SEARCH].

(** [ScenarioGenerator.createFullCrawlScenario] *)
Definition createFullCrawlScenario (a : Analysis) : CrawlScenario :=
  mkCrawlScenario "Full Site Crawl"
    "Comprehensive crawl of all discovered categories"
    (navigateTo (domain (structure a)) "Start at homepage" ::
     ((fun category =>
         navigateTo (entityUrl category) ("Crawl " +:+ entityName category))
      <$> categoriesOf (structure a)))
    (templateEntries a).*1.

(** [ScenarioGenerator.generateScenarios] *)
Definition generateScenarios (a : Analysis) : list CrawlScenario :=
  [createHomepageScenario a] ++
  (if (0 <? length (entities (structure a)))%nat
   then [createCategoryBrowsingScenario a] else []) ++
  (if bool_decide (is_Some (templates (structure a) !! PDP))
   then [createProductDetailScenario a] else []) ++
  (if bool_decide (is_Some (templates (structure a) !! SEARCH))
   then [createSearchScenario a] else []) ++
  [createFullCrawlScenario a].

(** The analysis a run hands over: its model, with the keys of the
    template map in the order of the writes. *)
Definition analysisOf `{Host} (run : SiteStructure * SiteCrawler) : Analysis :=
  mkAnalysis run.1 (templateWrites (journal run.2)).*1.

(** ** The server ([src/index.ts])

    The tool handlers, for callers that keep to the input schemas: [url]
    and [format] are strings and [maxPages] is a number, each one present
    or not.  A reply is the object the handler hands to
    [JSON.stringify]; one call runs at a time. *)

Inductive ErrorCode := InvalidParams | InvalidRequest | MethodNotFound | InternalError.

Record McpError := mkMcpError {
  errorCode : ErrorCode;
  errorMessage : string
}.

Record Args := mkArgs {
  arg_url : option string;
  arg_maxPages : option number;
  arg_format : option string
}.

(** An entry of the template map as the replies show it: [type] is the key
    of the entry. *)
Record TemplateView := mkTemplateView {
  view_type : PageTemplateType;
  view_urlPattern : string;
  view_exampleUrls : list string;
  view_characteristics : list string;
  view_detectedElements : list string
}.

Record Summary := mkSummary {
  templatesFound : nat;
  categoriesFound : nat;
  subcategoriesFound : nat;
  pagesAnalyzed : nat
}.

Record AnalyzeReply := mkAnalyzeReply {
  reply_domain : string;
  reply_analyzedAt : string;
  reply_summary : Summary;
  reply_templates : list TemplateView;
  reply_categories : list SiteEntity;
  reply_robotsTxt : string
}.

Record CategoriesReply := mkCategoriesReply {
  categories_domain : string;
  totalCategories : nat;
  categories_list : list SiteEntity
}.

Record TemplatesReply := mkTemplatesReply {
  templates_domain : string;
  totalTemplates : nat;
  templates_list : list TemplateView
}.

(** The reply of [generate_crawl_scenarios]: the scenarios as they are, or
    the code rendered from each of them in the language asked for (the
    rendering itself is left out). *)
Inductive ScenariosReply :=
| ScenariosJson (domain : string) (scenarios : list CrawlScenario)
| ScenariosCode (language : string) (scenarios : list CrawlScenario).


(** [Array.from(templates.entries()).map(([type, template]) => ...)] *)
Definition templateViews (a : Analysis) : list TemplateView :=
  (fun entry : PageTemplateType * PageTemplate =>
     mkTemplateView entry.1 (urlPattern entry.2) (exampleUrls entry.2)
       (characteristics entry.2) (detectedElements entry.2))
  <$> templateEntries a.

(** [entities.filter(e => e.type === t)] *)
Definition entitiesOfType (t : EntityType) (s : SiteStructure) : list SiteEntity :=
  List.filter (fun e => bool_decide (entityType e = t)) (entities s).

Definition urlRequired : McpError := mkMcpError InvalidParams "url is required".
Definition notAnalyzed : McpError :=
  mkMcpError InvalidRequest "Site not analyzed yet. Run analyze_site first.".

Section Server.
Context `{Host}.

(** The server between two calls: the cache, and the world outside. *)
Record SiteAuditServer := mkServer {
  siteCache : gmap string Analysis;
  outside : World
}.

(** [SiteAuditServer.handleAnalyzeSite] *)
Definition handleAnalyzeSite (server : SiteAuditServer) (args : Args)
  : (McpError + AnalyzeReply) * SiteAuditServer :=
  let pages :=
    match arg_maxPages args with
    | Some n => if nonZero n then n else ofZ 50
    | None => ofZ 50
    end in
  match truthy (arg_url args) with
  | None => (inl urlRequired, server)
  | Some url =>
      let run := analyze (outside server) url (Some pages) in
      let a := analysisOf run in
      let siteStructure := structure a in
      (inr {| reply_domain := domain siteStructure;
              reply_analyzedAt := analyzedAt siteStructure;
              reply_summary :=
                {| templatesFound := length (templateViews a);
                   categoriesFound := length (entitiesOfType EntCATEGORY siteStructure);
                   subcategoriesFound :=
                     length (entitiesOfType EntSUBCATEGORY siteStructure);
                   pagesAnalyzed := length (siteMap siteStructure) |};
              reply_templates := templateViews a;
              reply_categories := entities siteStructure;
              reply_robotsTxt :=
                match truthy (robotsTxt siteStructure) with
                | Some _ => "Available"
                | None => "Not found"
                end |},
       {| siteCache := <[url := a]> (siteCache server);
          outside := world run.2 |})
  end.

(** The opening of the three readers: the [url] check and the cache
    lookup. *)
Definition cached (server : SiteAuditServer) (args : Args) : McpError + Analysis :=
  match truthy (arg_url args) with
  | None => inl urlRequired
  | Some url =>
      match siteCache server !! url with
      | None => inl notAnalyzed
      | Some a => inr a
      end
  end.

(** [SiteAuditServer.handleGetCategories] *)
Definition handleGetCategories (server : SiteAuditServer) (args : Args)
  : McpError + CategoriesReply :=
  match cached server args with
  | inl error => inl error
  | inr a =>
      let categories :=
        List.filter (fun e => bool_decide (entityType e = EntCATEGORY)
                              || bool_decide (entityType e = EntSUBCATEGORY))
                    (entities (structure a)) in
      inr {| categories_domain := domain (structure a);
             totalCategories := length categories;
             categories_list := categories |}
  end.

(** [SiteAuditServer.handleGetTemplates] *)
Definition handleGetTemplates (server : SiteAuditServer) (args : Args)
  : McpError + TemplatesReply :=
  match cached server args with
  | inl error => inl error
  | inr a =>
      inr {| templates_domain := domain (structure a);
             totalTemplates := length (templateViews a);
             templates_list := templateViews a |}
  end.

(** [SiteAuditServer.handleGenerateScenarios] *)
Definition handleGenerateScenarios (server : SiteAuditServer) (args : Args)
  : McpError + ScenariosReply :=
  let format := default "json" (truthy (arg_format args)) in
  match cached server args with
  | inl error => inl error
  | inr a =>
      let scenarios := generateScenarios a in
      if String.eqb format "json"
      then inr (ScenariosJson (domain (structure a)) scenarios)
      else if String.eqb format "python" || String.eqb format "javascript"
      then inr (ScenariosCode format scenarios)
      else inl (mkMcpError InvalidParams
                  "Invalid format. Use json, python, or javascript")
  end.


(** [new SiteAuditServer()] *)
Definition new_SiteAuditServer (w : World) : SiteAuditServer :=
  {| siteCache := ∅; outside := w |}.

End Server.

(** ** Notions about the template map *)

Section FirstNotions.
Context `{Host}.

(** The templates the classifier gives the pages of one role that came, in
    the order of their requests. *)
Definition pageTemplates (base : string) (role : Role) (log : list Event)
  : list PageTemplate :=
  omap (fun e => match e with
                 | PageRequest r url outcome =>
                     if bool_decide (r = role)
                     then analyzePageTemplate base url <$> truthy (bodyOf outcome)
                     else None
                 | _ => None
                 end) log.

(** The first template of type [t] in a list. *)
Definition firstOfType (t : PageTemplateType) (tpls : list PageTemplate)
  : option PageTemplate :=
  head (List.filter (fun tpl => bool_decide (type tpl = t)) tpls).

(** The Category entry is the template of the first candidate page the
    classifier called a category, and the PDP entry that of the first
    sampled page it called a product page. *)
Definition FirstKept (self : SiteCrawler)
    (tpls : gmap PageTemplateType PageTemplate) : Prop :=
  tpls !! CATEGORY
  = firstOfType CATEGORY (pageTemplates (baseUrl self) CandidatePage (journal self)) ∧
  tpls !! PDP
  = firstOfType PDP (pageTemplates (baseUrl self) ProductSample (journal self)).

End FirstNotions.

(** A shop whose navigation leads to a product page and then to a
    category. *)
Module Boutique.

Definition boutiquePage : Document :=
  Demo.pageOf [ ([[Tag "nav"; Tag "a"]],
                 [ Demo.anchor "/kettle" "Kettle";
                   Demo.anchor "/electronics" "Electronics" ]) ].

Definition parser (html : string) : Document :=
  if String.eqb html "<boutique>" then boutiquePage else Demo.parser html.

Definition boutiqueSite (url : string) : FetchOutcome :=
  if String.eqb url "https://example.com" then Demo.ok "<boutique>"
  else if String.eqb url "https://example.com/kettle" then Demo.ok "<product>"
  else Demo.shopSite url.

Definition boutique : Host := staticHost boutiqueSite parser.

Definition boutiqueRun := @analyze boutique tt Demo.root None.

End Boutique.

(** * Properties *)

(** ** Numbers *)

Section NumberFacts.

Lemma Qle_bool_false (p q : Q) : Qle_bool p q = false ↔ (q < p)%Q.
Proof.
  rewrite <- Bool.not_true_iff_false, Qle_bool_iff. split.
  - apply Qnot_le_lt.
  - apply Qlt_not_le.
Qed.

Lemma number_le_integers (a b : Z) : number_le (ofZ a) (ofZ b) = true ↔ (a ≤ b)%Z.
Proof. cbn. by rewrite Qle_bool_iff, <- Zle_Qle. Qed.

Lemma number_lt_integers (a b : Z) : number_lt (ofZ a) (ofZ b) = true ↔ (a < b)%Z.
Proof. cbn. by rewrite Bool.negb_true_iff, Qle_bool_false, <- Zlt_Qlt. Qed.

(** A test [m <= z] that fails for a number that is not NaN means [z < m]. *)
Lemma number_not_le_lt (m : number) (z z' : Z) :
  number_le m (ofZ z) = false → number_le (ofZ z') m = true →
  number_lt (ofZ z) m = true.
Proof. destruct m as [q| | |]; cbn; try done. by intros ->. Qed.

Lemma number_lt_mono (m : number) (a b : Z) :
  number_lt (ofZ a) m = true → (b ≤ a)%Z → number_lt (ofZ b) m = true.
Proof.
  destruct m as [q| | |]; cbn; try done.
  rewrite !Bool.negb_true_iff, !Qle_bool_false, Zle_Qle. intros ? ?. lra.
Qed.

Lemma number_lt_le (m : number) (a b : Z) :
  number_lt (ofZ a) m = true → (b ≤ a)%Z → number_le (ofZ b) m = true.
Proof.
  destruct m as [q| | |]; cbn; try done.
  rewrite Bool.negb_true_iff, Qle_bool_false, Qle_bool_iff, Zle_Qle. intros ? ?. lra.
Qed.

Lemma number_le_mono_l (m : number) (a b : Z) :
  number_le (ofZ a) m = true → (b ≤ a)%Z → number_le (ofZ b) m = true.
Proof.
  destruct m as [q| | |]; cbn; try done.
  rewrite !Qle_bool_iff, Zle_Qle. intros ? ?. lra.
Qed.

Lemma number_le_mono_r (m : number) (a b : Z) :
  number_le m (ofZ a) = true → (a ≤ b)%Z → number_le m (ofZ b) = true.
Proof.
  destruct m as [q| | |]; cbn; try done.
  rewrite !Qle_bool_iff, Zle_Qle. intros ? ?. lra.
Qed.

Lemma number_le_lt (m : number) (a b : Z) :
  number_le (ofZ a) m = true → (b < a)%Z → number_lt (ofZ b) m = true.
Proof.
  destruct m as [q| | |]; cbn; try done.
  rewrite Bool.negb_true_iff, Qle_bool_false, Qle_bool_iff, Zlt_Qlt. intros ? ?. lra.
Qed.

(** Against an integer budget, [a < m] is [a < n]. *)
Lemma number_lt_integer (m : number) (n a : Z) :
  number_eq m (ofZ n) = true → number_lt (ofZ a) m = true → (a < n)%Z.
Proof.
  destruct m as [q| | |]; cbn; try done.
  rewrite Qeq_bool_iff, Bool.negb_true_iff, Qle_bool_false, Zlt_Qlt. intros ? ?. lra.
Qed.

(** A number above zero is truthy. *)
Lemma number_positive_nonZero (m : number) :
  number_lt (ofZ 0) m = true → nonZero m = true.
Proof.
  destruct m as [q| | |]; cbn; try done.
  rewrite !Bool.negb_true_iff, Qle_bool_false. intros Hpos.
  destruct (Qeq_bool q 0) eqn:Hzero; [|done].
  apply Qeq_bool_iff in Hzero. change (inject_Z 0) with 0%Q in Hpos. lra.
Qed.

Lemma number_le_integer (m : number) (n a : Z) :
  number_eq m (ofZ n) = true → number_le (ofZ a) m = true → (a ≤ n)%Z.
Proof.
  destruct m as [q| | |]; cbn; try done.
  rewrite Qeq_bool_iff, Qle_bool_iff, Zle_Qle. intros ? ?. lra.
Qed.

Lemma number_le_of_integer (m : number) (n a : Z) :
  number_eq m (ofZ n) = true → (a ≤ n)%Z → number_le (ofZ a) m = true.
Proof.
  destruct m as [q| | |]; cbn; try done.
  rewrite Qeq_bool_iff, Qle_bool_iff, Zle_Qle. intros ? ?. lra.
Qed.

Lemma number_le_plusZ (m : number) (a k : Z) :
  number_le (ofZ a) (plusZ m k) = number_le (ofZ (a - k)) m.
Proof.
  destruct m as [q| | |]; cbn; try done.
  apply Bool.eq_iff_eq_true. rewrite !Qle_bool_iff.
  unfold Z.sub. rewrite inject_Z_plus, inject_Z_opp. split; intros; lra.
Qed.

Lemma number_lt_plusZ (m : number) (a k : Z) :
  number_lt (ofZ a) (plusZ m k) = number_lt (ofZ (a - k)) m.
Proof.
  destruct m as [q| | |]; cbn; try done.
  apply Bool.eq_iff_eq_true. rewrite !Bool.negb_true_iff, !Qle_bool_false.
  unfold Z.sub. rewrite inject_Z_plus, inject_Z_opp. split; intros; lra.
Qed.

End NumberFacts.

(** ** The pattern generalizer *)

Lemma startsWith_slash (s : string) :
  startsWith "/" s = true ↔ ∃ r, s = String "/" r.
Proof.
  destruct s as [|c r]; cbn [startsWith].
  - split; [done | by intros [? ?]].
  - rewrite andb_true_r, Ascii.eqb_eq. split.
    + intros <-. by exists r.
    + by intros [r' [= <- _]].
Qed.

Lemma replaceNumericIds_slash (r : string) :
  ∃ r', replaceNumericIds (String "/" r) = String "/" r'.
Proof.
  unfold replaceNumericIds. cbn [replaceIdsFrom andb].
  destruct (isSlash "/" && headIs isDigit r); eauto.
Qed.

Lemma replaceUuids_slash (r : string) :
  ∃ r', replaceUuids (String "/" r) = String "/" r'.
Proof.
  unfold replaceUuids. cbn [replaceUuidsFrom andb].
  destruct (isSlash "/" && (20 <=? runLength isHexDash r)%nat); eauto.
Qed.

Lemma stripQuery_slash (r : string) :
  stripQuery (String "/" r) = String "/" (stripQuery r).
Proof. reflexivity. Qed.

(** A path that starts with a slash keeps its slash. *)
Lemma generalizePath_slash (p : string) :
  startsWith "/" p = true → startsWith "/" (generalizePath p) = true.
Proof.
  rewrite !startsWith_slash. intros [r ->]. unfold generalizePath.
  destruct (replaceNumericIds_slash r) as [r1 ->].
  destruct (replaceUuids_slash r1) as [r2 ->].
  rewrite stripQuery_slash. eauto.
Qed.

(** *** Segment by segment *)

Lemma append_cons c s t : String c s +:+ t = String c (s +:+ t).
Proof. reflexivity. Qed.
























Lemma Whatwg_rejectsBarePaths site parser :
  rejectsBarePaths (staticHost site parser).
Proof.
  intros s [r ->]%startsWith_slash. reflexivity.
Qed.

Lemma extractUrlPattern_path `{Host} (url p : string) :
  pathOf url = Some p → extractUrlPattern url = generalizePath p.
Proof.
  unfold pathOf, extractUrlPattern.
  destruct (new_URL url None) as [r|]; simpl; [|done]. by intros [= <-].
Qed.

Lemma extractUrlPattern_not_url `{Host} (url : string) :
  pathOf url = None → extractUrlPattern url = url.
Proof.
  unfold pathOf, extractUrlPattern.
  by destruct (new_URL url None).
Qed.

(** C3, as the code has it.  Applying [extractUrlPattern] twice gives what
    applying it once gives, for every input that is not a URL and for every
    URL whose path starts with a slash (every http and https URL does),
    on any platform whose [URL] constructor rejects bare paths. *)
Theorem extractUrlPattern_idempotent `{Host} (u : string) :
  rejectsBarePaths _ →
  (∀ p, pathOf u = Some p → startsWith "/" p = true) →
  extractUrlPattern (extractUrlPattern u) = extractUrlPattern u.
Proof.
  intros Hbare Hslash.
  destruct (pathOf u) as [p|] eqn:Hp.
  - rewrite (extractUrlPattern_path u p Hp).
    apply extractUrlPattern_not_url. unfold pathOf.
    rewrite Hbare; [done|]. apply generalizePath_slash; auto.
  - by rewrite !(extractUrlPattern_not_url u Hp).
Qed.

Lemma extractUrlPattern_idempotent_witness :
  rejectsBarePaths offline ∧
  (∀ p, @pathOf offline "https://example.com/product/1234" = Some p →
        startsWith "/" p = true) ∧
  @extractUrlPattern offline
    (@extractUrlPattern offline "https://example.com/product/1234")
  = @extractUrlPattern offline "https://example.com/product/1234".
Proof.
  assert (Hbare : rejectsBarePaths offline) by apply Whatwg_rejectsBarePaths.
  assert (Hslash : ∀ p, @pathOf offline "https://example.com/product/1234" = Some p →
                        startsWith "/" p = true).
  { intros p Hp. vm_compute in Hp. injection Hp as <-. reflexivity. }
  split; [exact Hbare|]. split; [exact Hslash|].
  exact (@extractUrlPattern_idempotent offline _ Hbare Hslash).
Defined.

(** C3 as stated fails: ["a:b:c"] is a URL with scheme [a] and path
    ["b:c"], which is itself a URL with scheme [b] and path ["c"]. *)
Lemma extractUrlPattern_twice_differs :
  @extractUrlPattern offline "a:b:c" = "b:c" ∧
  @extractUrlPattern offline (@extractUrlPattern offline "a:b:c") = "c" ∧
  @extractUrlPattern offline (@extractUrlPattern offline "a:b:c")
  ≠ @extractUrlPattern offline "a:b:c".
Proof. split; [reflexivity|]. split; [reflexivity|]. by vm_compute. Qed.




(** ** Reading the journal *)

Section Journal.

Lemma pagesFetched_snoc_page log role url outcome :
  pagesFetched (log ++ [PageRequest role url outcome]) = pagesFetched log ++ [url].
Proof. unfold pagesFetched, pageRequests. by rewrite omap_app, fmap_app. Qed.

Lemma pagesFetched_snoc_write log key value :
  pagesFetched (log ++ [TemplateSet key value]) = pagesFetched log.
Proof.
  unfold pagesFetched, pageRequests. by rewrite omap_app, fmap_app, app_nil_r.
Qed.

Lemma templateWrites_snoc_page log role url outcome :
  templateWrites (log ++ [PageRequest role url outcome]) = templateWrites log.
Proof. unfold templateWrites. by rewrite omap_app, app_nil_r. Qed.

Lemma templateWrites_snoc_write log key value :
  templateWrites (log ++ [TemplateSet key value]) = templateWrites log ++ [(key, value)].
Proof. unfold templateWrites. by rewrite omap_app. Qed.

Lemma candidateHits_snoc_write log key value :
  candidateHits (log ++ [TemplateSet key value]) = candidateHits log.
Proof. unfold candidateHits. by rewrite omap_app, app_nil_r. Qed.

Lemma candidateHits_snoc_page log role url outcome :
  candidateHits (log ++ [PageRequest role url outcome]) =
  candidateHits log ++
  (if bool_decide (role = CandidatePage) && delivered outcome then [url] else []).
Proof.
  unfold candidateHits. rewrite omap_app. f_equal.
  destruct role; simpl; try done. by destruct (delivered outcome).
Qed.

(** The hits are among the pages fetched, in the same order. *)
Lemma candidateHits_sublist log :
  candidateHits log `sublist_of` pagesFetched log.
Proof.
  induction log as [|e log IH]; [done|].
  destruct e as [url o|role url o|key value]; try done.
  unfold candidateHits, pagesFetched, pageRequests in *. cbn [omap list_omap fmap list_fmap].
  destruct role; cbn; try (by apply sublist_cons).
  destruct (delivered o); [by apply sublist_skip | by apply sublist_cons].
Qed.

(** A page fetched once is in the journal with one role and one outcome. *)
Lemma pageRequest_unique log role1 role2 url o1 o2 :
  NoDup (pagesFetched log) →
  PageRequest role1 url o1 ∈ log → PageRequest role2 url o2 ∈ log →
  role1 = role2 ∧ o1 = o2.
Proof.
  induction log as [|e log IH]; [by intros _ ?%elem_of_nil|].
  assert (Hhead : ∀ role o, NoDup (pagesFetched (e :: log)) →
            e = PageRequest role url o → ∀ role' o',
            PageRequest role' url o' ∈ log → False).
  { intros role o Hnd -> role' o' Hin.
    unfold pagesFetched, pageRequests in Hnd. cbn in Hnd.
    apply NoDup_cons in Hnd as [Hnotin _]. destruct Hnotin.
    apply list_elem_of_fmap. exists (role', url, o'). split; [done|].
    apply list_elem_of_omap. by exists (PageRequest role' url o'). }
  intros Hnd [H1|H1]%elem_of_cons [H2|H2]%elem_of_cons.
  - by simplify_eq.
  - by destruct (Hhead role1 o1 Hnd (eq_sym H1) role2 o2 H2).
  - by destruct (Hhead role2 o2 Hnd (eq_sym H2) role1 o1 H1).
  - apply IH; [|done..].
    destruct e; unfold pagesFetched, pageRequests in *; cbn in Hnd; try done.
    by apply NoDup_cons in Hnd as [_ ?].
Qed.

Lemma candidateHits_elem log url :
  url ∈ candidateHits log ↔
  ∃ outcome, PageRequest CandidatePage url outcome ∈ log ∧ delivered outcome = true.
Proof.
  unfold candidateHits. rewrite list_elem_of_omap. split.
  - intros ([u o|role u o|k v] & Hin & Heq); try done.
    destruct role; try done. destruct (delivered o) eqn:Hd; [|done].
    injection Heq as ->. eauto.
  - intros (o & Hin & Hd). exists (PageRequest CandidatePage url o).
    split; [done|]. by rewrite Hd.
Qed.

(** With the root page among the requests, the hits are fewer than the
    pages fetched. *)
Lemma candidateHits_short log url outcome :
  PageRequest RootPage url outcome ∈ log →
  length (candidateHits log) < length (pagesFetched log).
Proof.
  induction log as [|e log IH]; [by intros ?%elem_of_nil|].
  intros [<-|Hin]%elem_of_cons.
  - pose proof (sublist_length _ _ (candidateHits_sublist log)).
    unfold candidateHits, pagesFetched, pageRequests in *. cbn. lia.
  - specialize (IH Hin).
    destruct e as [u o|role u o|k v]; try done.
    unfold candidateHits, pagesFetched, pageRequests in *.
    destruct role; cbn; try lia. destruct (delivered o); cbn; lia.
Qed.

End Journal.

(** ** The steps of a run *)

Section Steps.
Context `{Host}.

Lemma Later_refl self : Later self self.
Proof. by repeat split. Qed.

Lemma Later_trans self1 self2 self3 :
  Later self1 self2 → Later self2 self3 → Later self1 self3.
Proof.
  intros (Hb1 & Hm1 & Hj1) (Hb2 & Hm2 & Hj2). repeat split; [congruence..|].
  by etrans.
Qed.

Lemma Step_refl self tpls : Step 0 self tpls self tpls.
Proof. split; auto using Later_refl. unfold fetches. lia. Qed.

Lemma Step_trans n m self1 t1 self2 t2 self3 t3 :
  Step n self1 t1 self2 t2 → Step m self2 t2 self3 t3 →
  Step (n + m) self1 t1 self3 t3.
Proof.
  intros [] []. split; auto.
  - by eapply Later_trans.
  - by etrans.
  - congruence.
  - lia.
Qed.

Lemma Step_weaken n m self t self' t' :
  (n ≤ m)%nat → Step n self t self' t' → Step m self t self' t'.
Proof. intros ? []. split; auto. lia. Qed.

(** The visited set has as many members as pages were fetched. *)
Lemma Sound_size self : Sound self → size (visitedUrls self) = fetches self.
Proof.
  intros [Hnd Hiff]. unfold fetches.
  rewrite <- (size_list_to_set (C := gset string)) by done.
  f_equal. apply set_eq. intros u. rewrite Hiff. by rewrite elem_of_list_to_set.
Qed.

(** [fetchPage] either finds the URL visited and does nothing, or marks it
    visited and calls [fetch] once. *)
Lemma fetchPage_cases role url self :
  ((url ∈ visitedUrls self) ∧ fetchPage role url self = (None, self)) ∨
  ((url ∉ visitedUrls self) ∧
   (∃ w outcome,
     fetch (world self) url true = (w, outcome) ∧
     fetchPage role url self =
       (bodyOf outcome,
        mkSiteCrawler (baseUrl self) ({[url]} ∪ visitedUrls self) (maxPages self) w
          (journal self ++ [PageRequest role url outcome])))).
Proof.
  unfold fetchPage, bind, this, ret, visit, request. simpl.
  case_bool_decide; [by left|right]. split; [done|].
  destruct (fetch (world self) url true) as [w outcome]. eauto.
Qed.

Lemma Sound_fetched self role url w outcome :
  url ∉ visitedUrls self → Sound self →
  Sound (mkSiteCrawler (baseUrl self) ({[url]} ∪ visitedUrls self) (maxPages self) w
           (journal self ++ [PageRequest role url outcome])).
Proof.
  intros Hnew [Hnd Hiff]. split; simpl; rewrite pagesFetched_snoc_page.
  - apply NoDup_app. split; [done|]. split; [|apply NoDup_singleton].
    intros u Hu ->%list_elem_of_singleton. by apply Hnew, Hiff.
  - intros u. rewrite elem_of_app, list_elem_of_singleton, <- Hiff.
    rewrite elem_of_union, elem_of_singleton. tauto.
Qed.

Lemma fetches_fetched self role url w outcome :
  fetches (mkSiteCrawler (baseUrl self) ({[url]} ∪ visitedUrls self) (maxPages self) w
             (journal self ++ [PageRequest role url outcome]))
  = S (fetches self).
Proof.
  unfold fetches. simpl. rewrite pagesFetched_snoc_page, length_app. simpl. lia.
Qed.

Lemma Later_fetched self role url w outcome :
  Later self
    (mkSiteCrawler (baseUrl self) ({[url]} ∪ visitedUrls self) (maxPages self) w
       (journal self ++ [PageRequest role url outcome])).
Proof. repeat split. simpl. by apply prefix_app_r. Qed.

(** A fetch that is not for a candidate is a step. *)
Lemma fetchPage_step role url tpls self r self' :
  role ≠ CandidatePage →
  fetchPage role url self = (r, self') →
  Step 1 self tpls self' tpls.
Proof.
  intros Hrole Hrun.
  destruct (fetchPage_cases role url self) as [[_ Heq]|(Hnew & w & o & _ & Heq)];
    rewrite Heq in Hrun; injection Hrun as <- <-.
  - apply (Step_weaken 0); [lia|apply Step_refl].
  - split.
    + by apply Sound_fetched.
    + unfold Written. simpl. by rewrite templateWrites_snoc_page.
    + apply Later_fetched.
    + done.
    + simpl. rewrite candidateHits_snoc_page. rewrite bool_decide_eq_false_2 by done.
      by rewrite app_nil_r.
    + rewrite fetches_fetched. lia.
Qed.

(** Writing a key that is not in the map is a step. *)
Lemma templates_set_step key value tpls self :
  tpls !! key = None →
  Step 0 self tpls (templates_set key value tpls self).2
                   (templates_set key value tpls self).1.
Proof.
  intros Hfresh. unfold templates_set. simpl. split; simpl.
  - unfold Sound. simpl. by rewrite pagesFetched_snoc_write.
  - intros [Hnd ->]. split; simpl; rewrite templateWrites_snoc_write.
    + rewrite fmap_app. apply NoDup_app. split; [done|].
      split; [|apply NoDup_singleton].
      intros k Hk ->%list_elem_of_singleton.
      by apply not_elem_of_list_to_map in Hfresh.
    + rewrite list_to_map_snoc; [done|]. by apply not_elem_of_list_to_map.
  - repeat split. simpl. by apply prefix_app_r.
  - by apply insert_subseteq.
  - by rewrite candidateHits_snoc_write.
  - unfold fetches. simpl. rewrite pagesFetched_snoc_write. lia.
Qed.

(** Sampling a product is a step with at most one fetch. *)
Lemma sampleProduct_step html tpls self tpls' self' :
  sampleProduct html tpls self = (tpls', self') →
  Step 1 self tpls self' tpls'.
Proof.
  unfold sampleProduct, bind, this, ret. simpl.
  destruct (extractProductLinks (cheerio_load html)) as [|first rest].
  { intros [= <- <-]. apply (Step_weaken 0); [lia|apply Step_refl]. }
  case_bool_decide as Hhas.
  { intros [= <- <-]. apply (Step_weaken 0); [lia|apply Step_refl]. }
  destruct (fetchPage ProductSample _ self) as [productHtml self1] eqn:Hfetch.
  assert (Hrole : ProductSample ≠ CandidatePage) by done.
  pose proof (fetchPage_step _ _ tpls _ _ _ Hrole Hfetch) as Hstep.
  destruct (truthy productHtml) as [body|]; [|by intros [= <- <-]].
  case_bool_decide; [|by intros [= <- <-]].
  intros Hset.
  assert (Hfresh : tpls !! PDP = None).
  { destruct (tpls !! PDP) eqn:E; [|done]. destruct Hhas. eauto. }
  pose proof (templates_set_step PDP
    (analyzePageTemplate (baseUrl self) (resolveUrl (baseUrl self) (linkUrl first)) body)
    tpls self1 Hfresh) as Hwrite.
  rewrite Hset in Hwrite. simpl in Hwrite.
  apply (Step_trans 1 0 _ _ _ _ _ _ Hstep Hwrite).
Qed.

End Steps.

(** ** The loop *)

Section Loop.
Context `{Host}.

Lemma delivered_truthy outcome :
  delivered outcome = true ↔ is_Some (truthy (bodyOf outcome)).
Proof. unfold delivered. by rewrite bool_decide_eq_true. Qed.

Lemma delivered_falsy outcome :
  delivered outcome = false ↔ truthy (bodyOf outcome) = None.
Proof.
  unfold delivered. rewrite bool_decide_eq_false, eq_None_not_Some. done.
Qed.

(** What is done with a fetched candidate: the URL goes to the site map,
    at most one entity with that URL is added, and the rest is a step. *)
Lemma visitCandidate_spec link fullUrl html found self found' self' :
  visitCandidate link fullUrl html found self = (found', self') →
  Step 1 self (f_templates found) self' (f_templates found') ∧
  f_siteMap found' = f_siteMap found ++ [fullUrl] ∧
  (entityUrl <$> f_entities found') `sublist_of`
    (entityUrl <$> f_entities found) ++ [fullUrl].
Proof.
  unfold visitCandidate, bind, this, ret. simpl.
  set (template := analyzePageTemplate (baseUrl self) fullUrl html).
  case_bool_decide as Hlisting; cycle 1.
  { intros [= <- <-]. simpl. split; [|split; [done|]].
    - apply (Step_weaken 0); [lia|apply Step_refl].
    - by apply sublist_inserts_r. }
  assert (Hrest : ∀ tpls1 self1, Step 0 self (f_templates found) self1 tpls1 →
    (let '(tpls2, self2) := sampleProduct html tpls1 self1 in
     (mkFound tpls2
        (f_entities found ++ [mkSiteEntity EntCATEGORY (linkText link) fullUrl])
        (f_siteMap found ++ [fullUrl]), self2)) = (found', self') →
    Step 1 self (f_templates found) self' (f_templates found') ∧
    f_siteMap found' = f_siteMap found ++ [fullUrl] ∧
    (entityUrl <$> f_entities found') `sublist_of`
      (entityUrl <$> f_entities found) ++ [fullUrl]).
  { intros tpls1 self1 Hstep.
    destruct (sampleProduct html tpls1 self1) as [tpls2 self2] eqn:Hsample.
    intros [= <- <-]. simpl. split; [|split; [done|]].
    - apply (Step_trans 0 1 _ _ _ _ _ _ Hstep). by eapply sampleProduct_step.
    - by rewrite fmap_app. }
  case_bool_decide as Hhas.
  - apply Hrest, Step_refl.
  - assert (Hfresh : f_templates found !! type template = None).
    { destruct (f_templates found !! type template) eqn:E; [|done].
      destruct Hhas. eauto. }
    pose proof (templates_set_step (type template) template _ self Hfresh) as Hw.
    destruct (templates_set (type template) template (f_templates found) self)
      as [tpls1 self1].
    by apply Hrest.
Qed.

(** A run that has fetched the root page and nothing else is within any
    budget that is not negative. *)
Lemma withinBudget_root self url outcome :
  number_le (ofZ 0) (maxPages self) = true →
  pagesFetched (journal self) = [url] → candidateHits (journal self) = [] →
  PageRequest RootPage url outcome ∈ journal self →
  withinBudget self.
Proof.
  intros Hpos Hone Hnone Hroot. unfold withinBudget, fetches. rewrite Hone, Hnone.
  split; [|split; [exact Hpos|eauto]].
  apply (number_le_lt _ _ _ Hpos). simpl. lia.
Qed.

(** One turn of the loop, taken because the visited set was short of the
    budget, keeps the run within the budget: it makes at most two fetches
    and at most one of them is a candidate page that came. *)
Lemma withinBudget_next self self' :
  Sound self → withinBudget self →
  number_ge (ofNat (size (visitedUrls self))) (maxPages self) = false →
  Later self self' →
  (fetches self' ≤ fetches self + 2)%nat →
  (length (candidateHits (journal self')) ≤ length (candidateHits (journal self)) + 1)%nat →
  withinBudget self'.
Proof.
  intros Hsound (_ & Hhits & url & o & Hroot) Hfull (_ & Hmax & Hpre) Hcost Hgain.
  assert (Hroom : number_lt (ofZ (Z.of_nat (fetches self))) (maxPages self) = true).
  { rewrite <- (Sound_size self Hsound).
    exact (number_not_le_lt _ _ _ Hfull Hhits). }
  pose proof (candidateHits_short _ _ _ Hroot) as Hshort. fold (fetches self) in Hshort.
  unfold withinBudget. rewrite Hmax. split; [|split].
  - apply (number_lt_mono _ _ _ Hroom). lia.
  - apply (number_lt_le _ _ _ Hroom). lia.
  - exists url, o. by eapply elem_of_prefix.
Qed.

(** The loop keeps the accumulators coherent with the journal, never
    changes an entry of the template map, and stays within the budget. *)
Lemma crawlLinks_spec links : ∀ found self found' self',
  crawlLinks links found self = (found', self') →
  Coherent self found →
  Coherent self' found' ∧ Later self self' ∧
  f_templates found ⊆ f_templates found' ∧
  (withinBudget self → withinBudget self').
Proof.
  induction links as [|link rest IH]; intros found self found' self'.
  { intros [= <- <-] Hco. auto using Later_refl. }
  cbn [crawlLinks].
  destruct (number_ge (ofNat (size (visitedUrls self))) (maxPages self)) eqn:Hfull.
  { intros [= <- <-] Hco. auto using Later_refl. }
  set (fullUrl := resolveUrl (baseUrl self) (linkUrl link)).
  destruct (shouldVisit (baseUrl self) fullUrl); cbn [negb]; [|by apply IH].
  destruct (fetchPage_cases CandidatePage fullUrl self)
    as [[_ Heq]|(Hnew & w & o & _ & Heq)]; rewrite Heq.
  { cbn [truthy]. by apply IH. }
  set (self1 := mkSiteCrawler _ _ _ _ _).
  intros Hrun [Hsound Hwritten Hmap Hent].
  assert (Hsound1 : Sound self1) by by apply Sound_fetched.
  assert (Hwritten1 : Written self1 (f_templates found)).
  { unfold Written, self1. simpl. by rewrite templateWrites_snoc_page. }
  assert (Hhits1 : candidateHits (journal self1) =
                   candidateHits (journal self) ++ (if delivered o then [fullUrl] else [])).
  { unfold self1. simpl. by rewrite candidateHits_snoc_page. }
  assert (Hcount1 : fetches self1 = S (fetches self)) by apply fetches_fetched.
  destruct (truthy (bodyOf o)) as [html|] eqn:Hbody.
  - assert (Hd : delivered o = true) by (apply delivered_truthy; eauto).
    rewrite Hd in Hhits1.
    destruct (visitCandidate link fullUrl html found self1) as [found2 self2] eqn:Hvisit.
    destruct (visitCandidate_spec _ _ _ _ _ _ _ Hvisit) as ([] & Hmap2 & Hent2).
    assert (Hco2 : Coherent self2 found2).
    { split; auto.
      - congruence.
      - rewrite Hmap2. etrans; [exact Hent2|]. by apply sublist_app. }
    destruct (IH _ _ _ _ Hrun Hco2) as (Hco' & Hlater' & Hkeep' & Hbudget').
    split; [done|]. split; [|split].
    + eapply Later_trans; [|exact Hlater']. eapply Later_trans; [|done].
      apply Later_fetched.
    + by etrans.
    + intros Hin. apply Hbudget'.
      apply (withinBudget_next self); [done..| |lia|].
      * eapply Later_trans; [apply Later_fetched|exact st_later0].
      * rewrite st_hits0, Hhits1, length_app. simpl. lia.
  - assert (Hd : delivered o = false) by by apply delivered_falsy.
    rewrite Hd, app_nil_r in Hhits1.
    assert (Hco1 : Coherent self1 found) by (split; auto; congruence).
    destruct (IH _ _ _ _ Hrun Hco1) as (Hco' & Hlater' & Hkeep' & Hbudget').
    split; [done|]. split; [|split; [done|]].
    + eapply Later_trans; [|exact Hlater']. apply Later_fetched.
    + intros Hin. apply Hbudget'.
      apply (withinBudget_next self); [done..|apply Later_fetched|lia|].
      rewrite Hhits1. lia.
Qed.

(** The loop never changes an entry the template map has. *)
Lemma crawlLinks_keeps links : ∀ found self,
  f_templates found ⊆ f_templates (crawlLinks links found self).1.
Proof.
  induction links as [|link rest IH]; intros found self; [done|].
  cbn [crawlLinks]. destruct (number_ge _ _); [done|].
  destruct (shouldVisit _ _); cbn [negb]; [|apply IH].
  destruct (fetchPage CandidatePage _ self) as [html self1].
  destruct (truthy html) as [body|]; [|apply IH].
  destruct (visitCandidate link _ body found self1) as [found2 self2] eqn:Hvisit.
  destruct (visitCandidate_spec _ _ _ _ _ _ _ Hvisit) as ([] & _).
  etrans; [eassumption|apply IH].
Qed.

(** A listing page sets the entry of its type when there is none, and
    leaves the entry alone when there is one. *)
Lemma visitCandidate_first_wins link fullUrl html found self :
  let template := analyzePageTemplate (baseUrl self) fullUrl html in
  type template = CATEGORY ∨ type template = PLP →
  f_templates (visitCandidate link fullUrl html found self).1 !! type template
  = Some (default template (f_templates found !! type template)).
Proof.
  intros template Hlisting.
  unfold visitCandidate, bind, this, ret. cbn beta zeta. fold template.
  rewrite (bool_decide_eq_true_2 _ Hlisting).
  assert (Hrest : ∀ tpls1 self1,
    tpls1 !! type template = Some (default template (f_templates found !! type template)) →
    f_templates
      (let '(tpls2, self2) := sampleProduct html tpls1 self1 in
       (mkFound tpls2
          (f_entities found ++ [mkSiteEntity EntCATEGORY (linkText link) fullUrl])
          (f_siteMap found ++ [fullUrl]), self2)).1 !! type template
    = Some (default template (f_templates found !! type template))).
  { intros tpls1 self1 Hlook.
    destruct (sampleProduct html tpls1 self1) as [tpls2 self2] eqn:Hsample. simpl.
    destruct (sampleProduct_step _ _ _ _ _ Hsample).
    by eapply lookup_weaken. }
  case_bool_decide as Hhas.
  - apply Hrest. by destruct Hhas as [t ->].
  - assert (Hfresh : f_templates found !! type template = None).
    { destruct (f_templates found !! type template) eqn:E; [|done].
      destruct Hhas. eauto. }
    unfold templates_set. apply Hrest. rewrite Hfresh. apply lookup_insert_eq.
Qed.

End Loop.

(** ** A whole run *)

Section Run.
Context `{Host}.

(** What every run of a fresh crawler looks like: the robots request, the
    root request, then either nothing more (the root page did not come) or
    the home template and the loop. *)
Lemma analyzeSite_run (self : SiteCrawler) (result : SiteStructure) (self' : SiteCrawler) :
  visitedUrls self = ∅ → journal self = [] →
  analyzeSite self = (result, self') →
  let base := baseUrl self in
  ∃ o_robots o_root,
    baseUrl self' = base ∧ maxPages self' = maxPages self ∧
    domain result = base ∧ robotsTxt result = bodyOf o_robots ∧
    [RobotsRequest (base +:+ "/robots.txt") o_robots; PageRequest RootPage base o_root]
      `prefix_of` journal self' ∧
    Coherent self' (mkFound (templates result) (entities result) (siteMap result)) ∧
    (number_le (ofZ 0) (maxPages self) = true → withinBudget self') ∧
    match truthy (bodyOf o_root) with
    | Some html => templates result !! HOME = Some (analyzePageTemplate base base html)
    | None =>
        templates result = ∅ ∧ entities result = [] ∧ siteMap result = [] ∧
        journal self' =
          [RobotsRequest (base +:+ "/robots.txt") o_robots; PageRequest RootPage base o_root]
    end.
Proof.
  intros Hfresh Hlog.
  unfold analyzeSite, fetchRobotsTxt, bind, this, ret, request.
  destruct (fetch (world self) (baseUrl self +:+ "/robots.txt") false) as [w0 o_robots].
  rewrite Hlog, app_nil_l.
  set (self0 := mkSiteCrawler _ _ _ w0 _).
  destruct (fetchPage RootPage (baseUrl self0) self0) as [homepageHtml self1] eqn:Hfetch.
  destruct (fetchPage_cases RootPage (baseUrl self0) self0)
    as [[Hin _]|(_ & w1 & o_root & _ & Heq)].
  { simpl in Hin. rewrite Hfresh in Hin. by apply not_elem_of_empty in Hin. }
  rewrite Heq in Hfetch. injection Hfetch as <- <-.
  cbn [baseUrl world journal visitedUrls maxPages self0 app].
  set (self1 := mkSiteCrawler _ _ _ w1 _).
  assert (Hsound1 : Sound self1).
  { split; simpl.
    - apply NoDup_singleton.
    - intros u. change (pagesFetched _) with [baseUrl self]. rewrite Hfresh. set_solver. }
  destruct (truthy (bodyOf o_root)) as [html|] eqn:Hbody; intros Hrun;
    exists o_robots, o_root; rewrite Hbody; cycle 1.
  { injection Hrun as <- <-. simpl.
    do 5 (split; [done|]). split; [|split; [|done]].
    - split; [exact Hsound1| |done..]. split; [apply NoDup_nil_2|done].
    - intros Hpos. apply (withinBudget_root _ (baseUrl self) o_root); [done..|].
      simpl. apply elem_of_cons. right. by apply elem_of_cons; left. }
  unfold templates_set in Hrun.
  cbn [baseUrl world journal visitedUrls maxPages self1 app] in Hrun.
  set (homeTemplate := analyzePageTemplate (baseUrl self) (baseUrl self) html) in *.
  set (self2 := mkSiteCrawler _ _ _ w1 _) in Hrun.
  set (found2 := mkFound _ [] []) in Hrun.
  assert (Hco2 : Coherent self2 found2).
  { split; [| |done..].
    - destruct Hsound1 as [Hnd Hiff]. split; [exact Hnd|exact Hiff].
    - split; [apply NoDup_singleton|done]. }
  destruct (crawlLinks (extractCategoryLinks (cheerio_load html)) found2 self2)
    as [found' self''] eqn:Hloop.
  injection Hrun as <- <-.
  destruct (crawlLinks_spec _ _ _ _ _ Hloop Hco2)
    as (Hco' & (Hbase & Hmax & Hpre) & Hkeep & Hbudget).
  cbn [domain robotsTxt templates entities siteMap].
  split; [done|]. split; [done|]. split; [done|]. split; [done|].
  split; [|split; [|split]].
  - etrans; [|exact Hpre]. simpl. by exists [TemplateSet HOME homeTemplate].
  - by destruct found'.
  - intros Hpos. apply Hbudget.
    apply (withinBudget_root _ (baseUrl self) o_root); [done..|].
    simpl. apply elem_of_cons. right. by apply elem_of_cons; left.
  - eapply lookup_weaken; [|exact Hkeep]. simpl. apply lookup_insert_eq.
Qed.

(** The same for [analyze]. *)
Lemma analyze_run (w : World) (rootUrl : string) (pages : option number) :
  let base := stripTrailingSlash rootUrl in
  let result := (analyze w rootUrl pages).1 in
  let self' := (analyze w rootUrl pages).2 in
  ∃ o_robots o_root,
    baseUrl self' = base ∧ maxPages self' = default (ofZ 50) pages ∧
    domain result = base ∧ robotsTxt result = bodyOf o_robots ∧
    [RobotsRequest (base +:+ "/robots.txt") o_robots; PageRequest RootPage base o_root]
      `prefix_of` journal self' ∧
    Coherent self' (mkFound (templates result) (entities result) (siteMap result)) ∧
    (number_le (ofZ 0) (default (ofZ 50) pages) = true → withinBudget self') ∧
    match truthy (bodyOf o_root) with
    | Some html => templates result !! HOME = Some (analyzePageTemplate base base html)
    | None =>
        templates result = ∅ ∧ entities result = [] ∧ siteMap result = [] ∧
        journal self' =
          [RobotsRequest (base +:+ "/robots.txt") o_robots; PageRequest RootPage base o_root]
    end.
Proof.
  intros base result self'.
  apply (analyzeSite_run (new_SiteCrawler w rootUrl pages) result self'); try done.
  apply surjective_pairing.
Qed.

End Run.

(** ** The classifier *)

Section ClassifierFacts.
Context `{Host}.

Lemma analyzePageTemplate_type (base url html : string) :
  type (analyzePageTemplate base url html) = (classify base (cheerio_load html) url).1.
Proof.
  unfold analyzePageTemplate. by destruct (classify base (cheerio_load html) url).
Qed.

Lemma classify_PDP (base url : string) (page : Document) :
  (classify base page url).1 = PDP ↔ isProductDetailPage page = true.
Proof.
  unfold classify.
  destruct (isProductDetailPage page); [done|].
  destruct (isCategoryPage page); [done|].
  destruct (String.eqb url base || String.eqb url (base +:+ "/")); [done|].
  destruct (isCartPage page url); [done|].
  by destruct (isSearchPage page url).
Qed.

Lemma classify_HOME (base url : string) (page : Document) :
  String.eqb url base || String.eqb url (base +:+ "/") = true →
  ((classify base page url).1 = HOME ↔
   isProductDetailPage page = false ∧ isCategoryPage page = false).
Proof.
  unfold classify. intros ->.
  destruct (isProductDetailPage page); [by split; [|intros []]|].
  destruct (isCategoryPage page); [by split; [|intros []]|]. done.
Qed.

(** Two of five flags, counted or named. *)
Lemma two_of_five (b1 b2 b3 b4 b5 : bool) :
  (2 <=? length (List.filter (fun b : bool => b) [b1; b2; b3; b4; b5]))%nat = true
  ↔ atLeastTwo [b1; b2; b3; b4; b5].
Proof.
  unfold atLeastTwo. split.
  - destruct b1, b2, b3, b4, b5; cbn; intros Hc; try discriminate Hc;
      first [ by exists 0%nat, 1%nat | by exists 0%nat, 2%nat | by exists 0%nat, 3%nat
            | by exists 0%nat, 4%nat | by exists 1%nat, 2%nat | by exists 1%nat, 3%nat
            | by exists 1%nat, 4%nat | by exists 2%nat, 3%nat | by exists 2%nat, 4%nat
            | by exists 3%nat, 4%nat ].
  - intros (i & j & Hne & Hi & Hj).
    destruct b1, b2, b3, b4, b5; try reflexivity; exfalso;
      destruct i as [|[|[|[|[|i]]]]]; try discriminate Hi;
      destruct j as [|[|[|[|[|j]]]]]; try discriminate Hj; by apply Hne.
Qed.

End ClassifierFacts.

(** C5.  A page is classified as a product detail page exactly when at
    least two of the five indicators hold, where the price indicator holds
    exactly for a count of price elements strictly between 0 and 10.  A
    page with an add-to-cart control, a product title and one price element
    is a product detail page, and a page with an add-to-cart control and no
    other indicator is not. *)
Theorem productDetail_two_of_five `{Host} (base url html : string) :
  let page := cheerio_load html in
  let ty := type (analyzePageTemplate base url html) in
  (ty = PDP ↔ atLeastTwo (pdpIndicators page)) ∧
  (hasFewPrices page = true ↔ (0 < count page sel_price < 10)%nat) ∧
  (hasAddToCart page = true → hasProductTitle page = true →
   count page sel_price = 1%nat → ty = PDP) ∧
  (hasAddToCart page = true → hasProductTitle page = false →
   hasProductImage page = false → hasFewPrices page = false →
   hasSku page = false → ty ≠ PDP).
Proof.
  intros page ty.
  assert (Hty : ty = PDP ↔ atLeastTwo (pdpIndicators page)).
  { unfold ty. rewrite analyzePageTemplate_type, classify_PDP.
    unfold isProductDetailPage, pdpIndicators. apply two_of_five. }
  split; [exact Hty|]. split; [|split].
  - unfold hasFewPrices. rewrite andb_true_iff, !Nat.ltb_lt. done.
  - intros Hcart Htitle Hprice. apply Hty.
    exists 0%nat, 1%nat. unfold pdpIndicators. simpl. by rewrite Hcart, Htitle.
  - intros Hcart Htitle Himage Hprice Hsku. rewrite Hty.
    unfold pdpIndicators. rewrite Hcart, Htitle, Himage, Hprice, Hsku.
    intros (i & j & Hne & Hi & Hj).
    destruct i as [|[|[|[|[|i]]]]]; try discriminate Hi;
      destruct j as [|[|[|[|[|j]]]]]; try discriminate Hj; by apply Hne.
Qed.

Lemma productDetail_two_of_five_witness :
  type (@analyzePageTemplate Demo.shop Demo.root
          "https://example.com/product/1234" "<product>") = PDP ∧
  type (@analyzePageTemplate Demo.shop Demo.root
          "https://example.com/button" "<button>") ≠ PDP.
Proof.
  split.
  - apply (@productDetail_two_of_five Demo.shop Demo.root
             "https://example.com/product/1234" "<product>"); reflexivity.
  - apply (@productDetail_two_of_five Demo.shop Demo.root
             "https://example.com/button" "<button>"); reflexivity.
Defined.

(** ** Runs *)

Lemma failed_not_delivered (outcome : FetchOutcome) :
  failed outcome = true → truthy (bodyOf outcome) = None.
Proof. by destruct outcome as [|[] []]. Qed.

Section RunFacts.
Context `{Host}.

Lemma root_request_in_journal (w : World) (rootUrl : string) (pages : option number) :
  ∃ o, PageRequest RootPage (baseUrl (analyze w rootUrl pages).2) o
         ∈ journal (analyze w rootUrl pages).2.
Proof.
  destruct (analyze_run w rootUrl pages)
    as (o_robots & o_root & Hbase & _ & _ & _ & Hpre & _).
  exists o_root. rewrite Hbase. eapply elem_of_prefix; [|exact Hpre].
  by do 2 constructor.
Qed.

Lemma run_siteMap_NoDup (w : World) (rootUrl : string) (pages : option number) :
  NoDup (siteMap (analyze w rootUrl pages).1).
Proof.
  destruct (analyze_run w rootUrl pages)
    as (o_robots & o_root & _ & _ & _ & _ & _ & [[Hnd _] _ Hmap _] & _).
  simpl in Hmap. rewrite Hmap.
  eapply sublist_NoDup; [exact Hnd|]. apply candidateHits_sublist.
Qed.

End RunFacts.

(** C1, as the code has it.  For a budget that is not negative, whole or
    not, the site map of the returned model has at most [maxPages] entries
    and [fetchPage] calls [fetch] fewer than [maxPages + 2] times (root
    page, candidate pages and product samples; the robots request is not
    counted).  For a budget that is a whole number this is at most
    [maxPages + 1] times. *)
Theorem analyze_within_budget `{Host} (w : World) (rootUrl : string) (pages : option number) :
  let run := analyze w rootUrl pages in
  let budget := default (ofZ 50) pages in
  let fetched := length (pagesFetched (journal run.2)) in
  number_le (ofZ 0) budget = true →
  number_le (ofNat (length (siteMap run.1))) budget = true ∧
  number_lt (ofNat fetched) (plusZ budget 2) = true ∧
  (∀ n : Z, number_eq budget (ofZ n) = true →
     number_le (ofNat fetched) (plusZ budget 1) = true ∧
     (Z.of_nat (length (siteMap run.1)) ≤ n)%Z ∧
     (Z.of_nat fetched ≤ n + 1)%Z).
Proof.
  intros run budget fetched Hpos.
  destruct (analyze_run w rootUrl pages)
    as (o_robots & o_root & Hbase & Hmax & _ & _ & Hpre & [_ _ Hmap _] & Hbudget & _).
  destruct (Hbudget Hpos) as (Hlt & Hle & _). unfold fetches in Hlt.
  rewrite Hmax in Hlt, Hle. fold run in Hlt, Hle, Hmap. fold budget fetched in Hlt, Hle.
  simpl in Hmap. rewrite <- Hmap in Hle.
  split; [exact Hle|]. split.
  { unfold ofNat. by rewrite number_lt_plusZ. }
  intros n Hn.
  pose proof (number_lt_integer _ _ _ Hn Hlt) as Hfetched.
  pose proof (number_le_integer _ _ _ Hn Hle) as Hsite.
  split; [|split; [exact Hsite|lia]].
  unfold ofNat. rewrite number_le_plusZ. apply (number_le_of_integer _ n); [done|lia].
Qed.

Lemma analyze_within_budget_witness :
  number_le (ofZ 0) (ofZ 2) = true ∧
  (Z.of_nat (length (siteMap Demo.shortRun.1)) ≤ 2)%Z ∧
  (Z.of_nat (length (pagesFetched (journal Demo.shortRun.2))) ≤ 2 + 1)%Z.
Proof.
  split; [reflexivity|].
  destruct (@analyze_within_budget Demo.shop tt Demo.root (Some (ofZ 2)) eq_refl)
    as (_ & _ & Hwhole).
  exact (proj2 (Hwhole 2%Z eq_refl)).
Defined.

(** C1 as stated fails in two ways.  The root page is fetched whatever the
    budget is: with [maxPages = -1] there is one fetch, more than
    [maxPages + 1 = 0], and the empty site map has more than [-1] entries.
    And the loop compares the size of the visited set with [maxPages] as
    the number it is: with [maxPages = 1.5] the test [1 >= 1.5] fails after
    the root page, so a turn starts and fetches a candidate page and a
    product page: three fetches, more than [maxPages + 1 = 2.5]. *)
Lemma analyze_budget_exceeded :
  pagesFetched (journal Demo.negativeRun.2) = ["https://example.com"] ∧
  siteMap Demo.negativeRun.1 = [] ∧
  number_le (ofNat (length (siteMap Demo.negativeRun.1))) (ofZ (-1)) = false ∧
  number_le (ofNat (length (pagesFetched (journal Demo.negativeRun.2))))
            (plusZ (ofZ (-1)) 1) = false ∧
  number_le (ofZ 0) (Finite (3 # 2)) = true ∧
  length (pagesFetched (journal Demo.fractionalRun.2)) = 3%nat ∧
  number_le (ofNat (length (pagesFetched (journal Demo.fractionalRun.2))))
            (plusZ (Finite (3 # 2)) 1) = false.
Proof. repeat split; vm_compute; reflexivity. Qed.

(** C2, as the code has it.  No URL is requested twice by [fetchPage]
    (root page, candidate pages and product samples all go through the
    visited set), and no URL appears twice in the site map.  The robots
    request does not go through the visited set. *)
Theorem analyze_fetches_once `{Host} (w : World) (rootUrl : string) (pages : option number) :
  let run := analyze w rootUrl pages in
  NoDup (pagesFetched (journal run.2)) ∧
  (∀ u, u ∈ visitedUrls run.2 ↔ u ∈ pagesFetched (journal run.2)) ∧
  NoDup (siteMap run.1).
Proof.
  intros run.
  destruct (analyze_run w rootUrl pages)
    as (o_robots & o_root & _ & _ & _ & _ & _ & [[Hnd Hiff] _ _ _] & _).
  split; [exact Hnd|]. split; [exact Hiff|]. apply run_siteMap_NoDup.
Qed.

(** C2 as stated fails: a navigation link to the robots file is a
    candidate, and its URL, requested once by [fetchRobotsTxt], is requested
    again by [fetchPage]. *)
Lemma analyze_requests_robots_twice :
  urlsRequested (journal Demo.friendlyRun.2) =
    ["https://example.com/robots.txt"; "https://example.com";
     "https://example.com/robots.txt"] ∧
  ¬ NoDup (urlsRequested (journal Demo.friendlyRun.2)).
Proof.
  assert (Hurls : urlsRequested (journal Demo.friendlyRun.2) =
    ["https://example.com/robots.txt"; "https://example.com";
     "https://example.com/robots.txt"]) by (vm_compute; reflexivity).
  split; [exact Hurls|]. rewrite Hurls.
  intros [Hnotin _]%NoDup_cons. apply Hnotin. by do 2 constructor.
Qed.

(** C6, as the code has it.  When the root page comes with a body that is
    not empty, its template is recorded under the Home key and stays
    there.  Its type is Home exactly when neither the product-detail rule
    nor the category rule fires on it; and any page whose URL is the root,
    with or without one trailing slash, and on which neither rule fires, is
    classified as Home. *)
Theorem analyze_records_home `{Host} (w : World) (rootUrl : string) (pages : option number)
    (o : FetchOutcome) (html : string) :
  let run := analyze w rootUrl pages in
  let base := baseUrl run.2 in
  let homeTemplate := analyzePageTemplate base base html in
  PageRequest RootPage base o ∈ journal run.2 →
  truthy (bodyOf o) = Some html →
  templates run.1 !! HOME = Some homeTemplate ∧
  (type homeTemplate = HOME ↔
   isProductDetailPage (cheerio_load html) = false ∧
   isCategoryPage (cheerio_load html) = false) ∧
  (∀ url body, url = base ∨ url = base +:+ "/" →
     isProductDetailPage (cheerio_load body) = false →
     isCategoryPage (cheerio_load body) = false →
     type (analyzePageTemplate base url body) = HOME).
Proof.
  intros run base homeTemplate Hin Hbody.
  destruct (analyze_run w rootUrl pages)
    as (o_robots & o_root & Hbase & _ & _ & _ & Hpre & [[Hnd _] _ _ _] & _ & Hhome).
  fold run in Hbase, Hpre, Hnd, Hhome. fold base in Hbase.
  assert (Hroot : PageRequest RootPage base o_root ∈ journal run.2).
  { rewrite Hbase. eapply elem_of_prefix; [|exact Hpre]. by do 2 constructor. }
  destruct (pageRequest_unique _ _ _ _ _ _ Hnd Hin Hroot) as [_ ->].
  rewrite Hbody, <- Hbase in Hhome.
  split; [exact Hhome|]. split.
  - unfold homeTemplate. rewrite analyzePageTemplate_type.
    apply classify_HOME. by rewrite String.eqb_refl.
  - intros url body Hurl Hpdp Hcat. rewrite analyzePageTemplate_type.
    apply classify_HOME; [|done].
    destruct Hurl as [-> | ->]; rewrite String.eqb_refl; [done|apply orb_true_r].
Qed.

Lemma analyze_records_home_witness :
  PageRequest RootPage "https://example.com" (Demo.ok "<home>")
    ∈ journal Demo.shopRun.2 ∧
  truthy (bodyOf (Demo.ok "<home>")) = Some "<home>" ∧
  templates Demo.shopRun.1 !! HOME
    = Some (@analyzePageTemplate Demo.shop "https://example.com"
              "https://example.com" "<home>") ∧
  type (@analyzePageTemplate Demo.shop "https://example.com"
          "https://example.com" "<home>") = HOME.
Proof.
  assert (Hin : PageRequest RootPage (baseUrl Demo.shopRun.2) (Demo.ok "<home>")
                  ∈ journal Demo.shopRun.2).
  { apply list_elem_of_lookup. exists 1%nat. vm_compute. reflexivity. }
  assert (Hbody : truthy (bodyOf (Demo.ok "<home>")) = Some "<home>") by reflexivity.
  destruct (@analyze_records_home Demo.shop tt Demo.root None _ _ Hin Hbody)
    as (Hrec & Hty & _).
  split; [exact Hin|]. split; [exact Hbody|]. split; [exact Hrec|].
  apply Hty. vm_compute. split; reflexivity.
Defined.

(** C6 as stated fails: a root page that shows six product links is
    classified as a category page, and that template is what the model holds
    under the Home key. *)
Lemma analyze_home_classified_category :
  PageRequest RootPage "https://example.com" (Demo.ok "<storefront>")
    ∈ journal Demo.storefrontRun.2 ∧
  succeeded (Demo.ok "<storefront>") = true ∧
  type <$> templates Demo.storefrontRun.1 !! HOME = Some CATEGORY ∧
  type <$> templates Demo.storefrontRun.1 !! HOME ≠ Some HOME.
Proof.
  assert (Hty : type <$> templates Demo.storefrontRun.1 !! HOME = Some CATEGORY)
    by (vm_compute; reflexivity).
  split; [|split; [reflexivity|split; [exact Hty|by rewrite Hty]]].
  apply list_elem_of_lookup. exists 1%nat. vm_compute. reflexivity.
Qed.

(** C8.  No two entities of the returned model have the same URL: the
    URLs of the entities are among those of the site map, in order, and the
    site map has no URL twice. *)
Theorem analyze_entities_unique `{Host} (w : World) (rootUrl : string) (pages : option number) :
  let run := analyze w rootUrl pages in
  NoDup (entityUrl <$> entities run.1) ∧
  (entityUrl <$> entities run.1) `sublist_of` siteMap run.1.
Proof.
  intros run.
  destruct (analyze_run w rootUrl pages)
    as (o_robots & o_root & _ & _ & _ & _ & _ & [_ _ _ Hsub] & _).
  simpl in Hsub. split; [|exact Hsub].
  eapply sublist_NoDup; [|exact Hsub]. apply run_siteMap_NoDup.
Qed.

(** C9.  When the request for the root page fails (a network error or a
    status that is not 2xx), [analyze] still returns a model: its template
    map, entity list and site map are empty, nothing more is requested, and
    it carries the robots text if that came. *)
Theorem analyze_root_failure `{Host} (w : World) (rootUrl : string) (pages : option number)
    (o : FetchOutcome) :
  let run := analyze w rootUrl pages in
  let base := baseUrl run.2 in
  PageRequest RootPage base o ∈ journal run.2 →
  failed o = true →
  templates run.1 = ∅ ∧ entities run.1 = [] ∧ siteMap run.1 = [] ∧
  ∃ o_robots,
    robotsTxt run.1 = bodyOf o_robots ∧
    journal run.2 =
      [RobotsRequest (base +:+ "/robots.txt") o_robots; PageRequest RootPage base o].
Proof.
  intros run base Hin Hfail.
  destruct (analyze_run w rootUrl pages)
    as (o_robots & o_root & Hbase & _ & _ & Hrobots & Hpre & [[Hnd _] _ _ _] & _ & Hhome).
  fold run in Hbase, Hrobots, Hpre, Hnd, Hhome. fold base in Hbase.
  assert (Hroot : PageRequest RootPage base o_root ∈ journal run.2).
  { rewrite Hbase. eapply elem_of_prefix; [|exact Hpre]. by do 2 constructor. }
  destruct (pageRequest_unique _ _ _ _ _ _ Hnd Hin Hroot) as [_ ->].
  rewrite (failed_not_delivered _ Hfail), <- Hbase in Hhome.
  destruct Hhome as (Ht & He & Hs & Hj). eauto 10.
Qed.

Lemma analyze_root_failure_witness :
  PageRequest RootPage "https://example.com"
    (Response false (Some "Service Unavailable")) ∈ journal Demo.downRun.2 ∧
  failed (Response false (Some "Service Unavailable")) = true ∧
  templates Demo.downRun.1 = ∅ ∧ entities Demo.downRun.1 = [] ∧
  siteMap Demo.downRun.1 = [].
Proof.
  assert (Hin : PageRequest RootPage (baseUrl Demo.downRun.2)
                  (Response false (Some "Service Unavailable")) ∈ journal Demo.downRun.2).
  { apply list_elem_of_lookup. exists 1%nat. vm_compute. reflexivity. }
  destruct (@analyze_root_failure Demo.down tt Demo.root None _ Hin eq_refl)
    as (Ht & He & Hs & _).
  split; [exact Hin|]. split; [reflexivity|]. by repeat split.
Defined.



(** ** The model on the examples of the documentation *)

(** Of the links [/electronics], [/login] and [/about] of a navigation bar,
    the extractor keeps the first. *)
Example extractCategoryLinks_navigation :
  extractCategoryLinks
    (Demo.pageOf [ ([[Tag "nav"; Tag "a"]],
                    [ Demo.anchor "/electronics" "Electronics";
                      Demo.anchor "/login" "Sign In";
                      Demo.anchor "/about" "About Us" ]) ])
  = [mkLink "Electronics" "/electronics"].
Proof. by vm_compute. Qed.

(** An identifier that starts with a digit is cut at its first letter. *)
Example generalizePath_uuid_with_digits :
  generalizePath "/p/123e4567-e89b-12d3-a456-426614174000"
  = "/p/:ide4567-e89b-12d3-a456-426614174000".
Proof. by vm_compute. Qed.

(** A failed candidate does not stop the loop: the shop's [/sale] answers
    404 and [/outlet] is requested after it. *)
Example shop_run_requests :
  pagesFetched (journal Demo.shopRun.2)
  = [ "https://example.com"; "https://example.com/electronics";
      "https://example.com/product/1234"; "https://example.com/sale";
      "https://example.com/outlet" ].
Proof. by vm_compute. Qed.

(** * Further properties *)

(** ** The classifier, beyond product pages *)

Lemma classify_range (base url : string) (page : Document) :
  (classify base page url).1 ∈ [PDP; CATEGORY; HOME; CART; SEARCH; UNKNOWN].
Proof.
  unfold classify.
  destruct (isProductDetailPage page); [set_solver|].
  destruct (isCategoryPage page); [set_solver|].
  destruct (String.eqb url base || String.eqb url (base +:+ "/")); [set_solver|].
  destruct (isCartPage page url); [set_solver|].
  destruct (isSearchPage page url); set_solver.
Qed.

Lemma classify_characteristics (base url : string) (page : Document) :
  (classify base page url).2 = [] ↔ (classify base page url).1 = UNKNOWN.
Proof.
  unfold classify.
  destruct (isProductDetailPage page); [done|].
  destruct (isCategoryPage page); [done|].
  destruct (String.eqb url base || String.eqb url (base +:+ "/")); [done|].
  destruct (isCartPage page url); [done|].
  by destruct (isSearchPage page url).
Qed.

Lemma detect_sublist (page : Document) :
  detect page `sublist_of` ["Navigation"; "Footer"; "Product Grid"].
Proof.
  unfold detect.
  destruct (0 <? count page sel_navigation)%nat, (0 <? count page sel_footer)%nat,
    (5 <? count page sel_productGrid)%nat; simpl;
    repeat first [apply sublist_nil_l | apply sublist_skip | apply sublist_cons].
Qed.

(** A listing page is a Category page: the classifier has no rule for
    product listing pages. *)
Lemma listing_is_category `{Host} (base url html : string) :
  type (analyzePageTemplate base url html) = CATEGORY ∨
  type (analyzePageTemplate base url html) = PLP →
  type (analyzePageTemplate base url html) = CATEGORY.
Proof.
  intros [?|Hplp]; [done|]. rewrite analyzePageTemplate_type in Hplp.
  pose proof (classify_range base url (cheerio_load html)) as Hr.
  rewrite Hplp, !elem_of_cons, elem_of_nil in Hr.
  by destruct Hr as [|[|[|[|[|[|[]]]]]]].
Qed.

(** X1.  The classifier gives one of six types: never Product Listing,
    Checkout, Account or Content.  It gives no characteristics exactly when
    the type is Unknown; a page at the root URL, with or without one
    trailing slash, is a product, a category or the home page, never Cart,
    Search or Unknown; and the elements detected are among Navigation,
    Footer and Product Grid, in that order. *)
Theorem analyzePageTemplate_range `{Host} (base url html : string) :
  let t := analyzePageTemplate base url html in
  type t ∈ [PDP; CATEGORY; HOME; CART; SEARCH; UNKNOWN] ∧
  (characteristics t = [] ↔ type t = UNKNOWN) ∧
  (url = base ∨ url = base +:+ "/" →
   type t = PDP ∨ type t = CATEGORY ∨ type t = HOME) ∧
  detectedElements t `sublist_of` ["Navigation"; "Footer"; "Product Grid"].
Proof.
  intros t. split; [|split; [|split]].
  - unfold t. rewrite analyzePageTemplate_type. apply classify_range.
  - unfold t, analyzePageTemplate.
    pose proof (classify_characteristics base url (cheerio_load html)) as Hc.
    by destruct (classify base (cheerio_load html) url).
  - intros Hurl. unfold t. rewrite analyzePageTemplate_type. unfold classify.
    destruct (isProductDetailPage _); [by left|].
    destruct (isCategoryPage _); [by right; left|].
    assert (String.eqb url base || String.eqb url (base +:+ "/") = true) as ->.
    { destruct Hurl as [-> | ->]; rewrite String.eqb_refl; [done|apply orb_true_r]. }
    by right; right.
  - unfold t, analyzePageTemplate.
    destruct (classify base (cheerio_load html) url). apply detect_sublist.
Qed.

(** ** What the loop adds *)

Section Added.
Context `{Host}.

Lemma fetchPage_added role url self r self' :
  fetchPage role url self = (r, self') →
  self' = self ∨
  ∃ outcome, journal self' = journal self ++ [PageRequest role url outcome] ∧
             baseUrl self' = baseUrl self ∧ r = bodyOf outcome.
Proof.
  intros Hrun.
  destruct (fetchPage_cases role url self) as [[_ Heq]|(_ & w & o & _ & Heq)];
    rewrite Heq in Hrun; injection Hrun as <- <-; [by left|right]. by exists o.
Qed.

Lemma sampleProduct_added html tpls self tpls' self' :
  sampleProduct html tpls self = (tpls', self') →
  baseUrl self' = baseUrl self ∧
  ∃ ext, journal self' = journal self ++ ext ∧ Forall (addedBy (baseUrl self)) ext.
Proof.
  unfold sampleProduct, bind, this, ret. cbn beta zeta.
  assert (Hnone : baseUrl self = baseUrl self ∧
    ∃ ext, journal self = journal self ++ ext ∧ Forall (addedBy (baseUrl self)) ext).
  { split; [done|]. exists []. by rewrite app_nil_r. }
  destruct (extractProductLinks (cheerio_load html)) as [|first rest];
    [by intros [= <- <-]|].
  case_bool_decide; [by intros [= <- <-]|].
  destruct (fetchPage ProductSample _ self) as [productHtml self1] eqn:Hfetch.
  destruct (fetchPage_added _ _ _ _ _ Hfetch) as [->|(o & Hlog & Hbase & ->)].
  { destruct (truthy productHtml); [|by intros [= <- <-]].
    case_bool_decide as Hty; [|by intros [= <- <-]].
    unfold templates_set. intros [= <- <-]. simpl. split; [done|].
    eexists [_]. split; [done|]. apply Forall_singleton. simpl. auto. }
  assert (Hone : Forall (addedBy (baseUrl self))
            [PageRequest ProductSample (resolveUrl (baseUrl self) (linkUrl first)) o]).
  { by apply Forall_singleton. }
  destruct (truthy (bodyOf o)); [|intros [= <- <-]; eauto].
  case_bool_decide as Hty; [|intros [= <- <-]; eauto].
  unfold templates_set. intros [= <- <-]. simpl. split; [done|].
  eexists [_; _]. rewrite Hlog, <- app_assoc. split; [done|].
  apply Forall_cons. split; [done|]. apply Forall_singleton. simpl. auto.
Qed.

Lemma visitCandidate_added link fullUrl html found self found' self' :
  visitCandidate link fullUrl html found self = (found', self') →
  baseUrl self' = baseUrl self ∧
  (∃ ext, journal self' = journal self ++ ext ∧ Forall (addedBy (baseUrl self)) ext) ∧
  (∃ new, f_entities found' = f_entities found ++ new ∧
          Forall (fun e => entityType e = EntCATEGORY ∧ entityUrl e = fullUrl ∧
                           entityName e = linkText link) new).
Proof.
  unfold visitCandidate, bind, this, ret. cbn beta zeta.
  set (template := analyzePageTemplate (baseUrl self) fullUrl html).
  case_bool_decide as Hlisting; cycle 1.
  { intros [= <- <-]. simpl. split; [done|]. split.
    - exists []. by rewrite app_nil_r.
    - exists []. by rewrite app_nil_r. }
  apply listing_is_category in Hlisting. fold template in Hlisting.
  assert (Hrest : ∀ tpls1 self1,
    baseUrl self1 = baseUrl self →
    (∃ ext, journal self1 = journal self ++ ext ∧ Forall (addedBy (baseUrl self)) ext) →
    (let '(tpls2, self2) := sampleProduct html tpls1 self1 in
     (mkFound tpls2
        (f_entities found ++ [mkSiteEntity EntCATEGORY (linkText link) fullUrl])
        (f_siteMap found ++ [fullUrl]), self2)) = (found', self') →
    baseUrl self' = baseUrl self ∧
    (∃ ext, journal self' = journal self ++ ext ∧ Forall (addedBy (baseUrl self)) ext) ∧
    (∃ new, f_entities found' = f_entities found ++ new ∧
            Forall (fun e => entityType e = EntCATEGORY ∧ entityUrl e = fullUrl ∧
                             entityName e = linkText link) new)).
  { intros tpls1 self1 Hbase1 (ext1 & Hlog1 & Hext1).
    destruct (sampleProduct html tpls1 self1) as [tpls2 self2] eqn:Hsample.
    destruct (sampleProduct_added _ _ _ _ _ Hsample) as (Hbase2 & ext2 & Hlog2 & Hext2).
    intros [= <- <-]. simpl. split; [congruence|]. split.
    - exists (ext1 ++ ext2). rewrite Hlog2, Hlog1, app_assoc. split; [done|].
      apply Forall_app. split; [done|]. by rewrite <- Hbase1.
    - eexists [_]. split; [done|]. by apply Forall_singleton. }
  case_bool_decide as Hhas.
  - apply Hrest; [done|]. exists []. by rewrite app_nil_r.
  - unfold templates_set. apply Hrest; [done|]. simpl.
    eexists [_]. split; [done|]. apply Forall_singleton. simpl. auto.
Qed.

(** The loop appends to the journal only what [addedBy] allows, makes at
    most two calls of [fetch] for each link, and adds only Category
    entities. *)
Lemma crawlLinks_added links : ∀ found self found' self',
  crawlLinks links found self = (found', self') →
  baseUrl self' = baseUrl self ∧
  (∃ ext, journal self' = journal self ++ ext ∧ Forall (addedBy (baseUrl self)) ext) ∧
  (fetches self' ≤ fetches self + 2 * length links)%nat ∧
  (length (f_siteMap found') ≤ length (f_siteMap found) + length links)%nat ∧
  (∃ new, f_entities found' = f_entities found ++ new ∧
          Forall (fun e => entityType e = EntCATEGORY) new).
Proof.
  induction links as [|link rest IH]; intros found self found' self'.
  { intros [= <- <-]. split; [done|]. split; [exists []; by rewrite app_nil_r|].
    split; [simpl; lia|]. split; [simpl; lia|]. exists []. by rewrite app_nil_r. }
  cbn [crawlLinks length].
  destruct (number_ge (ofNat (size (visitedUrls self))) (maxPages self)) eqn:Hfull.
  { intros [= <- <-]. split; [done|]. split; [exists []; by rewrite app_nil_r|].
    split; [lia|]. split; [lia|]. exists []. by rewrite app_nil_r. }
  set (fullUrl := resolveUrl (baseUrl self) (linkUrl link)).
  destruct (shouldVisit (baseUrl self) fullUrl) eqn:Hvisit; cbn [negb]; cycle 1.
  { intros Hrun. destruct (IH _ _ _ _ Hrun) as (? & ? & ? & ? & ?).
    split; [done|]. split; [done|]. split; [lia|]. split; [lia|done]. }
  destruct (fetchPage_cases CandidatePage fullUrl self)
    as [[_ Heq]|(Hnew & w & o & _ & Heq)]; rewrite Heq.
  { cbn [truthy]. intros Hrun. destruct (IH _ _ _ _ Hrun) as (? & ? & ? & ? & ?).
    split; [done|]. split; [done|]. split; [lia|]. split; [lia|done]. }
  set (self1 := mkSiteCrawler _ _ _ _ _).
  assert (Hcount1 : fetches self1 = S (fetches self)) by apply fetches_fetched.
  destruct (truthy (bodyOf o)) as [html|].
  - destruct (visitCandidate link fullUrl html found self1) as [found2 self2] eqn:Hv.
    destruct (visitCandidate_spec _ _ _ _ _ _ _ Hv) as ([] & Hmap2 & _).
    destruct (visitCandidate_added _ _ _ _ _ _ _ Hv)
      as (Hbase2 & (ext2 & Hlog2 & Hext2) & (new2 & Hnew2 & Hent2)).
    intros Hrun.
    destruct (IH _ _ _ _ Hrun)
      as (Hbase' & (ext' & Hlog' & Hext') & Hcost' & Hmap' & (new' & Hnew' & Hent')).
    simpl in Hbase2, Hlog2, Hext2. rewrite Hbase2 in Hbase', Hext'.
    split; [done|]. split; [|split; [|split]].
    + exists ([PageRequest CandidatePage fullUrl o] ++ ext2 ++ ext').
      rewrite Hlog', Hlog2, <- !app_assoc. split; [done|].
      apply Forall_app. split; [by apply Forall_singleton|].
      apply Forall_app. by split.
    + lia.
    + rewrite Hmap2, length_app in Hmap'. simpl in Hmap'. lia.
    + exists (new2 ++ new'). rewrite Hnew', Hnew2, app_assoc. split; [done|].
      apply Forall_app. split; [|done].
      eapply Forall_impl; [exact Hent2|]. by intros e (? & _).
  - intros Hrun.
    destruct (IH _ _ _ _ Hrun)
      as (Hbase' & (ext' & Hlog' & Hext') & Hcost' & Hmap' & Hent').
    simpl in Hbase', Hlog', Hext'.
    split; [done|]. split; [|split; [lia|split; [lia|done]]].
    exists ([PageRequest CandidatePage fullUrl o] ++ ext').
    rewrite Hlog', <- app_assoc. split; [done|].
    apply Forall_app. split; [by apply Forall_singleton|done].
Qed.

End Added.

(** ** The shape of a run *)

Section Shape.
Context `{Host}.

(** A run of a fresh crawler, spelled out up to the loop. *)
Lemma analyzeSite_unfold (self : SiteCrawler) :
  visitedUrls self = ∅ → journal self = [] →
  let base := baseUrl self in
  ∃ w0 o_robots w1 o_root,
    fetch (world self) (base +:+ "/robots.txt") false = (w0, o_robots) ∧
    fetch w0 base true = (w1, o_root) ∧
    let head := [RobotsRequest (base +:+ "/robots.txt") o_robots;
                 PageRequest RootPage base o_root] in
    match truthy (bodyOf o_root) with
    | None =>
        analyzeSite self =
          (mkSiteStructure base (toISOString_now w1) ∅ [] [] (bodyOf o_robots),
           mkSiteCrawler base {[base]} (maxPages self) w1 head)
    | Some html =>
        let homeTemplate := analyzePageTemplate base base html in
        let loop :=
          crawlLinks (extractCategoryLinks (cheerio_load html))
            (mkFound {[HOME := homeTemplate]} [] [])
            (mkSiteCrawler base {[base]} (maxPages self) w1
               (head ++ [TemplateSet HOME homeTemplate])) in
        analyzeSite self =
          (mkSiteStructure base (toISOString_now (world loop.2))
             (f_templates loop.1) (f_entities loop.1) (f_siteMap loop.1)
             (bodyOf o_robots),
           loop.2)
    end.
Proof.
  intros Hfresh Hlog base.
  unfold analyzeSite, fetchRobotsTxt, bind, this, ret, request.
  destruct (fetch (world self) (baseUrl self +:+ "/robots.txt") false)
    as [w0 o_robots] eqn:Hrobots.
  rewrite Hlog, app_nil_l.
  set (self0 := mkSiteCrawler _ _ _ w0 _).
  destruct (fetchPage_cases RootPage (baseUrl self0) self0)
    as [[Hin _]|(_ & w1 & o_root & Hroot & Heq)].
  { simpl in Hin. rewrite Hfresh in Hin. by apply not_elem_of_empty in Hin. }
  rewrite Heq. exists w0, o_robots, w1, o_root.
  split; [done|]. split; [exact Hroot|].
  cbn [baseUrl world journal visitedUrls maxPages self0 app].
  rewrite Hfresh, (right_id_L ∅ (∪)).
  destruct (truthy (bodyOf o_root)) as [html|]; [|done].
  unfold templates_set. cbn [baseUrl world journal visitedUrls maxPages app].
  rewrite insert_empty.
  by destruct (crawlLinks _ _ _) as [found' self'].
Qed.

End Shape.

Section RunShape.
Context `{Host}.

Lemma extractCategoryLinks_length (page : Document) :
  (length (extractCategoryLinks page) ≤ 20)%nat.
Proof. unfold extractCategoryLinks. rewrite length_take. lia. Qed.

Lemma extractProductLinks_length (page : Document) :
  (length (extractProductLinks page) ≤ 10)%nat.
Proof. unfold extractProductLinks. rewrite length_take. lia. Qed.

(** A crawler whose visited set has reached the budget does nothing with
    the links it is given. *)
Lemma crawlLinks_full links found self :
  number_ge (ofNat (size (visitedUrls self))) (maxPages self) = true →
  crawlLinks links found self = (found, self).
Proof.
  intros Hfull. destruct links as [|link rest]; [done|].
  cbn [crawlLinks]. by rewrite Hfull.
Qed.

(** The journal of a run: the robots request, the root request, and, when
    the root page came, the write of the home template followed by what the
    loop added. *)
Lemma analyze_journal (w : World) (rootUrl : string) (pages : option number) :
  let run := analyze w rootUrl pages in
  let base := stripTrailingSlash rootUrl in
  ∃ o_robots o_root tail,
    baseUrl run.2 = base ∧
    robotsTxt run.1 = bodyOf o_robots ∧
    journal run.2 =
      [RobotsRequest (base +:+ "/robots.txt") o_robots;
       PageRequest RootPage base o_root] ++ tail ∧
    (fetches run.2 ≤ 41)%nat ∧
    (length (siteMap run.1) ≤ 20)%nat ∧
    Forall (fun e => entityType e = EntCATEGORY) (entities run.1) ∧
    match truthy (bodyOf o_root) with
    | None => tail = []
    | Some html =>
        ∃ ext, tail = TemplateSet HOME (analyzePageTemplate base base html) :: ext ∧
               Forall (addedBy base) ext
    end.
Proof.
  intros run base.
  destruct (analyzeSite_unfold (new_SiteCrawler w rootUrl pages) eq_refl eq_refl)
    as (w0 & o_robots & w1 & o_root & _ & _ & Hrun).
  cbn [baseUrl new_SiteCrawler maxPages] in Hrun. fold base in Hrun.
  exists o_robots, o_root.
  destruct (truthy (bodyOf o_root)) as [html|].
  - cbn zeta in Hrun.
    destruct (crawlLinks _ _ _) as [found' self'] eqn:Hloop.
    destruct (crawlLinks_added _ _ _ _ _ Hloop)
      as (Hbase & (ext & Hlog & Hext) & Hcost & Hmap & (new & Hnew & Hent)).
    cbn [baseUrl journal f_siteMap f_entities fst snd length] in *.
    pose proof (extractCategoryLinks_length (cheerio_load html)) as Hcap.
    exists (TemplateSet HOME (analyzePageTemplate base base html) :: ext).
    unfold run, analyze. rewrite Hrun.
    cbn [fst snd robotsTxt siteMap entities].
    split; [done|]. split; [done|]. split; [by rewrite Hlog|].
    split; [|split; [lia|split; [by rewrite Hnew|eauto]]].
    unfold fetches in *. simpl in Hcost. lia.
  - exists []. unfold run, analyze. rewrite Hrun.
    cbn [fst snd robotsTxt siteMap entities baseUrl journal].
    split; [done|]. split; [done|]. split; [done|].
    split; [unfold fetches; simpl; lia|]. split; [simpl; lia|]. by split.
Qed.

End RunShape.

(** ** Runs, beyond the budget *)

Section RunExtras.
Context `{Host}.

Lemma templateWrites_elem log key value :
  (key, value) ∈ templateWrites log ↔ TemplateSet key value ∈ log.
Proof.
  unfold templateWrites. rewrite list_elem_of_omap. split.
  - intros ([u o|role u o|k v] & Hin & Heq); try done. by injection Heq as -> ->.
  - intros Hin. by exists (TemplateSet key value).
Qed.

Lemma pagesFetched_app log1 log2 :
  pagesFetched (log1 ++ log2) = pagesFetched log1 ++ pagesFetched log2.
Proof. unfold pagesFetched, pageRequests. by rewrite omap_app, fmap_app. Qed.

Lemma urlsRequested_app log1 log2 :
  urlsRequested (log1 ++ log2) = urlsRequested log1 ++ urlsRequested log2.
Proof. unfold urlsRequested. by rewrite omap_app. Qed.

Lemma added_no_robots base ext :
  Forall (addedBy base) ext →
  robotsRequests ext = [] ∧ length (urlsRequested ext) = length (pagesFetched ext).
Proof.
  induction 1 as [|e ext He _ [IH1 IH2]]; [done|].
  destruct e as [u o|role u o|k v]; [done| |done].
  unfold robotsRequests, urlsRequested, pagesFetched, pageRequests in *.
  cbn. by rewrite IH2.
Qed.

Lemma shouldVisit_true base url :
  shouldVisit base url = true →
  ∃ urlObj baseUrlObj,
    new_URL url None = Some urlObj ∧ new_URL base None = Some baseUrlObj ∧
    hostname urlObj = hostname baseUrlObj ∧
    testExtension ["jpg"; "jpeg"; "png"; "gif"; "svg"; "pdf"; "zip";
                   "css"; "js"; "json"; "xml"] url = false ∧
    testSlashWordSlash ["api"; "cdn"; "static"; "assets"; "media"] url = false.
Proof.
  unfold shouldVisit.
  destruct (new_URL url None) as [urlObj|]; [|done].
  destruct (new_URL base None) as [baseUrlObj|]; [|done].
  destruct (String.eqb (hostname urlObj) (hostname baseUrlObj)) eqn:Hhost; [|done].
  apply String.eqb_eq in Hhost. cbn [negb existsb]. rewrite orb_false_r.
  intros Hnone%negb_true_iff%orb_false_iff. destruct Hnone. eauto 10.
Qed.

End RunExtras.

(** X2.  Whatever the budget, a run makes at most 41 page fetches and 42
    requests in all, and its site map and its entity list have at most 20
    entries: the loop runs over at most twenty links and fetches at most
    two pages for each. *)
Theorem analyze_hard_cap `{Host} (w : World) (rootUrl : string) (pages : option number) :
  let run := analyze w rootUrl pages in
  (length (pagesFetched (journal run.2)) ≤ 41)%nat ∧
  (length (urlsRequested (journal run.2)) ≤ 42)%nat ∧
  (length (siteMap run.1) ≤ 20)%nat ∧
  (length (entities run.1) ≤ length (siteMap run.1))%nat.
Proof.
  intros run.
  destruct (analyze_journal w rootUrl pages)
    as (o_robots & o_root & tail & _ & _ & Hlog & Hcost & Hmap & _ & Htail).
  fold run in Hlog, Hcost, Hmap. unfold fetches in Hcost.
  destruct (analyze_run w rootUrl pages)
    as (_ & _ & _ & _ & _ & _ & _ & [_ _ _ Hsub] & _).
  apply sublist_length in Hsub. rewrite length_fmap in Hsub. simpl in Hsub.
  split; [done|]. split; [|split; [done|exact Hsub]].
  assert (Hreq : length (urlsRequested tail) = length (pagesFetched tail)).
  { destruct (truthy (bodyOf o_root)).
    - destruct Htail as (ext & -> & Hext). by apply added_no_robots in Hext as [_ ?].
    - by subst tail. }
  rewrite Hlog in Hcost |- *.
  rewrite pagesFetched_app, length_app in Hcost.
  rewrite urlsRequested_app, length_app, Hreq.
  change (length (pagesFetched [_; _])) with 1%nat in Hcost.
  change (length (urlsRequested [_; _])) with 2%nat. lia.
Qed.

(** X3.  With a budget of one page or less, only the root page is fetched:
    the site map and the entity list are empty and the template map has no
    key other than Home. *)
Theorem analyze_small_budget `{Host} (w : World) (rootUrl : string) (pages : option number) :
  let run := analyze w rootUrl pages in
  number_le (default (ofZ 50) pages) (ofZ 1) = true →
  pagesFetched (journal run.2) = [baseUrl run.2] ∧
  siteMap run.1 = [] ∧ entities run.1 = [] ∧
  (∀ key, key ≠ HOME → templates run.1 !! key = None).
Proof.
  intros run Hsmall.
  destruct (analyzeSite_unfold (new_SiteCrawler w rootUrl pages) eq_refl eq_refl)
    as (w0 & o_robots & w1 & o_root & _ & _ & Hrun).
  cbn [baseUrl new_SiteCrawler maxPages] in Hrun.
  destruct (truthy (bodyOf o_root)) as [html|].
  - cbn zeta in Hrun. rewrite crawlLinks_full in Hrun.
    + unfold run, analyze. rewrite Hrun. cbn. repeat split.
      intros key Hkey. by apply lookup_singleton_ne.
    + cbn [visitedUrls maxPages]. rewrite size_singleton. exact Hsmall.
  - unfold run, analyze. rewrite Hrun. cbn. repeat split.
Qed.

Lemma analyze_small_budget_witness :
  number_le (ofZ 1) (ofZ 1) = true ∧
  pagesFetched (journal Tour.singleRun.2) = ["https://example.com"] ∧
  siteMap Tour.singleRun.1 = [] ∧ entities Tour.singleRun.1 = [].
Proof.
  split; [reflexivity|].
  destruct (@analyze_small_budget Demo.shop tt Demo.root (Some (ofZ 1)) eq_refl)
    as (Hp & Hs & He & _).
  split; [exact Hp|]. split; [exact Hs|exact He].
Defined.

Lemma run_candidates_filtered `{Host} (w : World) (rootUrl : string)
    (pages : option number) (url : string) (o : FetchOutcome) :
  PageRequest CandidatePage url o ∈ journal (analyze w rootUrl pages).2 →
  shouldVisit (baseUrl (analyze w rootUrl pages).2) url = true.
Proof.
  intros Hin.
  destruct (analyze_journal w rootUrl pages)
    as (o_robots & o_root & tail & Hbase & _ & Hlog & _ & _ & _ & Htail).
  rewrite <- Hbase in Hlog, Htail.
  rewrite Hlog in Hin. apply elem_of_app in Hin as [Hin|Hin].
  - apply elem_of_cons in Hin as [?|Hin]; [done|].
    by apply list_elem_of_singleton in Hin.
  - destruct (truthy (bodyOf o_root)); [|subst tail; by apply elem_of_nil in Hin].
    destruct Htail as (ext & -> & Hext).
    apply elem_of_cons in Hin as [?|Hin]; [done|].
    rewrite Forall_forall in Hext. exact (Hext _ Hin).
Qed.

(** X4.  Every candidate page a run requests passed [shouldVisit]: it is a
    URL with the host name of the root, it does not end in one of the asset
    extensions, and it has no [/api/], [/cdn/], [/static/], [/assets/] or
    [/media/] in it. *)
Theorem analyze_candidates_filtered `{Host} (w : World) (rootUrl : string)
    (pages : option number) (url : string) (o : FetchOutcome) :
  let run := analyze w rootUrl pages in
  let base := baseUrl run.2 in
  PageRequest CandidatePage url o ∈ journal run.2 →
  shouldVisit base url = true ∧
  ∃ urlObj baseUrlObj,
    new_URL url None = Some urlObj ∧ new_URL base None = Some baseUrlObj ∧
    hostname urlObj = hostname baseUrlObj ∧
    testExtension ["jpg"; "jpeg"; "png"; "gif"; "svg"; "pdf"; "zip";
                   "css"; "js"; "json"; "xml"] url = false ∧
    testSlashWordSlash ["api"; "cdn"; "static"; "assets"; "media"] url = false.
Proof.
  intros run base Hin.
  pose proof (run_candidates_filtered w rootUrl pages url o Hin) as Hvisit.
  split; [exact Hvisit|]. by apply shouldVisit_true.
Qed.

Lemma analyze_candidates_filtered_witness :
  PageRequest CandidatePage "https://example.com/electronics" (Demo.ok "<listing>")
    ∈ journal Demo.shopRun.2 ∧
  @shouldVisit Demo.shop "https://example.com" "https://example.com/electronics" = true.
Proof.
  assert (Hin : PageRequest CandidatePage "https://example.com/electronics"
                  (Demo.ok "<listing>") ∈ journal Demo.shopRun.2).
  { apply list_elem_of_lookup. exists 3%nat. vm_compute. reflexivity. }
  split; [exact Hin|].
  exact (proj1 (@analyze_candidates_filtered Demo.shop tt Demo.root None _ _ Hin)).
Defined.

Lemma urlsRequested_pages log :
  robotsRequests log = [] → urlsRequested log = pagesFetched log.
Proof.
  unfold robotsRequests, urlsRequested, pagesFetched, pageRequests.
  induction log as [|e log IH]; [done|].
  destruct e as [u o|role u o|key value]; cbn; [done| |exact IH].
  intros Hnone. by rewrite (IH Hnone).
Qed.

Lemma NoDup_count (x : string) (l : list string) :
  NoDup l → (length (List.filter (String.eqb x) l) ≤ 1)%nat.
Proof.
  induction 1 as [|y l Hy _ IH]; [simpl; lia|].
  cbn [List.filter]. destruct (String.eqb_spec x y) as [<-|_]; [|exact IH].
  assert (Hnone : List.filter (String.eqb x) l = []).
  { destruct (List.filter (String.eqb x) l) as [|z rest] eqn:Hf; [done|].
    assert (Hz : In z (List.filter (String.eqb x) l)) by (rewrite Hf; by left).
    apply filter_In in Hz as [Hin Heq]. apply String.eqb_eq in Heq as <-.
    by apply list_elem_of_In in Hin. }
  rewrite Hnone. simpl. lia.
Qed.

(** X5.  A run calls [fetchRobotsTxt] exactly once, before anything else:
    the first request of the run is the one it makes, for the root URL
    followed by [/robots.txt], and no later request is of that kind.  The
    model carries the robots text exactly when that request came back [ok]
    with a readable body.  The visited set does not know of that request,
    so [fetchPage] can request the same URL once more as a page: the URL of
    the robots file is requested once or twice in a run. *)
Theorem analyze_robots_once `{Host} (w : World) (rootUrl : string) (pages : option number) :
  let run := analyze w rootUrl pages in
  let url := baseUrl run.2 +:+ "/robots.txt" in
  let times := length (List.filter (String.eqb url) (urlsRequested (journal run.2))) in
  ∃ o,
    robotsRequests (journal run.2) = [(url, o)] ∧
    journal run.2 !! 0%nat = Some (RobotsRequest url o) ∧
    robotsTxt run.1 = bodyOf o ∧
    (∀ text, robotsTxt run.1 = Some text ↔ o = Response true (Some text)) ∧
    (1 ≤ times ≤ 2)%nat ∧
    (times = 2%nat ↔ url ∈ pagesFetched (journal run.2)).
Proof.
  intros run url times.
  destruct (analyze_journal w rootUrl pages)
    as (o_robots & o_root & tail & Hbase & Hrobots & Hlog & _ & _ & _ & Htail).
  destruct (analyze_run w rootUrl pages)
    as (_ & _ & _ & _ & _ & _ & _ & [[Hnd _] _ _ _] & _).
  fold run in Hbase, Hrobots, Hlog, Hnd. unfold times, url. rewrite Hbase.
  exists o_robots.
  assert (Hnone : robotsRequests tail = []).
  { destruct (truthy (bodyOf o_root)).
    - destruct Htail as (ext & -> & Hext). by apply added_no_robots in Hext as [? _].
    - by subst tail. }
  assert (Hurls : urlsRequested (journal run.2)
                  = (stripTrailingSlash rootUrl +:+ "/robots.txt")
                    :: pagesFetched (journal run.2)).
  { rewrite Hlog.
    change (urlsRequested (_ ++ tail))
      with ((stripTrailingSlash rootUrl +:+ "/robots.txt")
            :: stripTrailingSlash rootUrl :: urlsRequested tail).
    change (pagesFetched (_ ++ tail))
      with (stripTrailingSlash rootUrl :: pagesFetched tail).
    by rewrite (urlsRequested_pages tail Hnone). }
  split; [|split; [by rewrite Hlog|split; [done|split]]].
  - rewrite Hlog. unfold robotsRequests in *. rewrite omap_app, Hnone. done.
  - intros text. rewrite Hrobots. destruct o_robots as [|[] []]; naive_solver.
  - rewrite Hurls. cbn [List.filter]. rewrite String.eqb_refl. cbn [length].
    pose proof (NoDup_count (stripTrailingSlash rootUrl +:+ "/robots.txt") _ Hnd) as Hone.
    split; [lia|]. split.
    + intros Htwo.
      destruct (List.filter _ (pagesFetched (journal run.2))) as [|z rest] eqn:Hf;
        [simpl in Htwo; lia|].
      assert (Hz : In z (List.filter
                (String.eqb (stripTrailingSlash rootUrl +:+ "/robots.txt"))
                (pagesFetched (journal run.2)))) by (rewrite Hf; by left).
      apply filter_In in Hz as [Hin Heq]. apply String.eqb_eq in Heq as <-.
      by apply list_elem_of_In.
    + intros Hin. apply list_elem_of_In in Hin.
      assert (Hz : In (stripTrailingSlash rootUrl +:+ "/robots.txt")
                (List.filter (String.eqb (stripTrailingSlash rootUrl +:+ "/robots.txt"))
                   (pagesFetched (journal run.2)))).
      { apply filter_In. split; [done|apply String.eqb_refl]. }
      destruct (List.filter _ (pagesFetched (journal run.2))); [done|]. simpl in *. lia.
Qed.

(** X6.  The template map of a run has no key other than Home, Category
    and PDP, so at most three entries; the templates under Category and PDP
    have the type of their key (the one under Home has the type the
    classifier gave the root page). *)
Theorem analyze_template_keys `{Host} (w : World) (rootUrl : string) (pages : option number) :
  let run := analyze w rootUrl pages in
  (∀ key value, templates run.1 !! key = Some value →
     key = HOME ∨ (type value = key ∧ (key = CATEGORY ∨ key = PDP))) ∧
  (∀ key, key ∈ [PLP; SEARCH; CART; CHECKOUT; ACCOUNT; CONTENT; UNKNOWN] →
     templates run.1 !! key = None) ∧
  (size (templates run.1) ≤ 3)%nat.
Proof.
  intros run.
  destruct (analyze_journal w rootUrl pages)
    as (o_robots & o_root & tail & _ & _ & Hlog & _ & _ & _ & Htail).
  destruct (analyze_run w rootUrl pages)
    as (_ & _ & _ & _ & _ & _ & _ & [_ [_ Heq] _ _] & _).
  fold run in Hlog, Heq. simpl in Heq.
  assert (Hkeys : ∀ key value, templates run.1 !! key = Some value →
     key = HOME ∨ (type value = key ∧ (key = CATEGORY ∨ key = PDP))).
  { intros key value Hlook. rewrite Heq in Hlook.
    apply elem_of_list_to_map_2, templateWrites_elem in Hlook.
    rewrite Hlog in Hlook. apply elem_of_app in Hlook as [Hin|Hin].
    - apply elem_of_cons in Hin as [?|Hin]; [done|].
      by apply list_elem_of_singleton in Hin.
    - destruct (truthy (bodyOf o_root)); [|subst tail; by apply elem_of_nil in Hin].
      destruct Htail as (ext & -> & Hext).
      apply elem_of_cons in Hin as [[= -> _]|Hin]; [by left|].
      rewrite Forall_forall in Hext. right. exact (Hext _ Hin). }
  split; [exact Hkeys|]. split.
  - intros key Hkey. destruct (templates run.1 !! key) as [value|] eqn:Hlook; [|done].
    rewrite !elem_of_cons, elem_of_nil in Hkey.
    destruct (Hkeys _ _ Hlook) as [->|[_ [->| ->]]];
      by destruct Hkey as [|[|[|[|[|[|[|[]]]]]]]].
  - assert (Hdom : dom (templates run.1) ⊆ ({[HOME; CATEGORY; PDP]} : gset _)).
    { intros key [value Hlook]%elem_of_dom.
      destruct (Hkeys _ _ Hlook) as [->|[_ [->| ->]]]; set_solver. }
    apply subseteq_size in Hdom. rewrite size_dom in Hdom.
    etrans; [exact Hdom|]. by vm_compute.
Qed.

(** X7.  Every entity of a run is a Category entity; its URL is in the
    site map, was requested as a candidate page and came back with a
    body, and passed [shouldVisit]. *)
Theorem analyze_entities_are_categories `{Host} (w : World) (rootUrl : string)
    (pages : option number) (e : SiteEntity) :
  let run := analyze w rootUrl pages in
  e ∈ entities run.1 →
  entityType e = EntCATEGORY ∧
  entityUrl e ∈ siteMap run.1 ∧
  (∃ o, PageRequest CandidatePage (entityUrl e) o ∈ journal run.2 ∧ delivered o = true) ∧
  shouldVisit (baseUrl run.2) (entityUrl e) = true.
Proof.
  intros run Hin.
  destruct (analyze_journal w rootUrl pages)
    as (_ & _ & _ & _ & _ & _ & _ & _ & Hent & _).
  destruct (analyze_run w rootUrl pages)
    as (_ & _ & _ & _ & _ & _ & _ & [_ _ Hmap Hsub] & _).
  fold run in Hent, Hmap, Hsub. simpl in Hmap, Hsub.
  assert (Hurl : entityUrl e ∈ siteMap run.1).
  { apply (sublist_subseteq _ _ Hsub). apply list_elem_of_fmap. eauto. }
  assert (Hreq : ∃ o, PageRequest CandidatePage (entityUrl e) o ∈ journal run.2 ∧
                      delivered o = true).
  { rewrite Hmap in Hurl. by apply candidateHits_elem. }
  rewrite Forall_forall in Hent.
  split; [by apply Hent|]. split; [exact Hurl|]. split; [exact Hreq|].
  destruct Hreq as (o & Ho & _).
  exact (run_candidates_filtered w rootUrl pages _ _ Ho).
Qed.

Lemma analyze_entities_are_categories_witness :
  mkSiteEntity EntCATEGORY "Electronics" "https://example.com/electronics"
    ∈ entities Demo.shopRun.1 ∧
  "https://example.com/electronics" ∈ siteMap Demo.shopRun.1.
Proof.
  assert (Hin : mkSiteEntity EntCATEGORY "Electronics" "https://example.com/electronics"
                  ∈ entities Demo.shopRun.1).
  { apply list_elem_of_lookup. exists 0%nat. vm_compute. reflexivity. }
  split; [exact Hin|].
  exact (proj1 (proj2 (@analyze_entities_are_categories Demo.shop tt Demo.root None _ Hin))).
Defined.

(** ** Link extraction *)

Section Extraction.

Lemma eachCategoryAnchor_collect st elem :
  eachCategoryAnchor st elem = collect categoryCandidate st elem.
Proof.
  unfold eachCategoryAnchor, collect, categoryCandidate.
  destruct (attr_href elem) as [href|]; [|done].
  destruct (nonEmpty href); [|done].
  destruct (nonEmpty (trim (el_text elem))); [|done]. cbn [andb].
  destruct (looksLikeCategoryLink href (trim (el_text elem))).
  - cbn [linkUrl]. by case_bool_decide.
  - by case_bool_decide.
Qed.

Lemma eachProductAnchor_collect st elem :
  eachProductAnchor st elem = collect productCandidate st elem.
Proof.
  unfold eachProductAnchor, collect, productCandidate.
  destruct (attr_href elem) as [href|]; [|done].
  destruct (nonEmpty href); [|done]. cbn [andb linkUrl]. by case_bool_decide.
Qed.

Lemma scan_anchors each selectors page :
  scan each selectors page = (foldl each (∅, []) (anchorsOf selectors page)).2.
Proof.
  unfold scan, anchorsOf. generalize ((∅, []) : Seen).
  induction selectors as [|selector selectors IH]; intros st; [done|].
  cbn [foldl]. rewrite fmap_cons.
  change (mjoin (page selector :: (page <$> selectors)))
    with (page selector ++ mjoin (page <$> selectors)).
  by rewrite foldl_app, IH.
Qed.

Lemma foldl_ext_each (each1 each2 : Seen → Element → Seen) elems st :
  (∀ st elem, each1 st elem = each2 st elem) →
  foldl each1 st elems = foldl each2 st elems.
Proof.
  intros Heq. revert st. induction elems as [|elem elems IH]; intros st; [done|].
  cbn [foldl]. by rewrite Heq, IH.
Qed.

(** What a scan has collected: the [seen] set holds the hrefs of the links,
    no href is there twice, every link is the candidate of some anchor, and
    the candidate of every anchor has its href among the links. *)
Lemma collect_fold candidate elems :
  let st := foldl (collect candidate) (∅, []) elems in
  (∀ h, h ∈ st.1 ↔ h ∈ linkUrl <$> st.2) ∧
  NoDup (linkUrl <$> st.2) ∧
  (∀ link, link ∈ st.2 → ∃ elem, elem ∈ elems ∧ candidate elem = Some link) ∧
  (∀ elem link, elem ∈ elems → candidate elem = Some link →
     linkUrl link ∈ linkUrl <$> st.2).
Proof.
  induction elems as [|elem elems IH] using rev_ind.
  { cbn. split; [|split; [apply NoDup_nil_2|split]].
    - intros h. by rewrite elem_of_empty, elem_of_nil.
    - by intros link ?%elem_of_nil.
    - by intros e link ?%elem_of_nil. }
  rewrite foldl_app. cbn [foldl].
  destruct IH as (Hseen & Hnd & Hsound & Hfull).
  set (st := foldl (collect candidate) (∅, []) elems) in *.
  unfold collect. destruct (candidate elem) as [link|] eqn:Hcand.
  - case_bool_decide as Hin.
    + split; [done|]. split; [done|]. split.
      * intros l Hl. destruct (Hsound l Hl) as (e & He & Hc).
        exists e. split; [|done]. apply elem_of_app. by left.
      * intros e l [He|He%list_elem_of_singleton]%elem_of_app Hc; [by eapply Hfull|].
        subst e. rewrite Hcand in Hc. injection Hc as <-. by apply Hseen.
    + cbn [fst snd]. rewrite fmap_app. split; [|split; [|split]].
      * intros h. rewrite elem_of_union, elem_of_singleton, elem_of_app, Hseen.
        cbn. rewrite list_elem_of_singleton. tauto.
      * apply NoDup_app. split; [done|]. split; [|apply NoDup_singleton].
        intros h Hh ->%list_elem_of_singleton. by apply Hin, Hseen.
      * intros l [Hl|Hl%list_elem_of_singleton]%elem_of_app.
        -- destruct (Hsound l Hl) as (e & He & Hc).
           exists e. split; [|done]. apply elem_of_app. by left.
        -- subst l. exists elem. split; [|done]. apply elem_of_app. right. by constructor.
      * intros e l [He|He%list_elem_of_singleton]%elem_of_app Hc.
        -- apply elem_of_app. left. by eapply Hfull.
        -- subst e. rewrite Hcand in Hc. injection Hc as <-.
           apply elem_of_app. right. by constructor.
  - split; [done|]. split; [done|]. split.
    + intros l Hl. destruct (Hsound l Hl) as (e & He & Hc).
      exists e. split; [|done]. apply elem_of_app. by left.
    + intros e l [He|He%list_elem_of_singleton]%elem_of_app Hc; [by eapply Hfull|].
      subst e. by rewrite Hcand in Hc.
Qed.

Lemma anchorsOf_elem selectors page elem :
  elem ∈ anchorsOf selectors page ↔
  ∃ selector, selector ∈ selectors ∧ elem ∈ page selector.
Proof.
  unfold anchorsOf. rewrite list_elem_of_join. split.
  - intros (l & He & (selector & -> & Hs)%list_elem_of_fmap). eauto.
  - intros (selector & Hs & He). exists (page selector). split; [done|].
    apply list_elem_of_fmap. eauto.
Qed.

End Extraction.

Section ExtractionFacts.

Lemma nonEmpty_true s : nonEmpty s = true ↔ s ≠ EmptyString.
Proof.
  unfold nonEmpty. rewrite negb_true_iff. split.
  - intros Hneq ->. by rewrite String.eqb_refl in Hneq.
  - intros Hne. apply String.eqb_neq. done.
Qed.

Lemma categoryCandidate_Some elem link :
  categoryCandidate elem = Some link ↔
  attr_href elem = Some (linkUrl link) ∧ linkText link = trim (el_text elem) ∧
  linkUrl link ≠ EmptyString ∧ linkText link ≠ EmptyString ∧
  looksLikeCategoryLink (linkUrl link) (linkText link) = true.
Proof.
  unfold categoryCandidate. destruct link as [text href]. cbn [linkUrl linkText].
  rewrite <- !nonEmpty_true. split.
  - destruct (attr_href elem) as [h|]; [|done].
    destruct (nonEmpty h) eqn:Hh; [|done].
    destruct (nonEmpty (trim (el_text elem))) eqn:Ht; [|done]. cbn [andb].
    destruct (looksLikeCategoryLink h (trim (el_text elem))) eqn:Hl; [|done].
    by intros [= <- <-].
  - intros (-> & -> & -> & -> & ->). done.
Qed.

Lemma productCandidate_Some elem link :
  productCandidate elem = Some link ↔
  attr_href elem = Some (linkUrl link) ∧ linkText link = trim (el_text elem) ∧
  linkUrl link ≠ EmptyString.
Proof.
  unfold productCandidate. destruct link as [text href]. cbn [linkUrl linkText].
  rewrite <- !nonEmpty_true. split.
  - destruct (attr_href elem) as [h|]; [|done].
    destruct (nonEmpty h) eqn:Hh; [|done]. by intros [= <- <-].
  - intros (-> & -> & ->). done.
Qed.

Lemma collect_length candidate elems :
  (length (foldl (collect candidate) (∅, []) elems).2 ≤ length elems)%nat.
Proof.
  induction elems as [|elem elems IH] using rev_ind; [done|].
  rewrite foldl_app, length_app. cbn [foldl length].
  set (st := foldl (collect candidate) (∅, []) elems) in *. unfold collect.
  destruct (candidate elem); [|lia]. case_bool_decide; [lia|].
  cbn [snd]. rewrite length_app. simpl. lia.
Qed.

(** What both extractors share, for a scan cut at [n] links. *)
Lemma take_scan_facts candidate each selectors page n :
  (∀ st elem, each st elem = collect candidate st elem) →
  let links := take n (scan each selectors page) in
  (length links ≤ n)%nat ∧
  NoDup (linkUrl <$> links) ∧
  (∀ link, link ∈ links →
     ∃ selector elem, selector ∈ selectors ∧ elem ∈ page selector ∧
                      candidate elem = Some link) ∧
  ((length (anchorsOf selectors page) ≤ n)%nat →
   ∀ selector elem link, selector ∈ selectors → elem ∈ page selector →
     candidate elem = Some link → linkUrl link ∈ linkUrl <$> links).
Proof.
  intros Heach links. unfold links.
  rewrite scan_anchors, (foldl_ext_each each (collect candidate)) by done.
  destruct (collect_fold candidate (anchorsOf selectors page))
    as (_ & Hnd & Hsound & Hfull).
  pose proof (collect_length candidate (anchorsOf selectors page)) as Hlen.
  set (all := (foldl (collect candidate) (∅, []) (anchorsOf selectors page)).2) in *.
  split; [rewrite length_take; lia|]. split; [|split].
  - rewrite fmap_take. eapply sublist_NoDup; [exact Hnd|apply sublist_take].
  - intros link Hin.
    assert (Hall : link ∈ all) by (eapply sublist_subseteq; [apply sublist_take|done]).
    destruct (Hsound link Hall) as (elem & (selector & ? & ?)%anchorsOf_elem & ?).
    eauto.
  - intros Hfew selector elem link Hs He Hc.
    rewrite take_ge by lia. eapply Hfull; [|done]. apply anchorsOf_elem. eauto.
Qed.

End ExtractionFacts.

(** X8.  [extractCategoryLinks] returns at most twenty links with pairwise
    different hrefs.  Each comes from an anchor matched by one of the
    navigation selectors: its href is the anchor's, not empty; its text is
    the anchor's, trimmed, not empty; and the pair passes
    [looksLikeCategoryLink].  When the selectors match at most twenty
    anchors, every anchor that meets these conditions has its href among
    the links. *)
Theorem extractCategoryLinks_sound (page : Document) :
  let links := extractCategoryLinks page in
  (length links ≤ 20)%nat ∧
  NoDup (linkUrl <$> links) ∧
  (∀ link, link ∈ links →
     ∃ selector elem, selector ∈ navSelectors ∧ elem ∈ page selector ∧
       attr_href elem = Some (linkUrl link) ∧ linkText link = trim (el_text elem) ∧
       linkUrl link ≠ EmptyString ∧ linkText link ≠ EmptyString ∧
       looksLikeCategoryLink (linkUrl link) (linkText link) = true) ∧
  ((length (anchorsOf navSelectors page) ≤ 20)%nat →
   ∀ selector elem href, selector ∈ navSelectors → elem ∈ page selector →
     attr_href elem = Some href → href ≠ EmptyString →
     trim (el_text elem) ≠ EmptyString →
     looksLikeCategoryLink href (trim (el_text elem)) = true →
     href ∈ linkUrl <$> links).
Proof.
  intros links.
  destruct (take_scan_facts categoryCandidate eachCategoryAnchor navSelectors page 20
              eachCategoryAnchor_collect) as (Hlen & Hnd & Hsound & Hfull).
  split; [exact Hlen|]. split; [exact Hnd|]. split.
  - intros link Hin. destruct (Hsound link Hin) as (selector & elem & Hs & He & Hc).
    apply categoryCandidate_Some in Hc. exists selector, elem. tauto.
  - intros Hfew selector elem href Hs He Hhref Hne Htext Hlooks.
    apply (Hfull Hfew selector elem (mkLink (trim (el_text elem)) href) Hs He).
    by apply categoryCandidate_Some.
Qed.

(** X9.  [extractProductLinks] returns at most ten links with pairwise
    different hrefs, each the href, not empty, of an anchor matched by one
    of the product selectors, with that anchor's trimmed text, which may be
    empty.  When the selectors match at most ten anchors, every href that
    is not empty is among the links. *)
Theorem extractProductLinks_sound (page : Document) :
  let links := extractProductLinks page in
  (length links ≤ 10)%nat ∧
  NoDup (linkUrl <$> links) ∧
  (∀ link, link ∈ links →
     ∃ selector elem, selector ∈ productSelectors ∧ elem ∈ page selector ∧
       attr_href elem = Some (linkUrl link) ∧ linkText link = trim (el_text elem) ∧
       linkUrl link ≠ EmptyString) ∧
  ((length (anchorsOf productSelectors page) ≤ 10)%nat →
   ∀ selector elem href, selector ∈ productSelectors → elem ∈ page selector →
     attr_href elem = Some href → href ≠ EmptyString →
     href ∈ linkUrl <$> links).
Proof.
  intros links.
  destruct (take_scan_facts productCandidate eachProductAnchor productSelectors page 10
              eachProductAnchor_collect) as (Hlen & Hnd & Hsound & Hfull).
  split; [exact Hlen|]. split; [exact Hnd|]. split.
  - intros link Hin. destruct (Hsound link Hin) as (selector & elem & Hs & He & Hc).
    apply productCandidate_Some in Hc. exists selector, elem. tauto.
  - intros Hfew selector elem href Hs He Hhref Hne.
    apply (Hfull Hfew selector elem (mkLink (trim (el_text elem)) href) Hs He).
    by apply productCandidate_Some.
Qed.

(** ** The category-link filter *)

Section LinkFilterFacts.

Lemma startsWith_prefix a b s :
  startsWith (a +:+ b) s = true → startsWith a s = true.
Proof.
  revert s. induction a as [|c a IH]; intros s; [done|].
  rewrite append_cons. destruct s as [|d s]; [done|]. cbn [startsWith].
  intros [-> Hrest]%andb_true_iff. by rewrite (IH _ Hrest).
Qed.

Lemma includes_prefix a b s :
  includes (a +:+ b) s = true → includes a s = true.
Proof.
  induction s as [|d s IH].
  - cbn [includes]. rewrite !orb_false_r. apply startsWith_prefix.
  - cbn [includes]. intros [Hs|Hi]%orb_true_iff.
    + by rewrite (startsWith_prefix _ _ _ Hs).
    + rewrite (IH Hi). apply orb_true_r.
Qed.

(** The alternatives of the include pattern that start with [c] add
    nothing to the alternative [c]. *)
Lemma include_pattern_collapse s :
  testSlashWord ["category"; "categories"; "c"; "cat"; "collection";
                 "collections"; "dept"; "department"] s
  = includes "/c" (foldCase s) || includes "/dept" (foldCase s) ||
    includes "/department" (foldCase s).
Proof.
  unfold testSlashWord. cbn [existsb]. rewrite orb_false_r.
  set (t := foldCase s).
  assert (Hc : ∀ rest, includes ("/c" +:+ rest) t = true → includes "/c" t = true).
  { intros rest. apply includes_prefix. }
  pose proof (Hc "ategory") as H1. pose proof (Hc "ategories") as H2.
  pose proof (Hc "at") as H3. pose proof (Hc "ollection") as H4.
  pose proof (Hc "ollections") as H5.
  change ("/" +:+ "category") with ("/c" +:+ "ategory").
  change ("/" +:+ "categories") with ("/c" +:+ "ategories").
  change ("/" +:+ "cat") with ("/c" +:+ "at").
  change ("/" +:+ "collection") with ("/c" +:+ "ollection").
  change ("/" +:+ "collections") with ("/c" +:+ "ollections").
  change ("/" +:+ "c") with "/c". change ("/" +:+ "dept") with "/dept".
  change ("/" +:+ "department") with "/department".
  destruct (includes ("/c" +:+ "ategory") t), (includes ("/c" +:+ "ategories") t),
    (includes ("/c" +:+ "at") t), (includes ("/c" +:+ "ollection") t),
    (includes ("/c" +:+ "ollections") t), (includes "/c" t) eqn:E;
    try reflexivity; exfalso;
    first [ by discriminate (H1 eq_refl) | by discriminate (H2 eq_refl)
          | by discriminate (H3 eq_refl) | by discriminate (H4 eq_refl)
          | by discriminate (H5 eq_refl) ].
Qed.

End LinkFilterFacts.

(** X10.  [looksLikeCategoryLink] accepts a link exactly when no exclusion
    pattern matches its href or its text and one of these holds: the href
    contains [/c], [/dept] or [/department] in any letter case; the href is
    one segment of lower-case letters, digits and dashes; the text contains
    a category word.  The alternatives [category], [categories], [cat],
    [collection] and [collections] of the include pattern add nothing to
    [c]: an href such as [/careers] is accepted on that ground. *)
Theorem looksLikeCategoryLink_spec (href text : string) :
  looksLikeCategoryLink href text =
  negb (linkExcluded href || linkExcluded text) &&
  (includes "/c" (foldCase href) || includes "/dept" (foldCase href) ||
   includes "/department" (foldCase href) ||
   testSimplePath href || hasCategoryWord text).
Proof.
  unfold looksLikeCategoryLink, linkExcluded, hasCategoryWord.
  cbn [existsb]. rewrite !orb_false_r, include_pattern_collapse.
  set (e1 := testSlashWord _). set (e2 := testExtension _).
  set (e3 := testPrefix _). set (e4 := testSlashWord _).
  destruct (e1 href), (e1 text), (e2 href), (e2 text), (e3 href), (e3 text),
    (e4 href), (e4 text); cbn [orb andb negb]; try reflexivity;
    by destruct (_ || _ || _ || _).
Qed.

(** ** The root URL *)

Lemma stripTrailingSlash_slash (s : string) : stripTrailingSlash (s +:+ "/") = s.
Proof.
  induction s as [|c s IH]; [done|].
  rewrite append_cons. cbn [stripTrailingSlash].
  destruct (s +:+ "/") as [|d r] eqn:Happ; [by destruct s|]. by rewrite IH.
Qed.

Lemma stripTrailingSlash_other (s : string) :
  endsWith "/" s = false → stripTrailingSlash s = s.
Proof.
  induction s as [|c s IH]; [done|].
  cbn [endsWith stripTrailingSlash]. intros [Heq Hrest]%orb_false_iff.
  destruct s as [|d r].
  - destruct (isSlash c) eqn:Hc; [|done].
    apply N.eqb_eq in Hc. unfold code in Hc.
    rewrite <- (ascii_N_embedding c), Hc in Heq. discriminate Heq.
  - by rewrite IH.
Qed.

(** X11.  The constructor removes one trailing slash from the root URL and
    no more: a root URL given with a trailing slash is analysed exactly as
    the same URL without it, request for request, and a second trailing
    slash stays in the base. *)
Theorem analyze_trailing_slash `{Host} (w : World) (rootUrl : string) (pages : option number) :
  endsWith "/" rootUrl = false →
  analyze w (rootUrl +:+ "/") pages = analyze w rootUrl pages ∧
  baseUrl (analyze w rootUrl pages).2 = rootUrl ∧
  baseUrl (analyze w ((rootUrl +:+ "/") +:+ "/") pages).2 = rootUrl +:+ "/".
Proof.
  intros Hend.
  assert (Hbase : ∀ url, baseUrl (analyze w url pages).2 = stripTrailingSlash url).
  { intros url. destruct (analyze_run w url pages) as (_ & _ & ? & _). done. }
  split; [|split].
  - unfold analyze, new_SiteCrawler.
    by rewrite stripTrailingSlash_slash, stripTrailingSlash_other.
  - by rewrite Hbase, stripTrailingSlash_other.
  - by rewrite Hbase, stripTrailingSlash_slash.
Qed.

Lemma analyze_trailing_slash_witness :
  endsWith "/" "https://example.com" = false ∧
  Tour.slashRun = Demo.shopRun.
Proof.
  split; [reflexivity|].
  exact (proj1 (@analyze_trailing_slash Demo.shop tt "https://example.com" None eq_refl)).
Defined.

(** ** Scenario names *)

Section Names.

Lemma snake_char_lower c :
  isLower c || isDigit c || (code c =? 95)%N = true → lowerChar c = c.
Proof.
  destruct c as [[] [] [] [] [] [] [] []]; vm_compute; intros; congruence.
Qed.

Lemma underscore_code c : (code c =? 95)%N = true → c = "_"%char.
Proof.
  intros Hc%N.eqb_eq. unfold code in Hc.
  by rewrite <- (ascii_N_embedding c), Hc.
Qed.

Lemma squashFrom_snake s : ∀ inRun, isSnake inRun (squashFrom inRun s) = true.
Proof.
  induction s as [|c s IH]; intros inRun; [done|].
  cbn [squashFrom]. destruct (isLower c || isDigit c) eqn:Hc.
  - cbn [isSnake]. by rewrite Hc.
  - destruct inRun; [apply IH|]. cbn [isSnake]. by rewrite IH.
Qed.

Lemma squashFrom_fixed s : ∀ inRun, isSnake inRun s = true → squashFrom inRun s = s.
Proof.
  induction s as [|c s IH]; intros inRun; [done|].
  cbn [isSnake squashFrom]. destruct (isLower c || isDigit c).
  - intros Hs. by rewrite IH.
  - intros [[Hc Hrun%negb_true_iff]%andb_true_iff Hs]%andb_true_iff. subst inRun.
    by rewrite (underscore_code c Hc), IH.
Qed.

Lemma toLowerCase_snake s : ∀ b, isSnake b s = true → toLowerCase s = s.
Proof.
  unfold toLowerCase.
  induction s as [|c s IH]; intros b; [done|].
  cbn [isSnake map_chars]. destruct (isLower c || isDigit c) eqn:Hc.
  - intros Hs. rewrite (IH _ Hs), snake_char_lower; [done|]. by rewrite Hc.
  - intros [[Hu _]%andb_true_iff Hs]%andb_true_iff.
    rewrite (IH _ Hs), snake_char_lower; [done|]. by rewrite Hc, Hu.
Qed.

End Names.

(** X12.  [toPythonFunctionName] gives a name made of lower-case letters,
    digits and underscores with no two underscores in a row; on a name of
    that kind it changes nothing, so applying it twice is applying it
    once. *)
Theorem toPythonFunctionName_snake (name : string) :
  isSnake false (toPythonFunctionName name) = true ∧
  toPythonFunctionName (toPythonFunctionName name) = toPythonFunctionName name ∧
  (isSnake false name = true → toPythonFunctionName name = name).
Proof.
  assert (Hfix : ∀ s, isSnake false s = true → toPythonFunctionName s = s).
  { intros s Hs. unfold toPythonFunctionName.
    by rewrite (toLowerCase_snake s false Hs), squashFrom_fixed. }
  assert (Hsnake : isSnake false (toPythonFunctionName name) = true)
    by apply squashFrom_snake.
  split; [exact Hsnake|]. split; [by apply Hfix|apply Hfix].
Qed.

(** ** Scenarios *)

Section ScenarioFacts.

Lemma NoDup_names (names : list string) :
  bool_decide (NoDup names) = true → NoDup names.
Proof. apply bool_decide_eq_true_1. Qed.


Lemma bind_categorySteps_length (l : list SiteEntity) :
  length (mbind categorySteps l) = (4 * length l)%nat.
Proof.
  induction l as [|e l IH]; [done|].
  change (mbind categorySteps (e :: l)) with (categorySteps e ++ mbind categorySteps l).
  rewrite length_app, IH. simpl. lia.
Qed.

End ScenarioFacts.

(** X13.  [generateScenarios] gives between two and five scenarios with
    pairwise different names: Homepage Verification first, Full Site Crawl
    last, and between them Category Browsing exactly when the entity list
    is not empty, Product Detail Verification exactly when the template map
    has a PDP entry, and Search Functionality exactly when it has a Search
    entry.  Every scenario starts with a navigation step. *)
Theorem generateScenarios_shape (a : Analysis) :
  let scenarios := generateScenarios a in
  let names := name <$> scenarios in
  (2 ≤ length scenarios ≤ 5)%nat ∧
  head names = Some "Homepage Verification" ∧
  last names = Some "Full Site Crawl" ∧
  NoDup names ∧
  ("Category Browsing" ∈ names ↔ entities (structure a) ≠ []) ∧
  ("Product Detail Verification" ∈ names ↔ is_Some (templates (structure a) !! PDP)) ∧
  ("Search Functionality" ∈ names ↔ is_Some (templates (structure a) !! SEARCH)) ∧
  Forall (fun s => action <$> head (steps s) = Some NAVIGATE) scenarios.
Proof.
  intros scenarios names. unfold names, scenarios, generateScenarios.
  assert (Hent : entities (structure a) ≠ [] ∨ ¬ entities (structure a) ≠ []).
  { destruct (entities (structure a)); [right; by intros Hne|by left]. }
  assert (Hlen : (0 <? length (entities (structure a)))%nat
                 = bool_decide (entities (structure a) ≠ [])).
  { by destruct (entities (structure a)). }
  rewrite Hlen. clear Hlen.
  destruct Hent as [Hent|Hent];
    [rewrite (bool_decide_eq_true_2 _ Hent)|rewrite (bool_decide_eq_false_2 _ Hent)];
    (destruct (bool_decide_reflect (is_Some (templates (structure a) !! PDP)))
       as [Hp|Hp]);
    (destruct (bool_decide_reflect (is_Some (templates (structure a) !! SEARCH)))
       as [Hs|Hs]);
    cbn [app fmap list_fmap name length head last];
    (split; [lia|]); (split; [reflexivity|]); (split; [reflexivity|]);
    (split; [apply NoDup_names; vm_compute; reflexivity|]);
    repeat match goal with
    | |- _ ∧ _ => split
    | |- (?x ∈ ?l) ↔ _ =>
        first
          [ assert (Hm : x ∈ l)
              by (apply (bool_decide_eq_true_1 _); vm_compute; reflexivity)
          | assert (Hm : x ∉ l)
              by (apply (bool_decide_eq_false_1 _); vm_compute; reflexivity) ];
        clear -Hm Hent Hp Hs; tauto
    | |- Forall _ _ => repeat constructor
    end.
Qed.

Lemma bind_categorySteps_targets (l : list SiteEntity) :
  omap target (mbind categorySteps l) = entityUrl <$> l.
Proof.
  induction l as [|e l IH]; [done|].
  change (mbind categorySteps (e :: l)) with (categorySteps e ++ mbind categorySteps l).
  rewrite omap_app, IH. done.
Qed.

Lemma categoriesOf_sublist (s : SiteStructure) :
  categoriesOf s `sublist_of` entities s.
Proof.
  unfold categoriesOf. induction (entities s) as [|e l IH]; [done|].
  cbn [List.filter]. destruct (bool_decide _); [by apply sublist_skip|by apply sublist_cons].
Qed.

(** X14.  The steps of the two category scenarios.  Category Browsing
    navigates to the domain and then to the first five Category entities,
    in order, with four steps for each, so it has [1 + 4 * min 5 n] steps,
    at most 21.  Full Site Crawl has navigation steps only: to the domain
    and then to every Category entity, in order.  Entities of another type
    are left out of both. *)
Theorem category_scenarios_steps (a : Analysis) :
  let cats := categoriesOf (structure a) in
  let browse := steps (createCategoryBrowsingScenario a) in
  let crawl := steps (createFullCrawlScenario a) in
  cats `sublist_of` entities (structure a) ∧
  Forall (fun e => entityType e = EntCATEGORY) cats ∧
  omap target browse = domain (structure a) :: (entityUrl <$> take 5 cats) ∧
  length browse = (1 + 4 * (5 `min` length cats))%nat ∧
  (length browse ≤ 21)%nat ∧
  Forall (fun s => action s = NAVIGATE) crawl ∧
  target <$> crawl = Some <$> (domain (structure a) :: (entityUrl <$> cats)).
Proof.
  intros cats browse crawl.
  assert (Hlen : length browse = (1 + 4 * (5 `min` length cats))%nat).
  { unfold browse, createCategoryBrowsingScenario. cbn [steps length].
    by rewrite bind_categorySteps_length, length_take. }
  split; [apply categoriesOf_sublist|]. split.
  { unfold cats, categoriesOf. apply Forall_forall. intros e Hin.
    apply list_elem_of_In, filter_In in Hin as [_ Hin]. by apply bool_decide_eq_true in Hin. }
  split.
  { unfold browse, createCategoryBrowsingScenario. cbn [steps omap list_omap navigateTo target].
    by rewrite bind_categorySteps_targets. }
  split; [exact Hlen|]. split; [lia|]. split.
  - unfold crawl, createFullCrawlScenario. cbn [steps]. constructor; [done|].
    apply Forall_fmap, Forall_true. done.
  - unfold crawl, createFullCrawlScenario. cbn [steps fmap list_fmap navigateTo target].
    f_equal. rewrite <- !list_fmap_compose. done.
Qed.

Section ScenarioRuns.
Context `{Host}.

(** A map read back key by key, in the order of its writes. *)
Lemma entries_of_writes (writes : list (PageTemplateType * PageTemplate))
    (m : gmap PageTemplateType PageTemplate) :
  (∀ key value, (key, value) ∈ writes → m !! key = Some value) →
  omap (fun key => (fun tpl => (key, tpl)) <$> m !! key) writes.*1 = writes.
Proof.
  induction writes as [|[key value] writes IH]; intros Hm; [done|].
  cbn [fmap list_fmap fst omap list_omap].
  rewrite (Hm key value) by (apply elem_of_cons; by left).
  cbn [fmap option_fmap option_map].
  f_equal. apply IH. intros k v Hin. apply Hm. apply elem_of_cons. by right.
Qed.

Lemma run_writes (w : World) (rootUrl : string) (pages : option number) :
  let run := analyze w rootUrl pages in
  NoDup (templateWrites (journal run.2)).*1 ∧
  templates run.1 = list_to_map (templateWrites (journal run.2)) ∧
  ∀ key, key ∈ (templateWrites (journal run.2)).*1 →
         key = HOME ∨ key = CATEGORY ∨ key = PDP.
Proof.
  intros run.
  destruct (analyze_journal w rootUrl pages)
    as (o_robots & o_root & tail & _ & _ & Hlog & _ & _ & _ & Htail).
  destruct (analyze_run w rootUrl pages)
    as (_ & _ & _ & _ & _ & _ & _ & [_ [Hnd Heq] _ _] & _).
  fold run in Hlog, Heq, Hnd. simpl in Heq.
  split; [exact Hnd|]. split; [exact Heq|].
  intros key [[k value] [-> Hin]]%list_elem_of_fmap. cbn [fst].
  apply templateWrites_elem in Hin. rewrite Hlog in Hin.
  apply elem_of_app in Hin as [Hin|Hin].
  - apply elem_of_cons in Hin as [?|Hin]; [done|].
    by apply list_elem_of_singleton in Hin.
  - destruct (truthy (bodyOf o_root)); [|subst tail; by apply elem_of_nil in Hin].
    destruct Htail as (ext & -> & Hext).
    apply elem_of_cons in Hin as [[= -> _]|Hin]; [by left|].
    rewrite Forall_forall in Hext. right. exact (proj2 (Hext _ Hin)).
Qed.

Lemma run_entries (w : World) (rootUrl : string) (pages : option number) :
  templateEntries (analysisOf (analyze w rootUrl pages))
  = templateWrites (journal (analyze w rootUrl pages).2).
Proof.
  destruct (run_writes w rootUrl pages) as (Hnd & Heq & _).
  unfold templateEntries, analysisOf. cbn [structure keyOrder].
  apply entries_of_writes. intros key value Hin.
  rewrite Heq. by apply elem_of_list_to_map_1.
Qed.


End ScenarioRuns.



(** ** The server *)

Section ServerFacts.
Context `{Host}.

Lemma run_siteMap_budget (w : World) (rootUrl : string) (m : number) :
  number_le (ofZ 0) m = true →
  number_le (ofNat (length (siteMap (analyze w rootUrl (Some m)).1))) m = true.
Proof.
  intros Hpos.
  destruct (analyze_run w rootUrl (Some m))
    as (o_robots & o_root & _ & Hmax & _ & _ & _ & [_ _ Hmap _] & Hbudget & _).
  destruct (Hbudget Hpos) as (_ & Hle & _).
  rewrite Hmax in Hle. simpl in Hmap, Hle. by rewrite Hmap.
Qed.

Lemma run_siteMap_none (w : World) (rootUrl : string) (m : number) :
  number_le m (ofZ 1) = true → siteMap (analyze w rootUrl (Some m)).1 = [].
Proof.
  intros Hsmall.
  destruct (analyzeSite_unfold (new_SiteCrawler w rootUrl (Some m)) eq_refl eq_refl)
    as (w0 & o_robots & w1 & o_root & _ & _ & Hrun).
  cbn [baseUrl new_SiteCrawler maxPages] in Hrun.
  destruct (truthy (bodyOf o_root)) as [html|].
  - cbn zeta in Hrun. rewrite crawlLinks_full in Hrun.
    + unfold analyze. by rewrite Hrun.
    + cbn [visitedUrls maxPages]. rewrite size_singleton. exact Hsmall.
  - unfold analyze. by rewrite Hrun.
Qed.

Lemma templateViews_types (a : Analysis) :
  view_type <$> templateViews a = (templateEntries a).*1.
Proof. unfold templateViews. by rewrite <- list_fmap_compose. Qed.

Lemma keys_at_most_three (keys : list PageTemplateType) :
  NoDup keys → (∀ key, key ∈ keys → key = HOME ∨ key = CATEGORY ∨ key = PDP) →
  (length keys ≤ 3)%nat.
Proof.
  intros Hnd Hkeys.
  change 3%nat with (length [HOME; CATEGORY; PDP]).
  apply submseteq_length, NoDup_submseteq; [exact Hnd|].
  intros key Hin. rewrite !elem_of_cons.
  destruct (Hkeys key Hin) as [->|[->| ->]]; auto.
Qed.

Lemma entitiesOfType_run (w : World) (rootUrl : string) (pages : option number) :
  let s := (analyze w rootUrl pages).1 in
  entitiesOfType EntCATEGORY s = entities s ∧ entitiesOfType EntSUBCATEGORY s = [] ∧
  List.filter (fun e => bool_decide (entityType e = EntCATEGORY)
                        || bool_decide (entityType e = EntSUBCATEGORY)) (entities s)
  = entities s.
Proof.
  intros s.
  destruct (analyze_journal w rootUrl pages)
    as (_ & _ & _ & _ & _ & _ & _ & _ & Hent & _).
  fold s in Hent. unfold entitiesOfType.
  induction Hent as [|e l He _ (IH1 & IH2 & IH3)]; [done|].
  cbn [List.filter]. rewrite He. cbn. by rewrite IH1, IH2, IH3.
Qed.

Lemma cached_hit (cache : gmap string Analysis) (w : World) (args : Args)
    (url : string) (a : Analysis) :
  truthy (arg_url args) = Some url →
  cached (mkServer (<[url := a]> cache) w) args = inr a.
Proof. intros Hurl. unfold cached. rewrite Hurl. cbn. by rewrite lookup_insert_eq. Qed.

End ServerFacts.



(** X17.  The reply of [analyze_site] for a [url] that is not empty.  The
    call succeeds; the domain is the [url] without its trailing slash; the
    summary counts what the reply lists: [templatesFound] templates, at
    most three, with pairwise different types among Home, Category and
    PDP; [categoriesFound] categories; no subcategory; and at least as
    many pages analyzed as categories, at most 20.  The robots line is
    Available exactly when the model carries a robots text that is not
    empty. *)
Theorem handleAnalyzeSite_reply `{Host} (server : SiteAuditServer) (args : Args)
    (url : string) :
  arg_url args = Some url → nonEmpty url = true →
  ∃ reply server',
    handleAnalyzeSite server args = (inr reply, server') ∧
    reply_domain reply = stripTrailingSlash url ∧
    templatesFound (reply_summary reply) = length (reply_templates reply) ∧
    (templatesFound (reply_summary reply) ≤ 3)%nat ∧
    NoDup (view_type <$> reply_templates reply) ∧
    (∀ key, key ∈ view_type <$> reply_templates reply →
            key = HOME ∨ key = CATEGORY ∨ key = PDP) ∧
    categoriesFound (reply_summary reply) = length (reply_categories reply) ∧
    subcategoriesFound (reply_summary reply) = 0%nat ∧
    (categoriesFound (reply_summary reply) ≤ pagesAnalyzed (reply_summary reply))%nat ∧
    (pagesAnalyzed (reply_summary reply) ≤ 20)%nat ∧
    (∃ a, siteCache server' !! url = Some a ∧
          reply_categories reply = entities (structure a) ∧
          (reply_robotsTxt reply = "Available"
           ↔ ∃ text, robotsTxt (structure a) = Some text ∧ text ≠ "") ∧
          (reply_robotsTxt reply = "Not found"
           ↔ ¬ ∃ text, robotsTxt (structure a) = Some text ∧ text ≠ "")).
Proof.
  intros Hurl Hne. unfold handleAnalyzeSite. rewrite Hurl. cbn [truthy]. rewrite Hne.
  set (pages := match arg_maxPages args with
                | Some n => if nonZero n then n else ofZ 50
                | None => ofZ 50
                end).
  set (run := analyze (outside server) url (Some pages)).
  destruct (run_writes (outside server) url (Some pages)) as (Hnd & _ & Hkeys).
  pose proof (run_entries (outside server) url (Some pages)) as Hentries.
  destruct (entitiesOfType_run (outside server) url (Some pages)) as (Hcat & Hsub & _).
  destruct (analyze_journal (outside server) url (Some pages))
    as (_ & _ & _ & _ & _ & _ & _ & Hmap & _).
  destruct (analyze_run (outside server) url (Some pages))
    as (_ & _ & _ & _ & Hdom & _ & _ & [_ _ _ Hsubl] & _).
  fold run in Hnd, Hkeys, Hentries, Hcat, Hsub, Hmap, Hdom, Hsubl. simpl in Hsubl.
  eexists _, _. split; [reflexivity|].
  cbn [reply_domain reply_summary reply_templates reply_categories reply_robotsTxt
       templatesFound categoriesFound subcategoriesFound pagesAnalyzed siteCache].
  change (structure (analysisOf run)) with run.1.
  rewrite templateViews_types, Hentries, Hcat, Hsub.
  split; [exact Hdom|]. split; [done|]. split.
  { unfold templateViews. rewrite length_fmap, Hentries.
    rewrite <- (length_fmap fst). by apply keys_at_most_three. }
  split; [exact Hnd|]. split; [exact Hkeys|]. split; [done|]. split; [done|]. split.
  { apply sublist_length in Hsubl. by rewrite length_fmap in Hsubl. }
  split; [exact Hmap|].
  exists (analysisOf run). split; [by rewrite lookup_insert_eq|]. split; [done|].
  change (structure (analysisOf run)) with run.1.
  set (line := match truthy (robotsTxt run.1) with
               | Some _ => "Available"
               | None => "Not found"
               end).
  assert (Hcase : (line = "Available" ∧ ∃ text, robotsTxt run.1 = Some text ∧ text ≠ "")
                  ∨ (line = "Not found"
                     ∧ ¬ ∃ text, robotsTxt run.1 = Some text ∧ text ≠ "")).
  { unfold line. destruct (robotsTxt run.1) as [text|]; cbn [truthy].
    - unfold nonEmpty. destruct (String.eqb_spec text "") as [->|Htext]; cbn [negb].
      + right. split; [done|]. by intros (? & [= <-] & ?).
      + left. eauto.
    - right. split; [done|]. by intros (? & ? & ?). }
  destruct Hcase as [[-> Hyes]|[-> Hno]]; split; split; try done.
Qed.

Lemma handleAnalyzeSite_reply_witness :
  ∃ reply server',
    @handleAnalyzeSite Demo.shop (@new_SiteAuditServer Demo.shop tt)
      (mkArgs (Some Demo.root) None None) = (inr reply, server') ∧
    reply_domain reply = "https://example.com" ∧
    (templatesFound (reply_summary reply) ≤ 3)%nat.
Proof.
  destruct (@handleAnalyzeSite_reply Demo.shop (@new_SiteAuditServer Demo.shop tt)
              (mkArgs (Some Demo.root) None None) Demo.root eq_refl eq_refl)
    as (reply & server' & Hcall & Hdom & _ & Hthree & _).
  exists reply, server'. split; [exact Hcall|]. split; [exact Hdom|exact Hthree].
Defined.

Section ServerBudget.
Context `{Host}.

Lemma handleAnalyzeSite_inr (server server' : SiteAuditServer) (args : Args)
    (reply : AnalyzeReply) :
  handleAnalyzeSite server args = (inr reply, server') →
  ∃ url pages,
    truthy (arg_url args) = Some url ∧
    pages = match arg_maxPages args with
            | Some n => if nonZero n then n else ofZ 50
            | None => ofZ 50
            end ∧
    let a := analysisOf (analyze (outside server) url (Some pages)) in
    server' = mkServer (<[url := a]> (siteCache server))
                       (world (analyze (outside server) url (Some pages)).2) ∧
    reply_domain reply = domain (structure a) ∧
    reply_templates reply = templateViews a ∧
    reply_categories reply = entities (structure a) ∧
    templatesFound (reply_summary reply) = length (templateViews a) ∧
    categoriesFound (reply_summary reply)
      = length (entitiesOfType EntCATEGORY (structure a)) ∧
    pagesAnalyzed (reply_summary reply) = length (siteMap (structure a)).
Proof.
  unfold handleAnalyzeSite.
  destruct (truthy (arg_url args)) as [url|]; [|done].
  intros [= <- <-]. eexists url, _. split; [done|]. split; [done|]. done.
Qed.

Lemma run_scenarios_length (w : World) (rootUrl : string) (pages : option number) :
  (2 ≤ length (generateScenarios (analysisOf (analyze w rootUrl pages))) ≤ 4)%nat.
Proof.
  destruct (run_writes w rootUrl pages) as (_ & Heq & Hkeys).
  unfold generateScenarios, analysisOf. cbn [structure].
  assert (Hsearch : templates (analyze w rootUrl pages).1 !! SEARCH = None).
  { rewrite Heq. apply not_elem_of_list_to_map_1. intros Hin.
    by destruct (Hkeys _ Hin) as [|[|]]. }
  rewrite Hsearch. rewrite (bool_decide_eq_false_2 (is_Some None)) by (by intros [? ?]).
  destruct (0 <? _)%nat, (bool_decide (is_Some (_ !! PDP))); simpl; lia.
Qed.

End ServerBudget.

(** X18.  The page budget of [analyze_site].  A call without [maxPages],
    or with a [maxPages] that is falsy (0 or NaN), is the call with
    [maxPages] 50.  For a positive [maxPages] the reply reports at most
    that many pages analyzed; for a [maxPages] that is at most 1 and not
    zero, so for 1 and for every negative value, it reports none. *)
Theorem handleAnalyzeSite_budget `{Host} (server server' : SiteAuditServer)
    (args : Args) (reply : AnalyzeReply) :
  handleAnalyzeSite server args = (inr reply, server') →
  (arg_maxPages args = None ∨ arg_maxPages args = Some (ofZ 0) ∨
   (∃ n, arg_maxPages args = Some n ∧ nonZero n = false) →
   handleAnalyzeSite server (mkArgs (arg_url args) (Some (ofZ 50)) (arg_format args))
   = (inr reply, server')) ∧
  (∀ n, arg_maxPages args = Some n → number_lt (ofZ 0) n = true →
        number_le (ofNat (pagesAnalyzed (reply_summary reply))) n = true) ∧
  (∀ n : Z, arg_maxPages args = Some (ofZ n) → (0 < n)%Z →
        (Z.of_nat (pagesAnalyzed (reply_summary reply)) ≤ n)%Z) ∧
  (∀ n, arg_maxPages args = Some n → nonZero n = true → number_le n (ofZ 1) = true →
        pagesAnalyzed (reply_summary reply) = 0%nat ∧ reply_categories reply = []) ∧
  (∀ n : Z, arg_maxPages args = Some (ofZ n) → (n < 0)%Z ∨ n = 1%Z →
        pagesAnalyzed (reply_summary reply) = 0%nat ∧ reply_categories reply = []).
Proof.
  intros Hcall.
  assert (Hpositive : ∀ n, arg_maxPages args = Some n → number_lt (ofZ 0) n = true →
            number_le (ofNat (pagesAnalyzed (reply_summary reply))) n = true).
  { intros n Hn Hpos.
    apply handleAnalyzeSite_inr in Hcall
      as (url & pages & _ & -> & _ & _ & _ & _ & _ & _ & ->).
    rewrite Hn, (number_positive_nonZero _ Hpos).
    apply run_siteMap_budget. by apply (number_lt_le _ 0). }
  assert (Hsmall : ∀ n, arg_maxPages args = Some n → nonZero n = true →
            number_le n (ofZ 1) = true →
            pagesAnalyzed (reply_summary reply) = 0%nat ∧ reply_categories reply = []).
  { intros n Hn Htruthy Hone.
    apply handleAnalyzeSite_inr in Hcall
      as (url & pages & _ & -> & _ & _ & _ & -> & _ & _ & ->).
    rewrite Hn, Htruthy. cbn [analysisOf structure].
    destruct (analyze_run (outside server) url (Some n))
      as (_ & _ & _ & _ & _ & _ & _ & [_ _ _ Hsub] & _).
    simpl in Hsub. rewrite run_siteMap_none in * by done.
    split; [done|]. apply sublist_nil_r in Hsub. by apply fmap_nil_inv in Hsub. }
  split; [|split; [exact Hpositive|split; [|split; [exact Hsmall|]]]].
  - intros Hdefault. rewrite <- Hcall. unfold handleAnalyzeSite. cbn [arg_url arg_maxPages].
    by destruct Hdefault as [-> |[-> |(n & -> & ->)]].
  - intros n Hn Hpos. apply number_le_integers, (Hpositive _ Hn).
    by apply number_lt_integers.
  - intros n Hn Hcases. apply (Hsmall _ Hn).
    + cbn. apply Bool.negb_true_iff, Bool.not_true_iff_false.
      rewrite Qeq_bool_iff. unfold Qeq. simpl. lia.
    + apply number_le_integers. lia.
Qed.

Lemma handleAnalyzeSite_budget_witness :
  ∃ reply server',
    @handleAnalyzeSite Demo.shop (@new_SiteAuditServer Demo.shop tt)
      (mkArgs (Some Demo.root) (Some (ofZ 0)) None) = (inr reply, server') ∧
    @handleAnalyzeSite Demo.shop (@new_SiteAuditServer Demo.shop tt)
      (mkArgs (Some Demo.root) (Some (ofZ 50)) None) = (inr reply, server').
Proof.
  eexists _, _.
  assert (Hcall : @handleAnalyzeSite Demo.shop (@new_SiteAuditServer Demo.shop tt)
                    (mkArgs (Some Demo.root) (Some (ofZ 0)) None) = (inr _, _))
    by reflexivity.
  split; [exact Hcall|].
  apply (proj1 (@handleAnalyzeSite_budget Demo.shop _ _ _ _ Hcall)). right. by left.
Defined.

(** X19.  Reading back what [analyze_site] stored.  After a call that
    succeeded, the cache has an entry under the [url] of the call, as the
    string came, and every other key is as before.  With the same
    arguments, [get_site_categories] gives the domain, the categories and
    the category count of the reply, [get_page_templates] its templates and
    their count, and [generate_crawl_scenarios], asked for JSON, gives
    between two and four scenarios for that domain. *)
Theorem analyze_then_read `{Host} (server server' : SiteAuditServer)
    (args : Args) (reply : AnalyzeReply) :
  handleAnalyzeSite server args = (inr reply, server') →
  (∃ url, truthy (arg_url args) = Some url ∧ is_Some (siteCache server' !! url) ∧
          ∀ other, other ≠ url → siteCache server' !! other = siteCache server !! other) ∧
  handleGetCategories server' args
  = inr {| categories_domain := reply_domain reply;
           totalCategories := categoriesFound (reply_summary reply);
           categories_list := reply_categories reply |} ∧
  handleGetTemplates server' args
  = inr {| templates_domain := reply_domain reply;
           totalTemplates := templatesFound (reply_summary reply);
           templates_list := reply_templates reply |} ∧
  ∃ scenarios,
    handleGenerateScenarios server' (mkArgs (arg_url args) (arg_maxPages args) None)
    = inr (ScenariosJson (reply_domain reply) scenarios) ∧
    (2 ≤ length scenarios ≤ 4)%nat.
Proof.
  intros Hcall.
  apply handleAnalyzeSite_inr in Hcall
    as (url & pages & Hurl & _ & -> & -> & -> & -> & -> & -> & _).
  set (run := analyze (outside server) url (Some pages)).
  destruct (entitiesOfType_run (outside server) url (Some pages)) as (Hcat & _ & Hboth).
  fold run in Hcat, Hboth.
  split; [|split; [|split]].
  - exists url. split; [exact Hurl|]. cbn [siteCache]. split.
    + rewrite lookup_insert_eq. by eexists.
    + intros other Hother. by rewrite lookup_insert_ne.
  - unfold handleGetCategories. rewrite (cached_hit _ _ _ _ _ Hurl).
    cbn [analysisOf structure]. by rewrite Hboth, Hcat.
  - unfold handleGetTemplates. by rewrite (cached_hit _ _ _ _ _ Hurl).
  - exists (generateScenarios (analysisOf run)). split; [|apply run_scenarios_length].
    unfold handleGenerateScenarios.
    rewrite (cached_hit _ _ (mkArgs (arg_url args) (arg_maxPages args) None) _ _ Hurl).
    done.
Qed.

Lemma analyze_then_read_witness :
  ∃ reply server',
    @handleAnalyzeSite Demo.shop (@new_SiteAuditServer Demo.shop tt)
      (mkArgs (Some Demo.root) None None) = (inr reply, server') ∧
    is_Some (siteCache server' !! Demo.root) ∧
    siteCache server' !! "https://example.com/" = None.
Proof.
  eexists _, _.
  assert (Hcall : @handleAnalyzeSite Demo.shop (@new_SiteAuditServer Demo.shop tt)
                    (mkArgs (Some Demo.root) None None) = (inr _, _))
    by reflexivity.
  split; [exact Hcall|].
  destruct (@analyze_then_read Demo.shop _ _ _ _ Hcall)
    as ((url & Hurl & Hsome & Hother) & _).
  injection Hurl as <-. split; [exact Hsome|].
  rewrite Hother; [reflexivity|]. intros Heq. discriminate Heq.
Defined.

(** ** The template map, entry by entry *)

Section FirstKeptFacts.
Context `{Host}.

Lemma pageTemplates_app base role log1 log2 :
  pageTemplates base role (log1 ++ log2)
  = pageTemplates base role log1 ++ pageTemplates base role log2.
Proof. unfold pageTemplates. by rewrite omap_app. Qed.

Lemma pageTemplates_snoc_write base role log key value :
  pageTemplates base role (log ++ [TemplateSet key value]) = pageTemplates base role log.
Proof. by rewrite pageTemplates_app, app_nil_r. Qed.

Lemma firstOfType_snoc t tpls tpl :
  firstOfType t (tpls ++ [tpl])
  = match firstOfType t tpls with
    | Some first => Some first
    | None => if bool_decide (type tpl = t) then Some tpl else None
    end.
Proof.
  unfold firstOfType. rewrite List.filter_app. cbn [List.filter].
  destruct (List.filter _ tpls) as [|first rest]; [|done].
  by destruct (bool_decide (type tpl = t)).
Qed.

Lemma firstOfType_snoc_other t tpls tpl :
  type tpl ≠ t → firstOfType t (tpls ++ [tpl]) = firstOfType t tpls.
Proof.
  intros Hty. rewrite firstOfType_snoc, (bool_decide_eq_false_2 _ Hty).
  by destruct (firstOfType t tpls).
Qed.

End FirstKeptFacts.

Section FirstKeptLoop.
Context `{Host}.

(** Sampling a product keeps the PDP entry the template of the first
    sampled page that is a product page, and touches nothing else. *)
Lemma sampleProduct_first html tpls self tpls' self' :
  sampleProduct html tpls self = (tpls', self') →
  tpls !! PDP = firstOfType PDP (pageTemplates (baseUrl self) ProductSample (journal self)) →
  baseUrl self' = baseUrl self ∧
  pageTemplates (baseUrl self) CandidatePage (journal self')
  = pageTemplates (baseUrl self) CandidatePage (journal self) ∧
  tpls' !! CATEGORY = tpls !! CATEGORY ∧
  tpls' !! PDP
  = firstOfType PDP (pageTemplates (baseUrl self) ProductSample (journal self')).
Proof.
  unfold sampleProduct, bind, this, ret. cbn beta zeta. intros Hrun Hpdp.
  destruct (extractProductLinks (cheerio_load html)) as [|first rest];
    [by injection Hrun as <- <-|].
  case_bool_decide as Hhas; [by injection Hrun as <- <-|].
  assert (Hnone : tpls !! PDP = None).
  { destruct (tpls !! PDP) eqn:E; [|done]. destruct Hhas. eauto. }
  rewrite Hnone in Hpdp.
  set (productUrl := resolveUrl (baseUrl self) (linkUrl first)) in *.
  destruct (fetchPage_cases ProductSample productUrl self)
    as [[_ Heq]|(_ & w & o & _ & Heq)]; rewrite Heq in Hrun.
  { cbn [truthy] in Hrun. injection Hrun as <- <-. by rewrite Hnone. }
  assert (Hcands : ∀ tail,
    pageTemplates (baseUrl self) CandidatePage
      ((journal self ++ [PageRequest ProductSample productUrl o]) ++ tail)
    = pageTemplates (baseUrl self) CandidatePage (journal self)
      ++ pageTemplates (baseUrl self) CandidatePage tail).
  { intros tail. rewrite !pageTemplates_app. by rewrite app_nil_r. }
  assert (Hsamples : ∀ tail,
    pageTemplates (baseUrl self) ProductSample
      ((journal self ++ [PageRequest ProductSample productUrl o]) ++ tail)
    = pageTemplates (baseUrl self) ProductSample (journal self)
      ++ from_option (fun body => [analyzePageTemplate (baseUrl self) productUrl body]) []
           (truthy (bodyOf o))
      ++ pageTemplates (baseUrl self) ProductSample tail).
  { intros tail. rewrite !pageTemplates_app, <- app_assoc. do 2 f_equal.
    cbn. by destruct (truthy (bodyOf o)). }
  destruct (truthy (bodyOf o)) as [productHtml|] eqn:Hbody; cycle 1.
  { injection Hrun as <- <-. cbn [baseUrl journal].
    specialize (Hcands []). specialize (Hsamples []). rewrite app_nil_r in Hcands, Hsamples.
    rewrite Hcands, Hsamples. cbn. rewrite !app_nil_r. by rewrite Hnone. }
  cbn [baseUrl] in Hrun.
  set (pdpTemplate := analyzePageTemplate (baseUrl self) productUrl productHtml) in *.
  case_bool_decide as Hty.
  - unfold templates_set in Hrun. injection Hrun as <- <-. cbn [baseUrl journal].
    rewrite Hcands, Hsamples. cbn. rewrite !app_nil_r.
    split; [done|]. split; [done|]. split; [by rewrite lookup_insert_ne|].
    rewrite lookup_insert_eq, firstOfType_snoc, <- Hpdp.
    by rewrite (bool_decide_eq_true_2 _ Hty).
  - injection Hrun as <- <-. cbn [baseUrl journal].
    specialize (Hcands []). specialize (Hsamples []). rewrite app_nil_r in Hcands, Hsamples.
    rewrite Hcands, Hsamples. cbn. rewrite !app_nil_r.
    split; [done|]. split; [done|]. split; [done|].
    by rewrite firstOfType_snoc_other, Hnone.
Qed.

(** A candidate page that came: the Category entry stays the template of
    the first candidate that is a category, the page itself included. *)
Lemma visitCandidate_first link fullUrl html found self found' self' cands :
  visitCandidate link fullUrl html found self = (found', self') →
  pageTemplates (baseUrl self) CandidatePage (journal self)
  = cands ++ [analyzePageTemplate (baseUrl self) fullUrl html] →
  f_templates found !! CATEGORY = firstOfType CATEGORY cands →
  f_templates found !! PDP
  = firstOfType PDP (pageTemplates (baseUrl self) ProductSample (journal self)) →
  baseUrl self' = baseUrl self ∧ FirstKept self' (f_templates found').
Proof.
  unfold visitCandidate, bind, this, ret. cbn beta zeta.
  set (template := analyzePageTemplate (baseUrl self) fullUrl html).
  intros Hrun Hcands Hcat Hpdp.
  case_bool_decide as Hlisting; cycle 1.
  { injection Hrun as <- <-. split; [done|]. split; cbn [f_templates]; [|done].
    rewrite Hcands, firstOfType_snoc_other; [done|]. intros Hty. apply Hlisting. by left. }
  apply listing_is_category in Hlisting. fold template in Hlisting.
  assert (Hrest : ∀ tpls1 self1,
    baseUrl self1 = baseUrl self →
    pageTemplates (baseUrl self) CandidatePage (journal self1)
    = cands ++ [template] →
    pageTemplates (baseUrl self) ProductSample (journal self1)
    = pageTemplates (baseUrl self) ProductSample (journal self) →
    tpls1 !! CATEGORY = firstOfType CATEGORY (cands ++ [template]) →
    tpls1 !! PDP = f_templates found !! PDP →
    (let '(tpls2, self2) := sampleProduct html tpls1 self1 in
     (mkFound tpls2
        (f_entities found ++ [mkSiteEntity EntCATEGORY (linkText link) fullUrl])
        (f_siteMap found ++ [fullUrl]), self2)) = (found', self') →
    baseUrl self' = baseUrl self ∧ FirstKept self' (f_templates found')).
  { intros tpls1 self1 Hbase1 Hcands1 Hsamples1 Hcat1 Hpdp1.
    destruct (sampleProduct html tpls1 self1) as [tpls2 self2] eqn:Hsample.
    intros [= <- <-]. cbn [f_templates].
    destruct (sampleProduct_first _ _ _ _ _ Hsample) as (Hbase2 & Hcands2 & Hcat2 & Hpdp2).
    { by rewrite Hbase1, Hsamples1, Hpdp1. }
    rewrite Hbase1 in Hbase2, Hcands2, Hpdp2.
    split; [done|]. unfold FirstKept. rewrite Hbase2. split.
    - by rewrite Hcat2, Hcands2, Hcands1.
    - exact Hpdp2. }
  rewrite Hlisting in Hrun.
  case_bool_decide as Hhas.
  - apply (Hrest (f_templates found) self eq_refl Hcands eq_refl); [|done|exact Hrun].
    rewrite firstOfType_snoc, <- Hcat. by destruct Hhas as [t ->].
  - assert (Hnone : f_templates found !! CATEGORY = None).
    { destruct (f_templates found !! CATEGORY) eqn:E; [|done]. destruct Hhas. eauto. }
    unfold templates_set in Hrun.
    eapply Hrest; [| | | | |exact Hrun].
    + done.
    + cbn [journal]. by rewrite pageTemplates_snoc_write.
    + cbn [journal]. by rewrite pageTemplates_snoc_write.
    + rewrite lookup_insert_eq, firstOfType_snoc, <- Hcat, Hnone.
      by rewrite (bool_decide_eq_true_2 _ Hlisting).
    + by rewrite lookup_insert_ne.
Qed.

(** The loop keeps both entries first come, first kept. *)
Lemma crawlLinks_first links : ∀ found self found' self',
  crawlLinks links found self = (found', self') →
  FirstKept self (f_templates found) →
  baseUrl self' = baseUrl self ∧ FirstKept self' (f_templates found').
Proof.
  induction links as [|link rest IH]; intros found self found' self'.
  { by intros [= <- <-]. }
  cbn [crawlLinks]. destruct (number_ge _ _); [by intros [= <- <-]|].
  set (fullUrl := resolveUrl (baseUrl self) (linkUrl link)).
  destruct (shouldVisit (baseUrl self) fullUrl); cbn [negb]; [|by apply IH].
  destruct (fetchPage_cases CandidatePage fullUrl self)
    as [[_ Heq]|(_ & w & o & _ & Heq)]; rewrite Heq.
  { cbn [truthy]. by apply IH. }
  set (self1 := mkSiteCrawler _ _ _ _ _).
  intros Hrun [Hcat Hpdp].
  assert (Hsamples1 : pageTemplates (baseUrl self) ProductSample (journal self1)
                      = pageTemplates (baseUrl self) ProductSample (journal self)).
  { unfold self1. cbn [journal]. by rewrite pageTemplates_app, app_nil_r. }
  assert (Hcands1 : pageTemplates (baseUrl self) CandidatePage (journal self1)
            = pageTemplates (baseUrl self) CandidatePage (journal self)
              ++ from_option (fun body => [analyzePageTemplate (baseUrl self) fullUrl body]) []
                   (truthy (bodyOf o))).
  { unfold self1. cbn [journal]. rewrite pageTemplates_app. f_equal.
    cbn. by destruct (truthy (bodyOf o)). }
  destruct (truthy (bodyOf o)) as [html|] eqn:Hbody.
  - destruct (visitCandidate link fullUrl html found self1) as [found2 self2] eqn:Hvisit.
    destruct (visitCandidate_first _ _ _ _ _ _ _ _ Hvisit Hcands1 Hcat) as [Hbase2 Hkept2].
    { change (baseUrl self1) with (baseUrl self). by rewrite Hsamples1. }
    destruct (IH _ _ _ _ Hrun Hkept2) as [Hbase' Hkept'].
    split; [by rewrite Hbase', Hbase2|done].
  - cbn [from_option] in Hcands1. rewrite app_nil_r in Hcands1.
    destruct (IH found self1 found' self' Hrun) as [Hbase' Hkept'].
    { split; change (baseUrl self1) with (baseUrl self);
        [by rewrite Hcands1|by rewrite Hsamples1]. }
    split; [by rewrite Hbase'|done].
Qed.

End FirstKeptLoop.

(** C7, as the code has it.  The returned template map is keyed, so it has
    at most one entry per key, and no entry is ever replaced: every key is
    written at most once in a run and the map is made of exactly those
    writes.  The entries are filled by role of the page, not by its type:
    Home holds the template of the root page, whatever type the classifier
    gave it; Category holds the template of the first candidate page that
    came and was classified Category, however many such pages are visited;
    PDP holds the template of the first sampled product page that came and
    was classified PDP (a candidate page classified PDP sets nothing); no
    other key is ever set.  The loop never changes an entry the map already
    has, and a listing page sets the entry of its type only when there is
    none. *)
Theorem analyze_templates_written_once `{Host}
    (w : World) (rootUrl : string) (pages : option number) :
  let run := analyze w rootUrl pages in
  let base := stripTrailingSlash rootUrl in
  let log := journal run.2 in
  let writes := templateWrites log in
  NoDup writes.*1 ∧
  templates run.1 = list_to_map writes ∧
  (∀ key value, (key, value) ∈ writes → templates run.1 !! key = Some value) ∧
  (∀ key, is_Some (templates run.1 !! key) → key ∈ writes.*1) ∧
  templates run.1 !! HOME = head (pageTemplates base RootPage log) ∧
  templates run.1 !! CATEGORY = firstOfType CATEGORY (pageTemplates base CandidatePage log) ∧
  templates run.1 !! PDP = firstOfType PDP (pageTemplates base ProductSample log) ∧
  (∀ key, key ≠ HOME → key ≠ CATEGORY → key ≠ PDP → templates run.1 !! key = None) ∧
  (∀ links found self,
     f_templates found ⊆ f_templates (crawlLinks links found self).1) ∧
  (∀ link fullUrl html found self,
     let template := analyzePageTemplate (baseUrl self) fullUrl html in
     type template = CATEGORY ∨ type template = PLP →
     f_templates (visitCandidate link fullUrl html found self).1 !! type template
     = Some (default template (f_templates found !! type template))).
Proof.
  intros run base log writes.
  destruct (analyze_run w rootUrl pages)
    as (o_robots & o_root & _ & _ & _ & _ & _ & [_ [Hnd Heq] _ _] & _).
  simpl in Heq. fold run in Hnd, Heq. fold log in Hnd, Heq. fold writes in Hnd, Heq.
  destruct (run_writes w rootUrl pages) as (_ & _ & Hkeys).
  fold run log writes in Hkeys.
  assert (Hentries :
    templates run.1 !! HOME = head (pageTemplates base RootPage log) ∧
    templates run.1 !! CATEGORY
    = firstOfType CATEGORY (pageTemplates base CandidatePage log) ∧
    templates run.1 !! PDP = firstOfType PDP (pageTemplates base ProductSample log)).
  { destruct (analyzeSite_unfold (new_SiteCrawler w rootUrl pages) eq_refl eq_refl)
      as (w0 & o0 & w1 & o1 & _ & _ & Hrun).
    cbn [baseUrl new_SiteCrawler maxPages] in Hrun. fold base in Hrun.
    unfold log, run, analyze.
    destruct (truthy (bodyOf o1)) as [html|] eqn:Hbody; cbn zeta in Hrun; rewrite Hrun.
    - destruct (crawlLinks _ _ _) as [found' self'] eqn:Hloop.
      cbn [fst snd templates].
      destruct (crawlLinks_first _ _ _ _ _ Hloop) as [Hbase' [Hcat Hpdp]].
      { split; reflexivity. }
      destruct (crawlLinks_added _ _ _ _ _ Hloop) as (_ & (ext & Hlog & _) & _).
      pose proof (crawlLinks_keeps (extractCategoryLinks (cheerio_load html))
                    (mkFound {[HOME := analyzePageTemplate base base html]} [] [])
                    (mkSiteCrawler base {[base]} (default (ofZ 50) pages) w1
                       ([RobotsRequest (base +:+ "/robots.txt") o0;
                         PageRequest RootPage base o1]
                        ++ [TemplateSet HOME (analyzePageTemplate base base html)])))
        as Hkeep.
      rewrite Hloop in Hkeep. cbn [fst f_templates] in Hkeep.
      cbn [baseUrl] in Hbase'. rewrite Hbase' in Hcat, Hpdp.
      split; [|split; [exact Hcat|exact Hpdp]].
      rewrite Hlog. cbn [journal]. rewrite !pageTemplates_app.
      cbn. rewrite Hbody. cbn.
      eapply lookup_weaken; [|exact Hkeep]. apply lookup_singleton_eq.
    - cbn [fst snd templates journal]. cbn. rewrite Hbody. by cbn. }
  split; [exact Hnd|]. split; [exact Heq|].
  split; [|split; [|split; [apply Hentries|split; [apply Hentries|split;
    [apply Hentries|split; [|split]]]]]].
  - intros key value Hin. rewrite Heq. by apply elem_of_list_to_map_1.
  - intros key [value Hlook]. rewrite Heq in Hlook.
    apply elem_of_list_to_map_2 in Hlook.
    apply list_elem_of_fmap. by exists (key, value).
  - intros key Hhome Hcat Hpdp. rewrite Heq. apply not_elem_of_list_to_map_1.
    intros Hin. by destruct (Hkeys _ Hin) as [|[|]].
  - intros links found self. apply crawlLinks_keeps.
  - intros link fullUrl html found self. apply visitCandidate_first_wins.
Qed.

(** C7 as stated fails in both of its parts.  In the storefront run the
    root page and the first category page are both classified Category: the
    map holds two templates of that type, one under Home and one under
    Category.  In the boutique run the first page classified PDP is the
    candidate page [/kettle]; the loop does not store it, and the PDP entry
    is the template of the product sampled later from the category page. *)
Lemma analyze_two_templates_of_one_type :
  (∃ home category,
     templates Demo.storefrontRun.1 !! HOME = Some home ∧
     templates Demo.storefrontRun.1 !! CATEGORY = Some category ∧
     type home = CATEGORY ∧ type category = CATEGORY ∧
     exampleUrls home = ["https://example.com"] ∧
     exampleUrls category = ["https://example.com/electronics"]) ∧
  (∃ kettle sample,
     @pageTemplates Boutique.boutique Demo.root CandidatePage
       (journal Boutique.boutiqueRun.2) !! 0%nat = Some kettle ∧
     type kettle = PDP ∧ exampleUrls kettle = ["https://example.com/kettle"] ∧
     templates Boutique.boutiqueRun.1 !! PDP = Some sample ∧
     exampleUrls sample = ["https://example.com/product/1234"]).
Proof.
  split.
  - eexists _, _. split; [vm_compute; reflexivity|].
    split; [vm_compute; reflexivity|]. repeat split.
  - eexists _, _. split; [vm_compute; reflexivity|].
    split; [reflexivity|]. split; [reflexivity|].
    split; [vm_compute; reflexivity|]. reflexivity.
Qed.
